(** * uptrade-fix: the trading-journal backend, embedded and verified

    The development follows the two JavaScript sources of the backend:
    - [mock-db.js]  (class [MockDatabase]: the in-memory store), and
    - the Express server that follows it in the same source file (token
      helpers, the route handlers with their mock-mode and MySQL-mode
      branches, and the nightly image clean-up job).

    JavaScript objects are finite maps from property names to scalar
    values; arrays are lists; the MySQL connection is a state monad over
    tables with an error channel carrying [err.code]. *)

From stdpp Require Import gmap strings list fin_maps sorting.
From Stdlib Require Import ZArith Lia Ascii.

Open Scope string_scope.
Open Scope Z_scope.
Open Scope list_scope.

(** ** JavaScript values *)

Module JS.

(** The scalar values a JSON body, a query string or a table cell carries.
    The numbers among them are integers. *)
Inductive value :=
| VUndefined
| VNull
| VBool (b : bool)
| VNum (n : Z)
| VStr (s : string).

#[global] Instance value_eq_dec : EqDecision value.
Proof. solve_decision. Defined.

(** [ToBoolean]: what [if (v)], [!v] and [v || w] test. *)
Definition truthy (v : value) : bool :=
  match v with
  | VUndefined | VNull => false
  | VBool b => b
  | VNum n => negb (n =? 0)
  | VStr s => negb (String.eqb s EmptyString)
  end.

(** [typeof v] *)
Definition typeof (v : value) : string :=
  match v with
  | VUndefined => "undefined"
  | VNull => "object"
  | VBool _ => "boolean"
  | VNum _ => "number"
  | VStr _ => "string"
  end.

(** [a || b] *)
Definition or_else (a b : value) : value := if truthy a then a else b.

(** [a ?? b] *)
Definition coalesce (a b : value) : value :=
  match a with
  | VUndefined | VNull => b
  | _ => a
  end.

(** [a === b] on scalars (no NaN among them). *)
Definition strict_eq (a b : value) : bool := bool_decide (a = b).

(** A query-string parameter: absent ([undefined]) or a string. *)
Definition param (p : option string) : value :=
  match p with
  | Some s => VStr s
  | None => VUndefined
  end.

(** *** Numbers of the list endpoints

    [page], [limit] and what is computed from them are doubles. They start
    as integers read by [parseInt], so each is an integer-valued double, an
    infinity or [NaN]; the sign of zero is not kept (it shows in no reply). *)
Inductive number :=
| Fin (z : Z)
| Inf (negative : bool)
| NaN.

#[global] Instance number_eq_dec : EqDecision number.
Proof. solve_decision. Defined.

(** The Number value for a mathematical integer: the nearest double, ties
    to the even significand, an infinity from [2^1024 - 2^970] on. *)
Definition nearest (z : Z) : number :=
  let a := Z.abs z in
  if a <? 2 ^ 53 then Fin z
  else
    let k := Z.log2 a - 52 in
    let q := Z.shiftr a k in
    let r := a - Z.shiftl q k in
    let half := 2 ^ (k - 1) in
    let q' := if (half <? r) || ((r =? half) && Z.odd q) then q + 1 else q in
    let m := Z.shiftl q' k in
    if 2 ^ 1024 <=? m then Inf (z <? 0) else Fin (Z.sgn z * m).

(** [a - b], [a + b] and [a * b] on such numbers. *)
Definition sub (a b : number) : number :=
  match a, b with
  | Fin x, Fin y => nearest (x - y)
  | Fin _, Inf n => Inf (negb n)
  | Inf n, Fin _ => Inf n
  | Inf n, Inf m => if Bool.eqb n m then NaN else Inf n
  | NaN, _ | _, NaN => NaN
  end.

Definition add (a b : number) : number :=
  match a, b with
  | Fin x, Fin y => nearest (x + y)
  | Fin _, Inf n | Inf n, Fin _ => Inf n
  | Inf n, Inf m => if Bool.eqb n m then Inf n else NaN
  | NaN, _ | _, NaN => NaN
  end.

Definition mul (a b : number) : number :=
  match a, b with
  | Fin x, Fin y => nearest (x * y)
  | Fin x, Inf n | Inf n, Fin x => if x =? 0 then NaN else Inf (xorb n (x <? 0))
  | Inf n, Inf m => Inf (xorb n m)
  | NaN, _ | _, NaN => NaN
  end.

(** *** [parseInt]

    Strings are sequences of bytes, a character outside ASCII being its
    UTF-8 encoding. *)

Definition byte (a : ascii) : Z := Z.of_nat (nat_of_ascii a).

(** The white space and line terminators of one byte: TAB, LF, VT, FF, CR
    and the space. *)
Definition is_ws (a : ascii) : bool :=
  let n := byte a in
  (n =? 9) || (n =? 10) || (n =? 11) || (n =? 12) || (n =? 13) || (n =? 32).

(** U+00A0, in two bytes. *)
Definition is_ws2 (a b : ascii) : bool := (byte a =? 194) && (byte b =? 160).

(** U+1680, U+2000 to U+200A, U+2028, U+2029, U+202F, U+205F, U+3000 and
    U+FEFF, in three bytes. *)
Definition is_ws3 (a b c : ascii) : bool :=
  let '(x, y, z) := (byte a, byte b, byte c) in
  ((x =? 225) && (y =? 154) && (z =? 128))
  || ((x =? 226) && (y =? 128)
      && (((128 <=? z) && (z <=? 138)) || (z =? 168) || (z =? 169) || (z =? 175)))
  || ((x =? 226) && (y =? 129) && (z =? 159))
  || ((x =? 227) && (y =? 128) && (z =? 128))
  || ((x =? 239) && (y =? 187) && (z =? 191)).

(** The string without its leading white space. *)
Fixpoint skip_ws (s : string) : string :=
  match s with
  | String a r =>
      if is_ws a then skip_ws r
      else
        match r with
        | String b r2 =>
            if is_ws2 a b then skip_ws r2
            else
              match r2 with
              | String c r3 => if is_ws3 a b c then skip_ws r3 else s
              | EmptyString => s
              end
        | EmptyString => s
        end
  | EmptyString => s
  end.

(** The value of a digit in the given radix, if it is one. *)
Definition digit_val (radix : Z) (a : ascii) : option Z :=
  let n := byte a in
  let d :=
    if (48 <=? n) && (n <=? 57) then Some (n - 48)
    else if (97 <=? n) && (n <=? 122) then Some (n - 87)
    else if (65 <=? n) && (n <=? 90) then Some (n - 55)
    else None in
  match d with
  | Some k => if k <? radix then Some k else None
  | None => None
  end.

(** The longest prefix of digits, read in [radix]; [None] when it is empty. *)
Fixpoint digits (radix : Z) (s : string) (acc : option Z) : option Z :=
  match s with
  | String a r =>
      match digit_val radix a with
      | Some d => digits radix r (Some (default 0 acc * radix + d))
      | None => acc
      end
  | EmptyString => acc
  end.

(** [parseInt(s)] with no radix argument: white space, a sign, [0x] or
    [0X] for radix 16, then digits; the integer they spell is rounded to
    the nearest double. *)
Definition parseInt (s : string) : number :=
  let s := skip_ws s in
  let '(sign, s) :=
    match s with
    | String "-" r => (-1, r)
    | String "+" r => (1, r)
    | _ => (1, s)
    end in
  let '(radix, s) :=
    match s with
    | String "0" (String "x" r) => (16, r)
    | String "0" (String "X" r) => (16, r)
    | _ => (10, s)
    end in
  match digits radix s None with
  | Some n => nearest (sign * n)
  | None => NaN
  end.

(** [parseInt(p) || d] for a query parameter [p]: [NaN] and [0] are falsy,
    and a parameter that is absent reads [NaN]. *)
Definition parseInt_or (p : option string) (d : Z) : number :=
  match p with
  | Some s =>
      match parseInt s with
      | Fin n => if n =? 0 then Fin d else Fin n
      | Inf n => Inf n
      | NaN => Fin d
      end
  | None => Fin d
  end.

(** *** [Array.prototype.slice] and [Math.ceil] of a quotient *)

(** A relative index of [slice]: [NaN] counts as 0, a negative index counts
    from the end, and the result stays within the array. *)
Definition rel_index (len : Z) (i : number) : Z :=
  match i with
  | Fin i => if i <? 0 then Z.max (len + i) 0 else Z.min i len
  | Inf true => 0
  | Inf false => len
  | NaN => 0
  end.

Definition slice {A} (l : list A) (from to : number) : list A :=
  let len := Z.of_nat (length l) in
  let k := rel_index len from in
  let final := rel_index len to in
  take (Z.to_nat (Z.max (final - k) 0)) (drop (Z.to_nat k) l).

(** The least integer that is not below [a / b], for a non-zero [b]. *)
Definition ceil_div (a b : Z) : Z := - ((- a) / b).

(** [Math.ceil(a / b)] for a count [a]: below [2^53] the double quotient
    lies strictly between the same two integers as the exact one, so its
    ceiling is exact. *)
Definition ceil_quot (a : Z) (b : number) : number :=
  match b with
  | Fin b =>
      if b =? 0 then (if a =? 0 then NaN else Inf (a <? 0)) else Fin (ceil_div a b)
  | Inf _ => Fin 0
  | NaN => NaN
  end.

End JS.

Export JS.

(** ** Objects *)

(** A JavaScript object holding scalars, by property name. *)
Abbreviation obj := (gmap string value).

(** [o.k]: a missing property reads [undefined]. *)
Definition get (o : obj) (k : string) : value := default VUndefined (o !! k).

(** The entries of an object literal or of a parsed JSON body, in insertion
    order (the keys of a parsed body are pairwise distinct). *)
Abbreviation entries := (list (string * value)).

(** [b.k] on a body given by its entries. *)
Definition field (b : entries) (k : string) : value :=
  match list_find (λ e, e.1 = k) b with
  | Some (_, e) => e.2
  | None => VUndefined
  end.

(** [{...o, ...b}]: the entries of [b] are assigned onto a copy of [o], in
    order. *)
Definition spread (o : obj) (b : entries) : obj :=
  foldl (λ acc e, <[e.1 := e.2]> acc) o b.

(** The object an object literal denotes. *)
Definition literal (b : entries) : obj := spread ∅ b.

(** [acc[key] = value] on an ordinary object, given by its entries: the key
    [__proto__] is the setter inherited from [Object.prototype], which
    ignores a scalar other than [null] and for [null] only clears the
    prototype, so that no property is added; another key is added at the
    end or, when the object has it, keeps its place and takes the value. *)
Definition set_property (acc : entries) (key : string) (v : value) : entries :=
  if String.eqb key "__proto__" then acc
  else if bool_decide (key ∈ acc.*1)
  then map (λ e, if String.eqb e.1 key then (key, v) else e) acc
  else acc ++ [(key, v)].

(** A record, or the [undefined] or [null] that is returned in its place. *)
Inductive reference :=
| Ref (o : obj)
| Nil (v : value).

(** ** The in-memory store ([class MockDatabase])

    The constructor seeds the store with demo accounts and trades; the
    operations below are stated for any contents. *)

Module MockDatabase.

Record t := { users : list obj; trades : list obj }.

Definition findUserByEmail (db : t) (email : value) : option obj :=
  snd <$> list_find (λ u, get u "email" = email) (users db).

Definition findUserById (db : t) (id : value) : option obj :=
  snd <$> list_find (λ u, get u "id" = id) (users db).

Definition createUser (db : t) (userData : obj) : obj * t :=
  (userData, {| users := users db ++ [userData]; trades := trades db |}).

Definition getAllUsers (db : t) : list obj := users db.

Definition updateUser (db : t) (id : value) (updates : entries) : option obj * t :=
  match list_find (λ u, get u "id" = id) (users db) with
  | None => (None, db)
  | Some (index, old) =>
      let new := spread old updates in
      (Some new, {| users := <[index := new]> (users db); trades := trades db |})
  end.

Definition deleteUser (db : t) (id : value) : bool * t :=
  match list_find (λ u, get u "id" = id) (users db) with
  | None => (false, db)
  | Some (index, _) =>
      (true, {| users := delete index (users db); trades := trades db |})
  end.

Definition findTradeById (db : t) (id : value) : option obj :=
  snd <$> list_find (λ t, get t "id" = id) (trades db).

Definition getTradeById (db : t) (id : value) : option obj :=
  snd <$> list_find (λ t, get t "id" = id) (trades db).

Definition getAllTrades (db : t) : list obj := trades db.

Definition getTradesByUserId (db : t) (userId : value) : list obj :=
  filter (λ t, get t "user_id" = userId) (trades db).

(** [createTrade] stores the object it is handed, as it is. *)
Definition createTrade (db : t) (tradeData : obj) : obj * t :=
  (tradeData, {| users := users db; trades := trades db ++ [tradeData] |}).

Definition updateTrade (db : t) (id : value) (updates : entries) : option obj * t :=
  match list_find (λ t, get t "id" = id) (trades db) with
  | None => (None, db)
  | Some (index, old) =>
      let new := spread old updates in
      (Some new, {| users := users db; trades := <[index := new]> (trades db) |})
  end.

Definition deleteTrade (db : t) (id : value) : bool * t :=
  match list_find (λ t, get t "id" = id) (trades db) with
  | None => (false, db)
  | Some (index, _) =>
      (true, {| users := users db; trades := delete index (trades db) |})
  end.

End MockDatabase.

(** ** Requests and responses *)

(** [req.user]: the claims the bearer token carries. *)
Module Req.
Record user := { userId : value; email : value; role : value }.
End Req.

(** [req.query] of the list endpoints, each parameter being absent or given
    once, so that it reads [undefined] or a string. *)
Module Query.
Record t :=
  { page : option string; limit : option string;
    status : option string; role : option string }.
End Query.

Module Pagination.
Record t := { page : number; limit : number; total : Z; totalPages : number }.
End Pagination.

(** What [res.json] is given: [null], a flat object, an array of records,
    the paginated envelope [{<key>: items, pagination}], or a flat object
    with a nested [user] object. *)
Inductive body :=
| Null
| Obj (o : obj)
| Arr (items : list obj)
| Page (key : string) (items : list obj) (pagination : Pagination.t)
| WithUser (o : obj) (user : obj).

Record response := { status : Z; json : body }.

(** [res.status(code).json(b)] and [res.json(b)]. *)
Definition reply (code : Z) (b : body) : response := {| status := code; json := b |}.
Definition reply_error (code : Z) (msg : string) : response :=
  reply code (Obj (literal [("error", VStr msg)])).

(** ** The relational store, as the handlers use it

    A table is its live column list and its rows; a row holds a cell per
    column it has a value for ([NULL] otherwise). A statement either yields
    rows or fails with a storage error; every statement sent over the
    connection is recorded, whether it succeeds or not. Comparisons follow
    SQL's three-valued logic on cells of the same kind; collations and
    implicit casts are not modelled. Timestamps are seconds since the epoch.

    A statement holds the text written where a column is named. The
    statements below are given a meaning when every such text is a name
    the application itself writes in its statements, plain or in
    back-quotes. Two handlers paste keys of the request into the statement
    text; when such a key is anything else (another spelling of a column, a
    reserved word, an expression, several assignments) the statement is
    left to the server, of which nothing is assumed: it is the [engine] of
    the connection.

    The order of the rows of a [SELECT] is the stored order, sorted stably
    when there is an [ORDER BY]. A server may return rows that compare
    equal, or the rows of a [SELECT] without [ORDER BY], in any order, also
    from one statement to the next: what is proved below of the order of a
    listing holds for every such order, and a look-up that takes the first
    row is meant where the key is held once. *)

Module Sql.

Inductive table_name := Users | Trades.

Inductive cond :=
| Eq (col : string) (v : value)
| Le (col : string) (v : value)
| IsNotNull (col : string)
| And (a b : cond)
| Or (a b : cond).

Inductive stmt :=
| ShowColumns (tbl : table_name)
| Select (cols : option (list string)) (tbl : table_name) (where_ : list cond)
    (order_desc : option string) (limit_offset : option (number * number))
| SelectCount (tbl : table_name) (where_ : list cond)
| SelectSumLength (tbl : table_name) (cols : list string)
| Insert (tbl : table_name) (cols : list string) (vals : list value)
| Update (tbl : table_name) (sets : list (string * value)) (where_ : list cond)
| UpdateSet (tbl : table_name) (pasted : list (string * value))
    (sets : list (string * value)) (where_ : list cond)
| Delete (tbl : table_name) (where_ : list cond).

Record table := { columns : list string; rows : list obj }.

(** A thrown error: [err.code] and [err.message]. *)
Record error := { code : string; message : string }.

Inductive result (A : Type) :=
| Ok (a : A)
| Throw (e : error).
Arguments Ok {A} a.
Arguments Throw {A} e.

(** The connection: the two tables, the statements sent so far, and what
    the server does with a statement that is given no meaning here (its
    result and the tables after it). *)
Record db :=
  { users : table; trades : table; log : list stmt;
    engine : stmt → table → table → result (list obj) * (table * table) }.

Definition is_null (v : value) : bool :=
  match v with
  | VUndefined | VNull => true
  | _ => false
  end.

(** A parameter or cell as the server stores it: [undefined] becomes [NULL]. *)
Definition cell_of (v : value) : value := if is_null v then VNull else v.

(** The cell of row [r] in column [c]. *)
Definition cell (r : obj) (c : string) : value := cell_of (get r c).

(** A column as written in a statement: back-quotes around a name are
    quoting, not part of the name. *)
Definition ident (c : string) : string :=
  match c with
  | String "`" r =>
      match String.rev r with
      | String "`" m => String.rev m
      | _ => c
      end
  | _ => c
  end.

Definition sql_eq (a b : value) : option bool :=
  if is_null a || is_null b then None else Some (bool_decide (a = b)).

Definition sql_le (a b : value) : option bool :=
  match a, b with
  | VNum x, VNum y => Some (x <=? y)
  | VStr x, VStr y => Some (String.leb x y)
  | _, _ => None
  end.

Definition and3 (a b : option bool) : option bool :=
  match a, b with
  | Some false, _ | _, Some false => Some false
  | Some true, Some true => Some true
  | _, _ => None
  end.

Definition or3 (a b : option bool) : option bool :=
  match a, b with
  | Some true, _ | _, Some true => Some true
  | Some false, Some false => Some false
  | _, _ => None
  end.

Fixpoint eval (c : cond) (r : obj) : option bool :=
  match c with
  | Eq col v => sql_eq (cell r (ident col)) (cell_of v)
  | Le col v => sql_le (cell r (ident col)) (cell_of v)
  | IsNotNull col => Some (negb (is_null (cell r (ident col))))
  | And a b => and3 (eval a r) (eval b r)
  | Or a b => or3 (eval a r) (eval b r)
  end.

(** A [WHERE a AND b AND ...] keeps the rows on which every condition is
    true (not false, not unknown). *)
Definition matches (where_ : list cond) (r : obj) : bool :=
  forallb (λ c, bool_decide (eval c r = Some true)) where_.

Fixpoint cond_columns (c : cond) : list string :=
  match c with
  | Eq col _ | Le col _ | IsNotNull col => [col]
  | And a b | Or a b => cond_columns a ++ cond_columns b
  end.

Definition table_of (d : db) (tbl : table_name) : table :=
  match tbl with
  | Users => users d
  | Trades => trades d
  end.

Definition set_rows (d : db) (tbl : table_name) (rs : list obj) : db :=
  match tbl with
  | Users => {| users := {| columns := columns (users d); rows := rs |};
                trades := trades d; log := log d; engine := engine d |}
  | Trades => {| users := users d;
                 trades := {| columns := columns (trades d); rows := rs |};
                 log := log d; engine := engine d |}
  end.

Definition ER_BAD_FIELD_ERROR (c : string) : error :=
  {| code := "ER_BAD_FIELD_ERROR";
     message := "Unknown column '" +:+ c +:+ "' in 'field list'" |}.

(** The server's message goes on with the place of the error; its
    beginning is kept. *)
Definition ER_PARSE_ERROR : error :=
  {| code := "ER_PARSE_ERROR";
     message := "You have an error in your SQL syntax" |}.

Definition ER_WRONG_VALUE_COUNT_ON_ROW : error :=
  {| code := "ER_WRONG_VALUE_COUNT_ON_ROW";
     message := "Column count doesn't match value count at row 1" |}.

Definition ER_FIELD_SPECIFIED_TWICE : error :=
  {| code := "ER_FIELD_SPECIFIED_TWICE"; message := "Column specified twice" |}.

(** The first column of [cols] that the table does not have. *)
Definition unknown_column (t : table) (cols : list string) : option string :=
  snd <$> list_find (λ c, ident c ∉ columns t) cols.

(** Cells order by kind, numbers by value and strings alphabetically. *)
Definition kind (v : value) : Z :=
  match v with
  | VUndefined | VNull => 0
  | VBool _ => 1
  | VNum _ => 2
  | VStr _ => 3
  end.

Definition cell_leb (a b : value) : bool :=
  match a, b with
  | VNum x, VNum y => x <=? y
  | VStr x, VStr y => String.leb x y
  | VBool x, VBool y => implb x y
  | _, _ => kind a <=? kind b
  end.

(** [ORDER BY col DESC]. *)
Definition desc (col : string) (x y : obj) : Prop :=
  Is_true (cell_leb (cell y (ident col)) (cell x (ident col))).

#[global] Instance desc_dec col x y : Decision (desc col x y).
Proof. unfold desc. apply _. Defined.

Definition order_by (o : option string) (rs : list obj) : list obj :=
  match o with
  | Some col => merge_sort (desc col) rs
  | None => rs
  end.

(** The columns a [SELECT] returns: the named ones, or all of them for [*]. *)
Definition selected (t : table) (cols : option (list string)) : list string :=
  match cols with
  | Some l => map ident l
  | None => columns t
  end.

(** The row a [SELECT] returns: one property per selected column. *)
Definition project (names : list string) (r : obj) : obj :=
  list_to_map (map (λ c, (c, cell r c)) names).

(** One assignment list applied to a row, left to right. *)
Definition assign (sets : list (string * value)) (r : obj) : obj :=
  foldl (λ acc e, <[ident e.1 := cell_of e.2]> acc) r sets.

(** The texts a statement has where a column is named. *)
Definition statement_columns (s : stmt) : list string :=
  match s with
  | ShowColumns _ => []
  | Select cols _ w o _ => default [] cols ++ concat (map cond_columns w) ++ option_list o
  | SelectCount _ w | Delete _ w => concat (map cond_columns w)
  | SelectSumLength _ cols | Insert _ cols _ => cols
  | Update _ sets w => map fst sets ++ concat (map cond_columns w)
  | UpdateSet _ pasted sets w =>
      map fst pasted ++ map fst sets ++ concat (map cond_columns w)
  end.

(** The column names that the statements of the two sources write without
    quotes, and [exit], which they write in back-quotes. *)
Definition plain : list string :=
  ["id"; "name"; "email"; "password_hash"; "role"; "status"; "group_name";
   "starting_balance"; "created_at"; "updated_at"; "user_id"; "asset"; "direction";
   "entry"; "sl"; "tp"; "strategy"; "emotion"; "planned_r"; "actual_r";
   "display_unit"; "chart_before_url"; "chart_after_url"; "reviewed_by"; "feedback"].

Definition quoted (name : string) : string := "`" +:+ name +:+ "`".

(** Whether a text written where a column is named is one of these names,
    plain or in back-quotes. *)
Definition is_name (text : string) : bool :=
  bool_decide (text ∈ plain ++ map quoted ("exit" :: plain)).

(** Whether a statement is within the fragment that is given a meaning. *)
Definition modelled (s : stmt) : bool := forallb is_name (statement_columns s).

(** The meaning of a statement of the fragment on the tables: its result
    rows (for a write, a single row holding [affectedRows]) and the tables
    after it. A [LIMIT ? OFFSET ?] takes two integers from 0 to [2^64 - 1]
    as the driver prints them; the parser refuses anything else, and an
    empty list of pasted assignments, which leaves [SET , ...]. The server's
    messages are longer than the ones here; the handlers only pass them on. *)
Definition run (s : stmt) (d : db) : result (list obj) * db :=
  match s with
  | ShowColumns tbl =>
      (Ok (map (λ c, {[ "Field" := VStr c ]}) (columns (table_of d tbl))), d)
  | Select cols tbl where_ order limit_offset =>
      let t := table_of d tbl in
      match unknown_column t (default [] cols ++ concat (map cond_columns where_)
                                ++ option_list order) with
      | Some c => (Throw (ER_BAD_FIELD_ERROR c), d)
      | None =>
          let found := order_by order (List.filter (matches where_) (rows t)) in
          match limit_offset with
          | None => (Ok (map (project (selected t cols)) found), d)
          | Some (Fin limit, Fin offset) =>
              if (limit <? 0) || (offset <? 0) || (2 ^ 64 <=? limit) || (2 ^ 64 <=? offset)
              then (Throw ER_PARSE_ERROR, d)
              else (Ok (map (project (selected t cols))
                          (take (Z.to_nat limit) (drop (Z.to_nat offset) found))), d)
          | Some _ => (Throw ER_PARSE_ERROR, d)
          end
      end
  | SelectCount tbl where_ =>
      let t := table_of d tbl in
      match unknown_column t (concat (map cond_columns where_)) with
      | Some c => (Throw (ER_BAD_FIELD_ERROR c), d)
      | None =>
          let n := length (List.filter (matches where_) (rows t)) in
          (Ok [ {[ "total" := VNum (Z.of_nat n) ]} ], d)
      end
  | SelectSumLength tbl cols =>
      let t := table_of d tbl in
      match unknown_column t cols with
      | Some c => (Throw (ER_BAD_FIELD_ERROR c), d)
      | None =>
          let size (r : obj) :=
            foldr (λ c acc,
                     match cell r (ident c) with
                     | VStr s => Z.of_nat (String.length s) + acc
                     | _ => acc
                     end) 0 cols in
          (Ok [ {[ "currentSize" := VNum (foldr (λ r acc, size r + acc) 0 (rows t)) ]} ], d)
      end
  | Insert tbl cols vals =>
      let t := table_of d tbl in
      match unknown_column t cols with
      | Some c => (Throw (ER_BAD_FIELD_ERROR c), d)
      | None =>
          if negb (bool_decide (NoDup (map ident cols)))
          then (Throw ER_FIELD_SPECIFIED_TWICE, d)
          else if negb (Nat.eqb (length cols) (length vals))
          then (Throw ER_WRONG_VALUE_COUNT_ON_ROW, d)
          else
            let row := assign (zip cols vals) ∅ in
            (Ok [ {[ "affectedRows" := VNum 1 ]} ], set_rows d tbl (rows t ++ [row]))
      end
  | Update tbl sets where_ =>
      let t := table_of d tbl in
      match unknown_column t (map fst sets ++ concat (map cond_columns where_)) with
      | Some c => (Throw (ER_BAD_FIELD_ERROR c), d)
      | None =>
          let n := length (List.filter (matches where_) (rows t)) in
          (Ok [ {[ "affectedRows" := VNum (Z.of_nat n) ]} ],
           set_rows d tbl (map (λ r, if matches where_ r then assign sets r else r) (rows t)))
      end
  | UpdateSet tbl pasted sets where_ =>
      match pasted with
      | [] => (Throw ER_PARSE_ERROR, d)
      | _ :: _ =>
          let t := table_of d tbl in
          let sets := pasted ++ sets in
          match unknown_column t (map fst sets ++ concat (map cond_columns where_)) with
          | Some c => (Throw (ER_BAD_FIELD_ERROR c), d)
          | None =>
              let n := length (List.filter (matches where_) (rows t)) in
              (Ok [ {[ "affectedRows" := VNum (Z.of_nat n) ]} ],
               set_rows d tbl
                 (map (λ r, if matches where_ r then assign sets r else r) (rows t)))
          end
      end
  | Delete tbl where_ =>
      let t := table_of d tbl in
      match unknown_column t (concat (map cond_columns where_)) with
      | Some c => (Throw (ER_BAD_FIELD_ERROR c), d)
      | None =>
          let n := length (List.filter (matches where_) (rows t)) in
          (Ok [ {[ "affectedRows" := VNum (Z.of_nat n) ]} ],
           set_rows d tbl (List.filter (λ r, negb (matches where_ r)) (rows t)))
      end
  end.

(** *** The connection monad: tables, statement log and thrown errors *)

Definition M (A : Type) : Type := db → result A * db.

#[global] Instance M_ret : MRet M := λ A a d, (Ok a, d).
#[global] Instance M_bind : MBind M := λ A B f m d,
  match m d with
  | (Ok a, d') => f a d'
  | (Throw e, d') => (Throw e, d')
  end.

Definition throw {A} (e : error) : M A := λ d, (Throw e, d).

(** An error raised by JavaScript code rather than by the server: it has a
    message and no storage error code. *)
Definition js_error (message : string) : error :=
  {| code := EmptyString; message := message |}.

(** [try { m } catch (err) { handler(err) }] *)
Definition try_catch {A} (m : M A) (handler : error → M A) : M A := λ d,
  match m d with
  | (Ok a, d') => (Ok a, d')
  | (Throw e, d') => handler e d'
  end.

(** The connection after one more statement was sent over it. *)
Definition logged (d : db) (s : stmt) : db :=
  {| users := users d; trades := trades d; log := log d ++ [s]; engine := engine d |}.

(** What the server does with a statement: its meaning when it has one,
    what the [engine] says otherwise. *)
Definition execute (s : stmt) (d : db) : result (list obj) * db :=
  if modelled s then run s d
  else
    let '(res, (u, t)) := engine d s (users d) (trades d) in
    (res, {| users := u; trades := t; log := log d; engine := engine d |}).

(** [await connection.query(...)]: the statement is logged, then executed. *)
Definition query (s : stmt) : M (list obj) := λ d, execute s (logged d s).

End Sql.

(** ** The server *)

(** [s.split(sep)] for a one-character separator. *)
Fixpoint split (sep : ascii) (s : string) : list string :=
  match s with
  | EmptyString => [EmptyString]
  | String a r =>
      if Ascii.eqb a sep then EmptyString :: split sep r
      else match split sep r with
           | w :: ws => String a w :: ws
           | [] => [String a EmptyString]
           end
  end.

(** The two stores of the process; [USE_MOCK_DB] says which one is live. *)
Record state := { mockDb : MockDatabase.t; pool : Sql.db }.

Definition with_mockDb (s : state) (m : MockDatabase.t) : state :=
  {| mockDb := m; pool := pool s |}.
Definition with_pool (s : state) (d : Sql.db) : state :=
  {| mockDb := mockDb s; pool := d |}.

(** ** The store wrappers ([db-ops.js])

    [dbOps] holds the flag and the two stores ([USE_MOCK], [mockDB], [pool])
    and forwards each trade operation to the live one. *)

Module dbOps.

(** The keys of [trade] are pasted into the column list of the statement. *)
Definition createTrade (USE_MOCK : bool) (trade : entries) (s : state)
  : Sql.result obj * state :=
  if USE_MOCK then
    let '(t, db) := MockDatabase.createTrade (mockDb s) (literal trade) in
    (Sql.Ok t, with_mockDb s db)
  else
    match Sql.query (Sql.Insert Sql.Trades (map fst trade) (map snd trade)) (pool s) with
    | (Sql.Ok _, d) => (Sql.Ok (literal trade), with_pool s d)
    | (Sql.Throw e, d) => (Sql.Throw e, with_pool s d)
    end.

(** [now] is the clock reading that goes into [updated_at]; [None] is the
    [null] of the in-memory store. The keys of [updates] are pasted into the
    statement, each followed by [= ?]. *)
Definition updateTrade (USE_MOCK : bool) (now : Z) (id : value) (updates : entries)
    (s : state) : Sql.result (option obj) * state :=
  if USE_MOCK then
    let '(t, db) :=
      MockDatabase.updateTrade (mockDb s) id (updates ++ [("updated_at", VNum now)]) in
    (Sql.Ok t, with_mockDb s db)
  else
    match Sql.query (Sql.UpdateSet Sql.Trades updates [("updated_at", VNum now)]
                       [Sql.Eq "id" id]) (pool s) with
    | (Sql.Ok _, d) => (Sql.Ok (Some (literal (("id", id) :: updates))), with_pool s d)
    | (Sql.Throw e, d) => (Sql.Throw e, with_pool s d)
    end.

Definition deleteTrade (USE_MOCK : bool) (id : value) (s : state)
  : Sql.result bool * state :=
  if USE_MOCK then
    let '(b, db) := MockDatabase.deleteTrade (mockDb s) id in (Sql.Ok b, with_mockDb s db)
  else
    match Sql.query (Sql.Delete Sql.Trades [Sql.Eq "id" id]) (pool s) with
    | (Sql.Ok _, d) => (Sql.Ok true, with_pool s d)
    | (Sql.Throw e, d) => (Sql.Throw e, with_pool s d)
    end.

(** The in-memory store answers with what [Array.prototype.find] returns,
    [undefined] when there is no such trade; the relational branch with
    [trades[0] || null]. *)
Definition findTradeById (USE_MOCK : bool) (id : value) (s : state)
  : Sql.result reference * state :=
  if USE_MOCK then
    (Sql.Ok (match MockDatabase.findTradeById (mockDb s) id with
             | Some t => Ref t
             | None => Nil VUndefined
             end), s)
  else
    match Sql.query (Sql.Select None Sql.Trades [Sql.Eq "id" id] None None) (pool s) with
    | (Sql.Ok trades, d) =>
        (Sql.Ok (match head trades with
                 | Some t => Ref t
                 | None => Nil VNull
                 end), with_pool s d)
    | (Sql.Throw e, d) => (Sql.Throw e, with_pool s d)
    end.

Definition getAllTrades (USE_MOCK : bool) (s : state) : Sql.result (list obj) * state :=
  if USE_MOCK then (Sql.Ok (MockDatabase.getAllTrades (mockDb s)), s)
  else
    match Sql.query (Sql.Select None Sql.Trades [] (Some "created_at") None) (pool s) with
    | (Sql.Ok trades, d) => (Sql.Ok trades, with_pool s d)
    | (Sql.Throw e, d) => (Sql.Throw e, with_pool s d)
    end.

Definition getAllUsers (USE_MOCK : bool) (s : state) : Sql.result (list obj) * state :=
  if USE_MOCK then (Sql.Ok (MockDatabase.getAllUsers (mockDb s)), s)
  else
    match Sql.query
            (Sql.Select (Some ["id"; "name"; "email"; "role"; "status"; "group_name";
                               "starting_balance"; "created_at"])
               Sql.Users [] None None) (pool s) with
    | (Sql.Ok users, d) => (Sql.Ok users, with_pool s d)
    | (Sql.Throw e, d) => (Sql.Throw e, with_pool s d)
    end.

(** As [updateTrade], on the accounts. *)
Definition updateUser (USE_MOCK : bool) (now : Z) (id : value) (updates : entries)
    (s : state) : Sql.result (option obj) * state :=
  if USE_MOCK then
    let '(u, db) :=
      MockDatabase.updateUser (mockDb s) id (updates ++ [("updated_at", VNum now)]) in
    (Sql.Ok u, with_mockDb s db)
  else
    match Sql.query (Sql.UpdateSet Sql.Users updates [("updated_at", VNum now)]
                       [Sql.Eq "id" id]) (pool s) with
    | (Sql.Ok _, d) => (Sql.Ok (Some (literal (("id", id) :: updates))), with_pool s d)
    | (Sql.Throw e, d) => (Sql.Throw e, with_pool s d)
    end.

Definition deleteUser (USE_MOCK : bool) (id : value) (s : state)
  : Sql.result bool * state :=
  if USE_MOCK then
    let '(b, db) := MockDatabase.deleteUser (mockDb s) id in (Sql.Ok b, with_mockDb s db)
  else
    match Sql.query (Sql.Delete Sql.Users [Sql.Eq "id" id]) (pool s) with
    | (Sql.Ok _, d) => (Sql.Ok true, with_pool s d)
    | (Sql.Throw e, d) => (Sql.Throw e, with_pool s d)
    end.

End dbOps.

(** What the middleware decides: [next()] with [req.user] set, or a reply. *)
Inductive auth :=
| Next (user : Req.user)
| Rejected (r : response).

Definition seven_days : Z := 7 * 24 * 60 * 60.

Section Server.

(** The credential capabilities: [bcrypt.compare] on strings,
    [jwt.sign(payload, secret, {expiresIn})] at a given clock reading and
    [jwt.verify(token, secret)], which yields the payload or throws. *)
Variable bcrypt_compare : string → string → bool.
Variable jwt_sign : Req.user → string → Z → Z → string.
Variable jwt_verify : string → string → Z → option Req.user.

(** [process.env]. *)
Variable USE_MOCK_DB : bool.
Variable JWT_SECRET : string.

(** [bcrypt.compare(s, hash)] rejects arguments that are not strings. *)
Definition compare (s hash : value) : option bool :=
  match s, hash with
  | VStr p, VStr h => Some (bcrypt_compare p h)
  | _, _ => None
  end.

Definition illegal_arguments (s hash : value) : string :=
  "Illegal arguments: " +:+ typeof s +:+ ", " +:+ typeof hash.

Definition generateToken (now : Z) (userId email role : value) : string :=
  jwt_sign {| Req.userId := userId; Req.email := email; Req.role := role |}
    JWT_SECRET now seven_days.

(** [req.headers.authorization?.split(' ')[1]] *)
Definition bearer (authorization : option string) : value :=
  match authorization with
  | Some h => param (split " " h !! 1%nat)
  | None => VUndefined
  end.

(** The middleware runs in the process that holds the stores, and is given
    them here; it reads the header, the secret and the clock. *)
Definition verifyToken (s : state) (now : Z) (authorization : option string) : auth :=
  match bearer authorization with
  | VStr token =>
      if negb (truthy (VStr token))
      then Rejected (reply_error 401 "No token provided")
      else match jwt_verify token JWT_SECRET now with
           | Some decoded => Next decoded
           | None => Rejected (reply_error 401 "Invalid token")
           end
  | _ => Rejected (reply_error 401 "No token provided")
  end.

(** [app.METHOD(path, verifyToken, handler)]: the handler runs with the
    claims the middleware put in [req.user], or not at all. *)
Definition protected (handler : Req.user → state → response * state)
    (now : Z) (authorization : option string) (s : state) : response * state :=
  match verifyToken s now authorization with
  | Next user => handler user s
  | Rejected r => (r, s)
  end.

(** *** POST /api/auth/login *)

Definition login_pending (user : obj) : response :=
  reply 403
    (WithUser
       (literal [("status", VStr "pending");
                 ("error", VStr "บัญชีของคุณกำลังรอการอนุมัติจาก Admin กรุณารอสักครู่");
                 ("code", VStr "auth/pending-approval")])
       (literal [("id", get user "id"); ("email", get user "email");
                 ("name", get user "name")])).

Definition login_user (user : obj) : obj :=
  literal [("id", get user "id"); ("email", get user "email");
           ("name", get user "name"); ("role", get user "role");
           ("status", get user "status")].

Definition login_mock (now : Z) (body : entries) (db : MockDatabase.t) : response :=
  let email := field body "email" in
  let password := field body "password" in
  match MockDatabase.findUserByEmail db email with
  | None =>
      reply 401 (Obj (literal [("error", VStr "ไม่พบบัญชีนี้");
                               ("code", VStr "auth/user-not-found")]))
  | Some user =>
      match compare password (get user "password_hash") with
      | None =>
          reply 500 (Obj (literal [("error", VStr "เกิดข้อผิดพลาด กรุณาลองอีกครั้ง");
                                   ("code", VStr "auth/server-error")]))
      | Some false =>
          reply 401 (Obj (literal [("error", VStr "รหัสผ่านไม่ถูกต้อง");
                                   ("code", VStr "auth/wrong-password")]))
      | Some true =>
          if strict_eq (get user "status") (VStr "pending") then login_pending user
          else
            let token := generateToken now (get user "id") (get user "email") (get user "role") in
            reply 200
              (WithUser
                 (literal [("message", VStr "เข้าสู่ระบบสำเร็จ"); ("token", VStr token)])
                 (login_user user))
      end
  end.

Definition login_real (now : Z) (body : entries) : Sql.M response :=
  let email := field body "email" in
  let password := field body "password" in
  Sql.try_catch
    (users ← Sql.query (Sql.Select None Sql.Users [Sql.Eq "email" email] None None);
     match users with
     | [] =>
         mret (reply 401 (Obj (literal [("error", VStr "ไม่พบบัญชีนี้");
                                        ("code", VStr "auth/user-not-found")])))
     | user :: _ =>
         match compare password (get user "password_hash") with
         | None =>
             Sql.throw (Sql.js_error (illegal_arguments password (get user "password_hash")))
         | Some false =>
             mret (reply 401 (Obj (literal [("error", VStr "รหัสผ่านไม่ถูกต้อง");
                                            ("code", VStr "auth/wrong-password")])))
         | Some true =>
             if strict_eq (get user "status") (VStr "pending")
             then mret (login_pending user)
             else
               let token := generateToken now (get user "id") (get user "email") (get user "role") in
               mret (reply 200
                       (WithUser
                          (literal [("status", VStr "success"); ("token", VStr token)])
                          (login_user user)))
         end
     end)
    (λ error, mret (reply_error 500 (Sql.message error))).

(** Run a handler of the relational branch on the pool of the process.
    Every handler catches what its body throws, so the second case is only
    there to make the function total. *)
Definition on_pool (m : Sql.M response) (s : state) : response * state :=
  match m (pool s) with
  | (Sql.Ok r, d) => (r, with_pool s d)
  | (Sql.Throw e, d) => (reply_error 500 (Sql.message e), with_pool s d)
  end.

Definition login (now : Z) (body : entries) (s : state) : response * state :=
  let email := field body "email" in
  let password := field body "password" in
  if negb (truthy email) || negb (truthy password)
  then (reply_error 400 "Email and password required", s)
  else if USE_MOCK_DB then (login_mock now body (mockDb s), s)
  else on_pool (login_real now body) s.

(** *** GET /api/users *)

Definition users_columns : list string :=
  ["id"; "name"; "email"; "role"; "status"; "created_at"].

Definition get_users_mock (q : Query.t) (db : MockDatabase.t) : response :=
  let usePagination := or_else (param (Query.page q)) (param (Query.limit q)) in
  let page := parseInt_or (Query.page q) 1 in
  let limit := parseInt_or (Query.limit q) 50 in
  let status := param (Query.status q) in
  let role := param (Query.role q) in
  let offset := mul (sub page (Fin 1)) limit in
  let users := MockDatabase.getAllUsers db in
  let users := if truthy status then filter (λ u, get u "status" = status) users else users in
  let users := if truthy role then filter (λ u, get u "role" = role) users else users in
  if negb (truthy usePagination) then reply 200 (Arr users)
  else
    let total := Z.of_nat (length users) in
    let paginatedUsers := slice users offset (add offset limit) in
    reply 200
      (Page "users" paginatedUsers
         {| Pagination.page := page; Pagination.limit := limit;
            Pagination.total := total;
            Pagination.totalPages := ceil_quot total limit |}).

Definition get_users_real (q : Query.t) : Sql.M response :=
  let usePagination := or_else (param (Query.page q)) (param (Query.limit q)) in
  let page := parseInt_or (Query.page q) 1 in
  let limit := parseInt_or (Query.limit q) 50 in
  let status := param (Query.status q) in
  let role := param (Query.role q) in
  let offset := mul (sub page (Fin 1)) limit in
  Sql.try_catch
    (let conditions :=
       ((if truthy status then [Sql.Eq "status" status] else []) ++
        (if truthy role then [Sql.Eq "role" role] else []))%list in
     if negb (truthy usePagination) then
       users ← Sql.query (Sql.Select (Some users_columns) Sql.Users conditions
                            (Some "created_at") None);
       mret (reply 200 (Arr users))
     else
       countResult ← Sql.query (Sql.SelectCount Sql.Users conditions);
       match countResult with
       | [] => Sql.throw (Sql.js_error "Cannot read properties of undefined")
       | c :: _ =>
           users ← Sql.query (Sql.Select (Some users_columns) Sql.Users conditions
                                (Some "created_at") (Some (limit, offset)));
           mret (reply 200
                   (Page "users" users
                      {| Pagination.page := page; Pagination.limit := limit;
                         Pagination.total := match get c "total" with VNum n => n | _ => 0 end;
                         Pagination.totalPages :=
                           ceil_quot (match get c "total" with VNum n => n | _ => 0 end) limit |}))
       end)
    (λ error, mret (reply_error 500 (Sql.message error))).

Definition get_users (user : Req.user) (q : Query.t) (s : state) : response * state :=
  if negb (strict_eq (Req.role user) (VStr "admin") || strict_eq (Req.role user) (VStr "coach"))
  then (reply_error 403 "Admin or coach only", s)
  else if USE_MOCK_DB then (get_users_mock q (mockDb s), s)
  else on_pool (get_users_real q) s.

(** *** GET /api/trades *)

Definition get_trades_mock (user : Req.user) (q : Query.t) (db : MockDatabase.t) : response :=
  let usePagination := or_else (param (Query.page q)) (param (Query.limit q)) in
  let page := parseInt_or (Query.page q) 1 in
  let limit := parseInt_or (Query.limit q) 50 in
  let status := param (Query.status q) in
  let offset := mul (sub page (Fin 1)) limit in
  let trades := MockDatabase.getAllTrades db in
  let trades :=
    if strict_eq (Req.role user) (VStr "student")
    then filter (λ t, get t "userId" = Req.userId user) trades else trades in
  let trades := if truthy status then filter (λ t, get t "status" = status) trades else trades in
  if negb (truthy usePagination) then reply 200 (Arr trades)
  else
    let total := Z.of_nat (length trades) in
    let paginatedTrades := slice trades offset (add offset limit) in
    reply 200
      (Page "trades" paginatedTrades
         {| Pagination.page := page; Pagination.limit := limit;
            Pagination.total := total;
            Pagination.totalPages := ceil_quot total limit |}).

(** The column the real branch orders by, from [SHOW COLUMNS]. *)
Definition orderCol (cols : list obj) : option string :=
  let columnNames := map (λ c, get c "Field") cols in
  if bool_decide (VStr "created_at" ∈ columnNames) then Some "created_at"
  else if bool_decide (VStr "updated_at" ∈ columnNames) then Some "updated_at"
  else if bool_decide (VStr "id" ∈ columnNames) then Some "id"
  else None.

Definition get_trades_real (user : Req.user) (q : Query.t) : Sql.M response :=
  let usePagination := or_else (param (Query.page q)) (param (Query.limit q)) in
  let page := parseInt_or (Query.page q) 1 in
  let limit := parseInt_or (Query.limit q) 50 in
  let status := param (Query.status q) in
  let offset := mul (sub page (Fin 1)) limit in
  Sql.try_catch
    (cols ← Sql.query (Sql.ShowColumns Sql.Trades);
     let conditions :=
       ((if strict_eq (Req.role user) (VStr "student")
         then [Sql.Eq "user_id" (Req.userId user)] else []) ++
        (if truthy status then [Sql.Eq "status" status] else []))%list in
     if negb (truthy usePagination) then
       trades ← Sql.query (Sql.Select None Sql.Trades conditions (orderCol cols) None);
       mret (reply 200 (Arr trades))
     else
       countResult ← Sql.query (Sql.SelectCount Sql.Trades conditions);
       match countResult with
       | [] => Sql.throw (Sql.js_error "Cannot read properties of undefined")
       | c :: _ =>
           trades ← Sql.query (Sql.Select None Sql.Trades conditions (orderCol cols)
                                 (Some (limit, offset)));
           mret (reply 200
                   (Page "trades" trades
                      {| Pagination.page := page; Pagination.limit := limit;
                         Pagination.total := match get c "total" with VNum n => n | _ => 0 end;
                         Pagination.totalPages :=
                           ceil_quot (match get c "total" with VNum n => n | _ => 0 end) limit |}))
       end)
    (λ error, mret (reply_error 500 (Sql.message error))).

Definition get_trades (user : Req.user) (q : Query.t) (s : state) : response * state :=
  if USE_MOCK_DB then (get_trades_mock user q (mockDb s), s)
  else on_pool (get_trades_real user q) s.

(** *** POST /api/trades *)

(** The columns of the full insert and of the fallback insert. *)
Definition insert_columns : list string :=
  ["id"; "user_id"; "asset"; "direction"; "entry"; "sl"; "tp"; "`exit`"; "status";
   "strategy"; "emotion"; "planned_r"; "actual_r"; "display_unit";
   "chart_before_url"; "chart_after_url"; "reviewed_by"; "created_at"; "updated_at"].

Definition fallback_columns : list string :=
  ["id"; "user_id"; "asset"; "direction"; "entry"; "sl"; "tp"; "`exit`"; "status";
   "strategy"; "emotion"; "planned_r"; "actual_r"; "display_unit";
   "created_at"; "updated_at"].

Definition post_trades_mock (user : Req.user) (body : entries) (db : MockDatabase.t)
  : response * MockDatabase.t :=
  let planned_r := coalesce (field body "planned_r") (coalesce (field body "plannedR") VNull) in
  let actual_r := coalesce (field body "actual_r") (coalesce (field body "actualR") VNull) in
  let display_unit :=
    coalesce (field body "display_unit") (coalesce (field body "displayUnit") (VStr "pips")) in
  let chart_before_url :=
    coalesce (field body "chart_before_url") (coalesce (field body "chartBeforeUrl") VNull) in
  let chart_after_url :=
    coalesce (field body "chart_after_url") (coalesce (field body "chartAfterUrl") VNull) in
  let '(trade, db') :=
    MockDatabase.createTrade db
      (literal [("userId", Req.userId user);
                ("asset", field body "asset");
                ("direction", field body "direction");
                ("entry", field body "entry");
                ("sl", field body "sl");
                ("tp", or_else (field body "tp") VNull);
                ("exit", or_else (field body "exit") VNull);
                ("status", or_else (field body "status") (VStr "pending"));
                ("strategy", or_else (field body "strategy") VNull);
                ("emotion", or_else (field body "emotion") VNull);
                ("plannedR", planned_r);
                ("actualR", actual_r);
                ("displayUnit", display_unit);
                ("chartBeforeUrl", chart_before_url);
                ("chartAfterUrl", chart_after_url);
                ("reviewedBy", or_else (field body "reviewed_by") VNull)]) in
  (reply 201 (Obj trade), db').

Definition post_trades_real (tradeId : string) (now : Z) (user : Req.user) (body : entries)
  : Sql.M response :=
  let planned_r := coalesce (field body "planned_r") (coalesce (field body "plannedR") VNull) in
  let actual_r := coalesce (field body "actual_r") (coalesce (field body "actualR") VNull) in
  let display_unit :=
    coalesce (field body "display_unit") (coalesce (field body "displayUnit") (VStr "pips")) in
  let chart_before_url :=
    coalesce (field body "chart_before_url") (coalesce (field body "chartBeforeUrl") VNull) in
  let chart_after_url :=
    coalesce (field body "chart_after_url") (coalesce (field body "chartAfterUrl") VNull) in
  Sql.try_catch
    (_ ← Sql.try_catch
           (Sql.query
              (Sql.Insert Sql.Trades insert_columns
                 [VStr tradeId; Req.userId user; field body "asset"; field body "direction";
                  field body "entry"; field body "sl";
                  or_else (field body "tp") VNull; or_else (field body "exit") VNull;
                  or_else (field body "status") (VStr "pending");
                  or_else (field body "strategy") VNull; or_else (field body "emotion") VNull;
                  planned_r; actual_r; display_unit; chart_before_url; chart_after_url;
                  or_else (field body "reviewed_by") VNull; VNum now; VNum now]))
           (λ err,
              if String.eqb (Sql.code err) "ER_BAD_FIELD_ERROR" then
                Sql.query
                  (Sql.Insert Sql.Trades fallback_columns
                     [VStr tradeId; Req.userId user; field body "asset"; field body "direction";
                      field body "entry"; field body "sl";
                      or_else (field body "tp") VNull; or_else (field body "exit") VNull;
                      or_else (field body "status") (VStr "pending");
                      or_else (field body "strategy") VNull; or_else (field body "emotion") VNull;
                      planned_r; actual_r; display_unit; VNum now; VNum now])
              else Sql.throw err);
     mret (reply 201
             (Obj (literal [("id", VStr tradeId);
                            ("user_id", Req.userId user);
                            ("asset", field body "asset");
                            ("direction", field body "direction");
                            ("entry", field body "entry");
                            ("sl", field body "sl");
                            ("tp", or_else (field body "tp") VNull);
                            ("exit", or_else (field body "exit") VNull);
                            ("status", or_else (field body "status") (VStr "pending"));
                            ("strategy", or_else (field body "strategy") VNull);
                            ("emotion", or_else (field body "emotion") VNull);
                            ("planned_r", planned_r);
                            ("actual_r", actual_r);
                            ("display_unit", display_unit);
                            ("chart_before_url", chart_before_url);
                            ("chart_after_url", chart_after_url);
                            ("reviewed_by", or_else (field body "reviewed_by") VNull);
                            ("created_at", VNum now);
                            ("updated_at", VNum now)]))))
    (λ error, mret (reply_error 500 (Sql.message error))).

(** [tradeId] is what [generateId()] returns and [now] the clock reading. *)
Definition post_trades (tradeId : string) (now : Z) (user : Req.user) (body : entries)
    (s : state) : response * state :=
  if negb (strict_eq (Req.role user) (VStr "student"))
  then (reply_error 403 "Students only", s)
  else if negb (truthy (field body "asset")) || negb (truthy (field body "direction"))
          || negb (truthy (field body "entry")) || negb (truthy (field body "sl"))
  then (reply_error 400 "Missing required fields", s)
  else if USE_MOCK_DB then
    let '(r, db') := post_trades_mock user body (mockDb s) in (r, with_mockDb s db')
  else on_pool (post_trades_real tradeId now user body) s.

(** *** PATCH /api/trades/:id *)

Definition columnMap : entries :=
  [("userId", VStr "user_id");
   ("createdAt", VStr "created_at");
   ("updatedAt", VStr "updated_at");
   ("plannedR", VStr "planned_r");
   ("actualR", VStr "actual_r");
   ("displayUnit", VStr "display_unit");
   ("exit", VStr "`exit`");
   ("date", VStr "created_at");
   ("reviewedBy", VStr "reviewed_by");
   ("chartBeforeUrl", VStr "chart_before_url");
   ("chartAfterUrl", VStr "chart_after_url")].

Definition blockedFields : list string :=
  ["createdAt"; "created_at"; "updatedAt"; "updated_at"; "userId"; "user_id"; "id"; "date"].

(** One element of [entries] in the handler: [{column, value, originalKey}].
    [column] is held as the text that [`${e.column} = ?`] puts into the
    statement. *)
Record entry := { column : string; value_ : value; originalKey : string }.

(** The native functions that an object literal inherits from
    [Object.prototype], by property name. *)
Definition inherited : list string :=
  ["constructor"; "__defineGetter__"; "__defineSetter__"; "hasOwnProperty";
   "__lookupGetter__"; "__lookupSetter__"; "isPrototypeOf"; "propertyIsEnumerable";
   "toString"; "valueOf"; "toLocaleString"].

(** The text a template string makes of such a function; no comparison of
    the handler equals it. *)
Definition native (property : string) : string :=
  "function " +:+ (if String.eqb property "constructor" then "Object" else property)
  +:+ "() { [native code] }".

(** [columnMap[key] || key]: the column of the table when the key is one of
    its own properties; for a key that [columnMap] inherits, the function
    found there (or [Object.prototype] itself, for [__proto__]), which is
    truthy; the key otherwise. *)
Definition mapped (key : string) : string :=
  match field columnMap key with
  | VStr c => if truthy (VStr c) then c else key
  | _ =>
      if bool_decide (key ∈ inherited) then native key
      else if String.eqb key "__proto__" then "[object Object]"
      else key
  end.

Definition to_entry (e : string * value) : entry :=
  {| column := mapped e.1; value_ := e.2; originalKey := e.1 |}.

Definition set_clause (es : list entry) : list (string * value) :=
  map (λ e, (column e, value_ e)) es.

(** The body without the blocked keys, rebuilt by assignment:
    [Object.entries(updates).filter(...).reduce(...)]. *)
Definition filteredUpdates (updates : entries) : entries :=
  foldl (λ acc e, set_property acc e.1 e.2) []
    (filter (λ e, e.1 ∉ blockedFields) updates).

(** The keys and columns the handler gives up when a column is unknown. *)
Definition optional_keys : list string :=
  ["reviewedBy"; "reviewed_by"; "chartBeforeUrl"; "chart_before_url";
   "chartAfterUrl"; "chart_after_url"].
Definition optional_columns : list string :=
  ["reviewed_by"; "chart_before_url"; "chart_after_url"].

Definition patch_trades_mock (user : Req.user) (id : string) (updates : entries)
    (db : MockDatabase.t) : response * MockDatabase.t :=
  match MockDatabase.getTradeById db (VStr id) with
  | None => (reply_error 404 "Trade not found", db)
  | Some existing =>
      if strict_eq (Req.role user) (VStr "student")
         && negb (strict_eq (get existing "userId") (Req.userId user))
      then (reply_error 403 "Cannot modify other trades", db)
      else
        match MockDatabase.updateTrade db (VStr id) updates with
        | (Some updated, db') => (reply 200 (Obj updated), db')
        | (None, db') => (reply 200 Null, db')
        end
  end.

Definition patch_trades_real (now : Z) (user : Req.user) (id : string) (updates : entries)
  : Sql.M response :=
  Sql.try_catch
    (trades ← Sql.query (Sql.Select (Some ["user_id"]) Sql.Trades [Sql.Eq "id" (VStr id)]
                           None None);
     match trades with
     | [] => mret (reply_error 404 "Trade not found")
     | trade0 :: _ =>
         if strict_eq (Req.role user) (VStr "student")
            && negb (strict_eq (get trade0 "user_id") (Req.userId user))
         then mret (reply_error 403 "Cannot modify other trades")
         else
           let entries := map to_entry (filteredUpdates updates) in
           if Nat.eqb (length entries) 0 then mret (reply_error 400 "No fields to update")
           else
             returned ←
               Sql.try_catch
                 (_ ← Sql.query
                        (Sql.UpdateSet Sql.Trades
                           (set_clause entries) [("updated_at", VNum now)]
                           [Sql.Eq "id" (VStr id)]);
                  mret None)
                 (λ err,
                    if String.eqb (Sql.code err) "ER_BAD_FIELD_ERROR" then
                      let filtered :=
                        filter (λ e, (originalKey e ∉ optional_keys)
                                     ∧ (column e ∉ optional_columns)) entries in
                      if Nat.eqb (length filtered) 0
                      then mret (Some (reply_error 400 "No fields to update"))
                      else
                        _ ← Sql.query
                              (Sql.UpdateSet Sql.Trades
                                 (set_clause filtered) [("updated_at", VNum now)]
                                 [Sql.Eq "id" (VStr id)]);
                        mret None
                    else Sql.throw err);
             match returned with
             | Some r => mret r
             | None => mret (reply 200 (Obj (literal [("message", VStr "Trade updated")])))
             end
     end)
    (λ error, mret (reply_error 500 (Sql.message error))).

Definition patch_trades (now : Z) (user : Req.user) (id : string) (updates : entries)
    (s : state) : response * state :=
  if USE_MOCK_DB then
    let '(r, db') := patch_trades_mock user id updates (mockDb s) in (r, with_mockDb s db')
  else on_pool (patch_trades_real now user id updates) s.

(** *** DELETE /api/trades/:id *)

Definition delete_trades_mock (user : Req.user) (id : string) (db : MockDatabase.t)
  : response * MockDatabase.t :=
  match MockDatabase.getTradeById db (VStr id) with
  | None => (reply_error 404 "Trade not found", db)
  | Some existing =>
      if strict_eq (Req.role user) (VStr "student")
         && negb (strict_eq (get existing "userId") (Req.userId user))
      then (reply_error 403 "Cannot delete other trades", db)
      else
        let '(_, db') := MockDatabase.deleteTrade db (VStr id) in
        (reply 200 (Obj (literal [("message", VStr "Trade deleted")])), db')
  end.

Definition delete_trades_real (user : Req.user) (id : string) : Sql.M response :=
  Sql.try_catch
    (trades ← Sql.query (Sql.Select (Some ["user_id"]) Sql.Trades [Sql.Eq "id" (VStr id)]
                           None None);
     match trades with
     | [] => mret (reply_error 404 "Trade not found")
     | trade0 :: _ =>
         if strict_eq (Req.role user) (VStr "student")
            && negb (strict_eq (get trade0 "user_id") (Req.userId user))
         then mret (reply_error 403 "Cannot delete other trades")
         else
           _ ← Sql.query (Sql.Delete Sql.Trades [Sql.Eq "id" (VStr id)]);
           mret (reply 200 (Obj (literal [("message", VStr "Trade deleted")])))
     end)
    (λ error, mret (reply_error 500 (Sql.message error))).

Definition delete_trades (user : Req.user) (id : string) (s : state) : response * state :=
  if USE_MOCK_DB then
    let '(r, db') := delete_trades_mock user id (mockDb s) in (r, with_mockDb s db')
  else on_pool (delete_trades_real user id) s.

(** *** The nightly image clean-up *)

(** The clean-up statement; [now] is the server's [NOW()]. *)
Definition cleanup_statement (now : Z) : Sql.stmt :=
  Sql.Update Sql.Trades
    [("chart_before_url", VNull); ("chart_after_url", VNull); ("updated_at", VNum now)]
    [Sql.Le "created_at" (VNum (now - seven_days));
     Sql.Or (Sql.IsNotNull "chart_before_url") (Sql.IsNotNull "chart_after_url")].

(** One run of the scheduled callback; it is only scheduled when the
    relational store is live, and what it catches it logs. *)
Definition cleanup_job (now : Z) : Sql.M unit :=
  Sql.try_catch
    (_ ← Sql.query (cleanup_statement now);
     _ ← Sql.query (Sql.SelectSumLength Sql.Trades ["chart_before_url"; "chart_after_url"]);
     mret ())
    (λ error, mret ()).

Definition cron_tick (now : Z) (s : state) : state :=
  if negb USE_MOCK_DB then with_pool s (cleanup_job now (pool s)).2 else s.

End Server.

(** ** Accounts: registration and the admin's user routes *)

Section Accounts.

(** [bcrypt.hash(s, 10)] on a string, with the salt it draws. *)
Variable bcrypt_hash : string → string → string.

(** [process.env]. *)
Variable USE_MOCK_DB : bool.

(** [bcrypt.hash(s, 10)] rejects a password that is not a string. *)
Definition hash_password (s : value) (salt : string) : option string :=
  match s with
  | VStr p => Some (bcrypt_hash p salt)
  | _ => None
  end.

Definition illegal_hash_arguments (s : value) : string :=
  "Illegal arguments: " +:+ typeof s +:+ ", number".

(** *** POST /api/auth/register *)

Definition registered : string := "Registration successful. Awaiting admin approval.".

Definition register_mock (userId salt : string) (now : Z) (body : entries)
    (db : MockDatabase.t) : response * MockDatabase.t :=
  let name := field body "name" in
  let email := field body "email" in
  let password := field body "password" in
  match MockDatabase.findUserByEmail db email with
  | Some existing => (reply_error 400 "Email already registered", db)
  | None =>
      match hash_password password salt with
      | None => (reply_error 500 (illegal_hash_arguments password), db)
      | Some passwordHash =>
          let '(_, db') :=
            MockDatabase.createUser db
              (literal [("id", VStr userId);
                        ("name", name);
                        ("email", email);
                        ("password_hash", VStr passwordHash);
                        ("role", VStr "student");
                        ("status", VStr "pending");
                        ("created_at", VNum now);
                        ("updated_at", VNum now)]) in
          (reply 200 (Obj (literal [("message", VStr registered);
                                    ("userId", VStr userId)])), db')
      end
  end.

Definition register_real (userId salt : string) (now : Z) (body : entries)
  : Sql.M response :=
  let name := field body "name" in
  let email := field body "email" in
  let password := field body "password" in
  Sql.try_catch
    (existing ← Sql.query (Sql.Select (Some ["id"]) Sql.Users [Sql.Eq "email" email]
                             None None);
     if negb (Nat.eqb (length existing) 0)
     then mret (reply_error 400 "Email already registered")
     else
       match hash_password password salt with
       | None => Sql.throw (Sql.js_error (illegal_hash_arguments password))
       | Some passwordHash =>
           _ ← Sql.query
                 (Sql.Insert Sql.Users
                    ["id"; "name"; "email"; "password_hash"; "role"; "status";
                     "created_at"; "updated_at"]
                    [VStr userId; name; email; VStr passwordHash; VStr "student";
                     VStr "pending"; VNum now; VNum now]);
           mret (reply 200 (Obj (literal [("message", VStr registered)])))
       end)
    (λ error, mret (reply_error 500 (Sql.message error))).

(** [userId] is what [generateId()] returns, [salt] what [bcrypt.hash]
    draws and [now] the clock reading. *)
Definition register (userId salt : string) (now : Z) (body : entries) (s : state)
  : response * state :=
  if negb (truthy (field body "name")) || negb (truthy (field body "email"))
     || negb (truthy (field body "password"))
  then (reply_error 400 "Missing required fields", s)
  else if USE_MOCK_DB then
    let '(r, db') := register_mock userId salt now body (mockDb s) in (r, with_mockDb s db')
  else on_pool (register_real userId salt now body) s.

(** *** PATCH /api/users/:id *)

(** The fields the admin may set, as the handler collects them; [None] when
    hashing the new password throws. *)
Definition user_updates (salt : string) (body : entries) : option entries :=
  let role := field body "role" in
  let status := field body "status" in
  let password := field body "password" in
  let chosen :=
    (if truthy role then [("role", role)] else []) ++
    (if truthy status then [("status", status)] else []) in
  if truthy password then
    match hash_password password salt with
    | Some h => Some (chosen ++ [("password_hash", VStr h)])
    | None => None
    end
  else Some chosen.

Definition patch_users_mock (salt : string) (id : string) (body : entries)
    (db : MockDatabase.t) : response * MockDatabase.t :=
  match user_updates salt body with
  | None => (reply_error 500 (illegal_hash_arguments (field body "password")), db)
  | Some updates =>
      if Nat.eqb (length updates) 0 then (reply_error 400 "No fields to update", db)
      else
        match MockDatabase.updateUser db (VStr id) updates with
        | (None, db') => (reply_error 404 "User not found", db')
        | (Some user, db') =>
            (reply 200 (Obj (literal [("message", VStr "User updated successfully")])), db')
        end
  end.

(** [role], [status] and the hash are parameters of the statement; each is
    a scalar, as every value of a body is in this development, and the
    driver writes a scalar as one literal. *)
Definition patch_users_real (salt : string) (now : Z) (id : string) (body : entries)
  : Sql.M response :=
  Sql.try_catch
    (match user_updates salt body with
     | None => Sql.throw (Sql.js_error (illegal_hash_arguments (field body "password")))
     | Some updates =>
         if Nat.eqb (length updates) 0 then mret (reply_error 400 "No fields to update")
         else
           result ← Sql.query (Sql.Update Sql.Users (updates ++ [("updated_at", VNum now)])
                                 [Sql.Eq "id" (VStr id)]);
           if strict_eq (get (default ∅ (head result)) "affectedRows") (VNum 0)
           then mret (reply_error 404 "User not found")
           else mret (reply 200 (Obj (literal [("message", VStr "User updated successfully")])))
     end)
    (λ error, mret (reply_error 500 (Sql.message error))).

Definition patch_users (salt : string) (now : Z) (user : Req.user) (id : string)
    (body : entries) (s : state) : response * state :=
  if negb (strict_eq (Req.role user) (VStr "admin")) then (reply_error 403 "Admin only", s)
  else if USE_MOCK_DB then
    let '(r, db') := patch_users_mock salt id body (mockDb s) in (r, with_mockDb s db')
  else on_pool (patch_users_real salt now id body) s.

(** *** DELETE /api/users/:id *)

Definition delete_users_mock (id : string) (db : MockDatabase.t)
  : response * MockDatabase.t :=
  let trades := MockDatabase.getAllTrades db in
  let db1 :=
    foldl (λ acc trade, (MockDatabase.deleteTrade acc (get trade "id")).2) db
      (filter (λ t, get t "userId" = VStr id) trades) in
  let '(deleted, db2) := MockDatabase.deleteUser db1 (VStr id) in
  if negb deleted then (reply_error 404 "User not found", db2)
  else (reply 200 (Obj (literal [("message", VStr "User deleted successfully")])), db2).

Definition delete_users_real (id : string) : Sql.M response :=
  Sql.try_catch
    (_ ← Sql.query (Sql.Delete Sql.Trades [Sql.Eq "user_id" (VStr id)]);
     result ← Sql.query (Sql.Delete Sql.Users [Sql.Eq "id" (VStr id)]);
     if strict_eq (get (default ∅ (head result)) "affectedRows") (VNum 0)
     then mret (reply_error 404 "User not found")
     else mret (reply 200 (Obj (literal [("message", VStr "User deleted successfully")]))))
    (λ error, mret (reply_error 500 (Sql.message error))).

Definition delete_users (user : Req.user) (id : string) (s : state) : response * state :=
  if negb (strict_eq (Req.role user) (VStr "admin")) then (reply_error 403 "Admin only", s)
  else if USE_MOCK_DB then
    let '(r, db') := delete_users_mock id (mockDb s) in (r, with_mockDb s db')
  else on_pool (delete_users_real id) s.

End Accounts.

(** ** The column migration at start-up ([ensureTradeColumns]) *)

(** The trades table as [SHOW COLUMNS] and [ALTER TABLE] see it: an ordered
    list of named, typed columns. Names are compared as written. *)
Module Schema.

(** A row of [SHOW COLUMNS FROM trades]: its [Field] and its [Type]. *)
Record column := { Field : string; Type_ : string }.

(** A clause of [ALTER TABLE trades ...]. *)
Inductive clause :=
| AddColumn (name type : string) (after : option string)
| ModifyColumn (name type : string).

Definition names (cols : list column) : list string := map Field cols.

(** [c] placed right after the column named [after]; there must be one. *)
Fixpoint insert_after (after : string) (c : column) (cols : list column)
  : option (list column) :=
  match cols with
  | [] => None
  | x :: rest =>
      if String.eqb (Field x) after then Some (x :: c :: rest)
      else cons x <$> insert_after after c rest
  end.

(** One clause: a column is added once, after a column that exists, and
    only a column that exists is modified; [None] is the server's error. *)
Definition apply_clause (cols : list column) (cl : clause) : option (list column) :=
  match cl with
  | AddColumn name type after =>
      if bool_decide (name ∈ names cols) then None
      else
        let c := {| Field := name; Type_ := type |} in
        match after with
        | None => Some (cols ++ [c])
        | Some a => insert_after a c cols
        end
  | ModifyColumn name type =>
      if bool_decide (name ∈ names cols)
      then Some (map (λ c, if String.eqb (Field c) name
                           then {| Field := name; Type_ := type |} else c) cols)
      else None
  end.

(** [ALTER TABLE trades c1, c2, ...]: the clauses apply from left to right,
    and all of them or none. *)
Definition alter (cols : list column) (clauses : list clause) : option (list column) :=
  foldl (λ acc cl, acc ≫= λ cs, apply_clause cs cl) (Some cols) clauses.

End Schema.

(** [new Map(cols.map((c) => [c.Field, c]))]: a later row replaces an
    earlier one of the same name. *)
Definition fields (cols : list Schema.column) : gmap string Schema.column :=
  foldl (λ m c, <[Schema.Field c := c]> m) ∅ cols.

(** An ASCII letter in lower case. *)
Definition lower_ascii (a : ascii) : ascii :=
  let n := Ascii.N_of_ascii a in
  if ((65 <=? n) && (n <=? 90))%N then Ascii.ascii_of_N (n + 32) else a.

Fixpoint lower (s : string) : string :=
  match s with
  | EmptyString => EmptyString
  | String a r => String (lower_ascii a) (lower r)
  end.

(** [/^(tinytext|text|mediumtext)$/i.test(type)] *)
Definition small_text (type : string) : bool :=
  let t := lower type in
  String.eqb t "tinytext" || String.eqb t "text" || String.eqb t "mediumtext".

(** The clauses [ensureTradeColumns] collects from the rows of
    [SHOW COLUMNS]. The types are written as [SHOW COLUMNS] shows them. *)
Definition alters (cols : list Schema.column) : list Schema.clause :=
  let fields := fields cols in
  let has (k : string) := bool_decide (is_Some (fields !! k)) in
  (if has "chart_before_url" then []
   else [Schema.AddColumn "chart_before_url" "longtext" (Some "display_unit")]) ++
  (if has "chart_after_url" then []
   else [Schema.AddColumn "chart_after_url" "longtext" (Some "chart_before_url")]) ++
  (if has "reviewed_by" then []
   else [Schema.AddColumn "reviewed_by" "varchar(255)" (Some "chart_after_url")]) ++
  (if has "created_at" then [] else [Schema.AddColumn "created_at" "datetime" None]) ++
  (if has "updated_at" then [] else [Schema.AddColumn "updated_at" "datetime" None]) ++
  match fields !! "chart_before_url" with
  | Some beforeCol =>
      if small_text (Schema.Type_ beforeCol)
      then [Schema.ModifyColumn "chart_before_url" "longtext"] else []
  | None => []
  end ++
  match fields !! "chart_after_url" with
  | Some afterCol =>
      if small_text (Schema.Type_ afterCol)
      then [Schema.ModifyColumn "chart_after_url" "longtext"] else []
  | None => []
  end.

(** The columns after the call, and the [ALTER TABLE] it sent, if any; a
    statement that fails is caught and logged, and changes nothing. *)
Definition ensureTradeColumns (USE_MOCK_DB : bool) (cols : list Schema.column)
  : list Schema.column * option (list Schema.clause) :=
  if USE_MOCK_DB then (cols, None)
  else
    let alters := alters cols in
    if Nat.ltb 0 (length alters) then
      match Schema.alter cols alters with
      | Some cols' => (cols', Some alters)
      | None => (cols, Some alters)
      end
    else (cols, None).

(** ** Observations used in the statements *)

(** The records a list response carries, bare or paginated. *)
Definition listed (b : body) : list obj :=
  match b with
  | Arr items | Page _ items _ => items
  | _ => []
  end.

(** The owner of a trade record: property [userId] in the in-memory store,
    column [user_id] in the relational one. *)
Definition owner (USE_MOCK_DB : bool) (t : obj) : value :=
  if USE_MOCK_DB then get t "userId" else Sql.cell t "user_id".

(** The stored trades of the live store. *)
Definition stored_trades (USE_MOCK_DB : bool) (s : state) : list obj :=
  if USE_MOCK_DB then MockDatabase.trades (mockDb s) else Sql.rows (Sql.trades (pool s)).

(** The contents of both stores, without the statement log. *)
Definition contents (s : state) : MockDatabase.t * Sql.table * Sql.table :=
  (mockDb s, Sql.users (pool s), Sql.trades (pool s)).

(** ** Sample data *)

Module Sample.

Definition alice : obj :=
  literal [("id", VStr "student-002"); ("name", VStr "Alice Trader");
           ("email", VStr "alice@example.com"); ("password_hash", VStr "hash:student123");
           ("role", VStr "student"); ("status", VStr "approved")].

Definition bob : obj :=
  literal [("id", VStr "student-003"); ("name", VStr "Bob Trader");
           ("email", VStr "bob@example.com"); ("password_hash", VStr "hash:student123");
           ("role", VStr "student"); ("status", VStr "pending")].

Definition admin : obj :=
  literal [("id", VStr "admin-001"); ("name", VStr "Admin User");
           ("email", VStr "admin@example.com"); ("password_hash", VStr "hash:admin123");
           ("role", VStr "admin"); ("status", VStr "approved")].

Definition day : Z := 24 * 60 * 60.

(** The clock reading of the sample requests. *)
Definition today : Z := 100 * day.

Definition trade (id owner : string) (created_at : Z) (chart : value) : obj :=
  literal [("id", VStr id); ("userId", VStr owner); ("user_id", VStr owner);
           ("asset", VStr "EURUSD"); ("direction", VStr "long");
           ("entry", VNum 100); ("sl", VNum 99); ("status", VStr "pending");
           ("chart_before_url", chart); ("chart_after_url", VNull);
           ("created_at", VNum created_at); ("updated_at", VNum created_at)].

Definition trade_a : obj := trade "trade-a" "student-002" (today - 8 * day) (VStr "data:image/png;base64,AAAA").
Definition trade_b : obj := trade "trade-b" "student-003" (today - 6 * day) (VStr "data:image/png;base64,BBBB").

Definition mock : MockDatabase.t :=
  {| MockDatabase.users := [admin; alice; bob]; MockDatabase.trades := [trade_a; trade_b] |}.

Definition users_schema : list string :=
  ["id"; "name"; "email"; "password_hash"; "role"; "status"; "created_at"; "updated_at"].

(** The trades table after the migrations, and before them. *)
Definition trades_schema : list string :=
  ["id"; "user_id"; "asset"; "direction"; "entry"; "sl"; "tp"; "exit"; "status";
   "strategy"; "emotion"; "planned_r"; "actual_r"; "display_unit";
   "chart_before_url"; "chart_after_url"; "reviewed_by"; "feedback";
   "created_at"; "updated_at"].

Definition old_trades_schema : list string :=
  ["id"; "user_id"; "asset"; "direction"; "entry"; "sl"; "tp"; "exit"; "status";
   "strategy"; "emotion"; "planned_r"; "actual_r"; "display_unit";
   "created_at"; "updated_at"].

(** A server that refuses every statement outside the fragment. *)
Definition refusing (s : Sql.stmt) (users trades : Sql.table)
  : Sql.result (list obj) * (Sql.table * Sql.table) :=
  (Sql.Throw Sql.ER_PARSE_ERROR, (users, trades)).

Definition tables : Sql.db :=
  {| Sql.users := {| Sql.columns := users_schema; Sql.rows := [admin; alice; bob] |};
     Sql.trades := {| Sql.columns := trades_schema; Sql.rows := [trade_a; trade_b] |};
     Sql.log := []; Sql.engine := refusing |}.

Definition old_tables : Sql.db :=
  {| Sql.users := Sql.users tables;
     Sql.trades := {| Sql.columns := old_trades_schema; Sql.rows := [trade_a; trade_b] |};
     Sql.log := []; Sql.engine := refusing |}.

Definition server : state := {| mockDb := mock; pool := tables |}.
Definition old_server : state := {| mockDb := mock; pool := old_tables |}.

Definition session (u : obj) : Req.user :=
  {| Req.userId := get u "id"; Req.email := get u "email"; Req.role := get u "role" |}.

Definition no_query : Query.t :=
  {| Query.page := None; Query.limit := None; Query.status := None; Query.role := None |}.

Definition paged (page limit : string) : Query.t :=
  {| Query.page := Some page; Query.limit := Some limit;
     Query.status := None; Query.role := None |}.

(** Toy credential capabilities for the sample runs. *)
Definition bcrypt_compare (s hash : string) : bool := String.eqb ("hash:" +:+ s) hash.
Definition jwt_sign (payload : Req.user) (secret : string) (iat ttl : Z) : string :=
  "token-of-alice".
Definition jwt_verify (token secret : string) (now : Z) : option Req.user :=
  if String.eqb token "token-of-alice" && String.eqb secret "secret"
     && (today <=? now) && (now <? today + seven_days)
  then Some (session alice) else None.

End Sample.

(** ** More observations *)

(** The user records the live store shows to the login handler: the stored
    objects, or the rows of [SELECT * FROM users]. *)
Definition visible_users (USE_MOCK_DB : bool) (s : state) : list obj :=
  if USE_MOCK_DB then MockDatabase.users (mockDb s)
  else map (Sql.project (Sql.columns (Sql.users (pool s)))) (Sql.rows (Sql.users (pool s))).

(** The top-level scalar properties of a JSON reply, and its nested [user]. *)
Definition flat (b : body) : obj :=
  match b with
  | Obj o | WithUser o _ => o
  | _ => ∅
  end.

Definition nested_user (b : body) : option obj :=
  match b with
  | WithUser _ u => Some u
  | _ => None
  end.

(** The id of a stored trade record. *)
Definition trade_id (USE_MOCK_DB : bool) (t : obj) : value :=
  if USE_MOCK_DB then get t "id" else Sql.cell t "id".

(** ** The filtered, ordered results of the list endpoints *)

(** The rows [SHOW COLUMNS] returns for a table. *)
Definition show_columns (t : Sql.table) : list obj :=
  map (λ c, {[ "Field" := VStr c ]}) (Sql.columns t).

Definition trades_where (user : Req.user) (q : Query.t) : list Sql.cond :=
  (if strict_eq (Req.role user) (VStr "student")
   then [Sql.Eq "user_id" (Req.userId user)] else []) ++
  (if truthy (param (Query.status q)) then [Sql.Eq "status" (param (Query.status q))] else []).

(** What GET /api/trades has to show the caller, before any pagination. *)
Definition trades_results (USE_MOCK_DB : bool) (user : Req.user) (q : Query.t) (s : state)
  : list obj :=
  if USE_MOCK_DB then
    let trades := MockDatabase.trades (mockDb s) in
    let trades :=
      if strict_eq (Req.role user) (VStr "student")
      then filter (λ t, get t "userId" = Req.userId user) trades else trades in
    if truthy (param (Query.status q))
    then filter (λ t, get t "status" = param (Query.status q)) trades else trades
  else
    let t := Sql.trades (pool s) in
    map (Sql.project (Sql.columns t))
      (Sql.order_by (orderCol (show_columns t))
         (List.filter (Sql.matches (trades_where user q)) (Sql.rows t))).

Definition users_where (q : Query.t) : list Sql.cond :=
  (if truthy (param (Query.status q)) then [Sql.Eq "status" (param (Query.status q))] else []) ++
  (if truthy (param (Query.role q)) then [Sql.Eq "role" (param (Query.role q))] else []).

(** What GET /api/users has to show, before any pagination. *)
Definition users_results (USE_MOCK_DB : bool) (q : Query.t) (s : state) : list obj :=
  if USE_MOCK_DB then
    let users := MockDatabase.users (mockDb s) in
    let users :=
      if truthy (param (Query.status q))
      then filter (λ u, get u "status" = param (Query.status q)) users else users in
    if truthy (param (Query.role q))
    then filter (λ u, get u "role" = param (Query.role q)) users else users
  else
    let t := Sql.users (pool s) in
    map (Sql.project users_columns)
      (Sql.order_by (Some "created_at")
         (List.filter (Sql.matches (users_where q)) (Sql.rows t))).

(** The page of [results] that a page number and a page size select. *)
Definition page_of (results : list obj) (page limit : Z) : list obj :=
  take (Z.to_nat limit) (drop (Z.to_nat ((page - 1) * limit)) results).

(** Whether a query parameter was supplied with a non-empty value. *)
Definition supplied (p : option string) : bool := truthy (param p).

(** The [pagination] object of a paginated reply. *)
Definition pagination_of (b : body) : option Pagination.t :=
  match b with
  | Page _ _ p => Some p
  | _ => None
  end.

(** ** The statements of PATCH and POST in the relational branch *)

(** The ownership query of PATCH and DELETE. *)
Definition select_owner_of (id : string) : Sql.stmt :=
  Sql.Select (Some ["user_id"]) Sql.Trades [Sql.Eq "id" (VStr id)] None None.

(** The entries PATCH keeps of a body, and those it keeps on the retry. *)
Definition patch_entries (updates : entries) : list entry :=
  map to_entry (filteredUpdates updates).

Definition reduced_entries (updates : entries) : list entry :=
  filter (λ e, (originalKey e ∉ optional_keys) ∧ (column e ∉ optional_columns))
    (patch_entries updates).

(** [UPDATE trades SET <entries>, updated_at = ? WHERE id = ?] *)
Definition update_of (es : list entry) (now : Z) (id : string) : Sql.stmt :=
  Sql.UpdateSet Sql.Trades (set_clause es) [("updated_at", VNum now)] [Sql.Eq "id" (VStr id)].

(** The values of the two inserts of POST. *)
Definition insert_values (tradeId : string) (now : Z) (user : Req.user) (body : entries)
    (optional : bool) : list value :=
  [VStr tradeId; Req.userId user; field body "asset"; field body "direction";
   field body "entry"; field body "sl";
   or_else (field body "tp") VNull; or_else (field body "exit") VNull;
   or_else (field body "status") (VStr "pending");
   or_else (field body "strategy") VNull; or_else (field body "emotion") VNull;
   coalesce (field body "planned_r") (coalesce (field body "plannedR") VNull);
   coalesce (field body "actual_r") (coalesce (field body "actualR") VNull);
   coalesce (field body "display_unit") (coalesce (field body "displayUnit") (VStr "pips"))]
  ++ (if optional
      then [coalesce (field body "chart_before_url") (coalesce (field body "chartBeforeUrl") VNull);
            coalesce (field body "chart_after_url") (coalesce (field body "chartAfterUrl") VNull);
            or_else (field body "reviewed_by") VNull]
      else [])
  ++ [VNum now; VNum now].

(** The writes among the statements of a log. *)
Definition is_write (s : Sql.stmt) : bool :=
  match s with
  | Sql.Insert _ _ _ | Sql.Update _ _ _ | Sql.UpdateSet _ _ _ _ | Sql.Delete _ _ => true
  | _ => false
  end.

(** ** The retention sweep, row by row *)

(** A trade the sweep applies to at clock reading [now]: created seven days
    ago or earlier, with a chart in at least one of the two columns. *)
Definition eligible (now : Z) (t : obj) : bool :=
  match Sql.cell t "created_at" with
  | VNum created =>
      (created <=? now - seven_days)
      && (negb (Sql.is_null (Sql.cell t "chart_before_url"))
          || negb (Sql.is_null (Sql.cell t "chart_after_url")))
  | _ => false
  end.

(** The same trade after the sweep. *)
Definition swept (now : Z) (t : obj) : obj :=
  <["updated_at" := VNum now]>
    (<["chart_after_url" := VNull]> (<["chart_before_url" := VNull]> t)).

(** The columns the sweep names. *)
Definition sweep_columns : list string :=
  ["chart_before_url"; "chart_after_url"; "updated_at"; "created_at"].

Module SampleSweep.

(** A trade created exactly seven days before [Sample.today], with a chart. *)
Definition week_old : obj :=
  Sample.trade "trade-w" "student-002" (Sample.today - 7 * Sample.day)
    (VStr "data:image/png;base64,CCCC").

(** An old trade whose charts are already gone. *)
Definition old_bare : obj :=
  Sample.trade "trade-o" "student-002" (Sample.today - 30 * Sample.day) VNull.

Definition server : state :=
  {| mockDb := Sample.mock;
     pool := {| Sql.users := Sql.users Sample.tables;
                Sql.trades := {| Sql.columns := Sample.trades_schema;
                                 Sql.rows := [Sample.trade_a; Sample.trade_b;
                                              week_old; old_bare] |};
                Sql.log := []; Sql.engine := Sample.refusing |} |}.

End SampleSweep.


(** ** Observations on accounts and on the in-memory store *)

(** The ids of a list of records. *)
Definition ids (l : list obj) : list value := map (λ o, get o "id") l.

(** [l'] is [l] with the record at position [i] replaced by [new]. *)
Definition replaced_at (l l' : list obj) (i : nat) (new : obj) : Prop :=
  length l' = length l ∧ l' !! i = Some new ∧ ∀ j, j ≠ i → l' !! j = l !! j.

(** The stored accounts of the live store. *)
Definition stored_users (USE_MOCK_DB : bool) (s : state) : list obj :=
  if USE_MOCK_DB then MockDatabase.users (mockDb s) else Sql.rows (Sql.users (pool s)).

(** A property of a stored record: a property of the object in the
    in-memory store, a cell of the row in the relational one. *)
Definition attr (USE_MOCK_DB : bool) (o : obj) (k : string) : value :=
  if USE_MOCK_DB then get o k else Sql.cell o k.

(** The two statements of the relational registration. *)
Definition select_email_of (email : value) : Sql.stmt :=
  Sql.Select (Some ["id"]) Sql.Users [Sql.Eq "email" email] None None.

Definition account_columns : list string :=
  ["id"; "name"; "email"; "password_hash"; "role"; "status"; "created_at"; "updated_at"].

Definition account_values (userId : string) (now : Z) (body : entries) (passwordHash : string)
  : list value :=
  [VStr userId; field body "name"; field body "email"; VStr passwordHash;
   VStr "student"; VStr "pending"; VNum now; VNum now].

Definition insert_account (userId : string) (now : Z) (body : entries)
    (passwordHash : string) : Sql.stmt :=
  Sql.Insert Sql.Users account_columns (account_values userId now body passwordHash).

(** A toy [bcrypt.hash] that goes with [Sample.bcrypt_compare]. *)
Module SampleAccounts.

Definition bcrypt_hash (s salt : string) : string := "hash:" +:+ s.

Definition carol : entries :=
  [("name", VStr "Carol Trader"); ("email", VStr "carol@example.com");
   ("password", VStr "student123"); ("role", VStr "admin"); ("status", VStr "approved")].

End SampleAccounts.

(** [UPDATE users SET <updates>, updated_at = ? WHERE id = ?] *)
Definition update_account (updates : entries) (now : Z) (id : string) : Sql.stmt :=
  Sql.Update Sql.Users (updates ++ [("updated_at", VNum now)]) [Sql.Eq "id" (VStr id)].

(** The properties of an account that PATCH /api/users/:id can set. *)
Definition account_settings : list string :=
  ["role"; "status"; "password_hash"; "updated_at"].

(** The two statements of the relational DELETE /api/users/:id. *)
Definition delete_trades_of (id : string) : Sql.stmt :=
  Sql.Delete Sql.Trades [Sql.Eq "user_id" (VStr id)].

Definition delete_account (id : string) : Sql.stmt :=
  Sql.Delete Sql.Users [Sql.Eq "id" (VStr id)].

(** [DELETE FROM trades WHERE id = ?] *)
Definition delete_trade_of (id : string) : Sql.stmt :=
  Sql.Delete Sql.Trades [Sql.Eq "id" (VStr id)].

(** ** What a relational PATCH of a trade may not rewrite *)

Definition protected_columns : list string := ["id"; "user_id"; "created_at"].

(** The column texts that the statements of the application contain. *)
Definition written : list string := Sql.plain ++ [Sql.quoted "exit"].

(** The identity of a trade row: its id, its owner and its creation time. *)
Definition identity_of (t : obj) : value * value * value :=
  (Sql.cell t "id", Sql.cell t "user_id", Sql.cell t "created_at").

(** The tables after a computation relate to the tables before it. *)
Definition preserves {A} (R : Sql.db → Sql.db → Prop) (m : Sql.M A) : Prop :=
  ∀ d res d', m d = (res, d') → R d d'.

(** The accounts are as before, and so are the trades, except for the
    cells of the trades with the id that are not their identity. *)
Definition same_identities (id : string) (d d' : Sql.db) : Prop :=
  Sql.users d' = Sql.users d
  ∧ Sql.columns (Sql.trades d') = Sql.columns (Sql.trades d)
  ∧ Forall2 (λ t t', identity_of t' = identity_of t
                     ∧ (Sql.cell t "id" ≠ VStr id → t' = t))
      (Sql.rows (Sql.trades d)) (Sql.rows (Sql.trades d')).

(** ** Words of a header *)

(** A string without a space. *)
Fixpoint spaceless (s : string) : bool :=
  match s with
  | EmptyString => true
  | String a r => negb (Ascii.eqb a " ") && spaceless r
  end.

(** ** What a computation on the connection returns *)

(** Whenever the computation returns, what it returns satisfies [P]. *)
Definition returns {A} (P : A → Prop) (m : Sql.M A) : Prop :=
  ∀ d a d', m d = (Sql.Ok a, d') → P a.

(** The tables are as before. *)
Definition same_tables (d d' : Sql.db) : Prop :=
  Sql.users d' = Sql.users d ∧ Sql.trades d' = Sql.trades d.

(** The query of a list request for a status, without pagination. *)
Definition for_status (st : option string) : Query.t :=
  {| Query.page := None; Query.limit := None; Query.status := st; Query.role := None |}.

(** The columns the sweep writes. *)
Definition swept_columns : list string :=
  ["chart_before_url"; "chart_after_url"; "updated_at"].

(** ** The order of a relational listing *)

(** [a] comes no later than [b] in a listing by [col], descending. *)
Definition newest_first (col : string) (a b : obj) : Prop :=
  Is_true (Sql.cell_leb (Sql.cell b col) (Sql.cell a col)).

(** The first of [created_at], [updated_at] and [id] that a table has. *)
Definition order_column (t : Sql.table) : option string :=
  if bool_decide ("created_at" ∈ Sql.columns t) then Some "created_at"
  else if bool_decide ("updated_at" ∈ Sql.columns t) then Some "updated_at"
  else if bool_decide ("id" ∈ Sql.columns t) then Some "id"
  else None.

(** ** Credentials in replies *)

(** The properties that would give a credential away. *)
Definition secrets : list string := ["password_hash"; "password"].

(** A reply body that carries no credential, at the top level or in its
    nested [user]. *)
Definition discreet (b : body) : Prop :=
  Forall (λ k, get (flat b) k = VUndefined
               ∧ match nested_user b with
                 | Some u => get u k = VUndefined
                 | None => True
                 end) secrets.

(** ** The columns the migration looks after *)

(** The columns [ensureTradeColumns] adds when they are missing. *)
Definition ensured_columns : list Schema.column :=
  [ {| Schema.Field := "chart_before_url"; Schema.Type_ := "longtext" |};
    {| Schema.Field := "chart_after_url"; Schema.Type_ := "longtext" |};
    {| Schema.Field := "reviewed_by"; Schema.Type_ := "varchar(255)" |};
    {| Schema.Field := "created_at"; Schema.Type_ := "datetime" |};
    {| Schema.Field := "updated_at"; Schema.Type_ := "datetime" |} ].

(** A chart column of a small text type becomes [longtext]; every other
    column stays as it is. *)
Definition upgraded (c : Schema.column) : Schema.column :=
  if (String.eqb (Schema.Field c) "chart_before_url"
      || String.eqb (Schema.Field c) "chart_after_url")
     && small_text (Schema.Type_ c)
  then {| Schema.Field := Schema.Field c; Schema.Type_ := "longtext" |}
  else c.

Module SampleSchema.

(** A trades table from before the chart columns, and one with a chart
    column that is too small. *)
Definition old : list Schema.column :=
  [ {| Schema.Field := "id"; Schema.Type_ := "varchar(36)" |};
    {| Schema.Field := "user_id"; Schema.Type_ := "varchar(36)" |};
    {| Schema.Field := "display_unit"; Schema.Type_ := "varchar(16)" |};
    {| Schema.Field := "created_at"; Schema.Type_ := "datetime" |} ].

Definition small : list Schema.column :=
  [ {| Schema.Field := "id"; Schema.Type_ := "varchar(36)" |};
    {| Schema.Field := "chart_before_url"; Schema.Type_ := "TEXT" |};
    {| Schema.Field := "created_at"; Schema.Type_ := "datetime" |} ].

End SampleSchema.

(** Whether the table has a column [k] of a small text type. *)
Definition too_small (cols : list Schema.column) (k : string) : bool :=
  match fields cols !! k with
  | Some c => small_text (Schema.Type_ c)
  | None => false
  end.

(** ** What the list endpoints have to show *)

(** The trades GET /api/trades selects for the caller, before any ordering
    and pagination: the caller's own for a student, of one status when a
    status is asked for. *)
Definition trades_selection (USE_MOCK_DB : bool) (user : Req.user) (q : Query.t) (s : state)
  : list obj :=
  if USE_MOCK_DB then
    let trades := MockDatabase.trades (mockDb s) in
    let trades :=
      if strict_eq (Req.role user) (VStr "student")
      then filter (λ t, get t "userId" = Req.userId user) trades else trades in
    if truthy (param (Query.status q))
    then filter (λ t, get t "status" = param (Query.status q)) trades else trades
  else
    let t := Sql.trades (pool s) in
    map (Sql.project (Sql.columns t))
      (List.filter (Sql.matches (trades_where user q)) (Sql.rows t)).

(** The accounts GET /api/users selects. *)
Definition users_selection (USE_MOCK_DB : bool) (q : Query.t) (s : state) : list obj :=
  if USE_MOCK_DB then
    let users := MockDatabase.users (mockDb s) in
    let users :=
      if truthy (param (Query.status q))
      then filter (λ u, get u "status" = param (Query.status q)) users else users in
    if truthy (param (Query.role q))
    then filter (λ u, get u "role" = param (Query.role q)) users else users
  else
    let t := Sql.users (pool s) in
    map (Sql.project users_columns)
      (List.filter (Sql.matches (users_where q)) (Sql.rows t)).

(** [results] is [selection] in an order the store can return it in: the
    stored order for the in-memory store; for a table, any order that is
    descending in the column of the [ORDER BY], if there is one. *)
Definition arranged (USE_MOCK_DB : bool) (col : option string)
    (selection results : list obj) : Prop :=
  if USE_MOCK_DB then results = selection
  else results ≡ₚ selection ∧ ∀ c, col = Some c → Sorted (newest_first c) results.

(** ** A toy token library

    Tokens that are words of zeros and ones: the payload, the secret and
    the expiry time ([iat + expiresIn]), encoded together. *)
Module SampleTokens.

Definition value_to_sum (v : value) : unit + (unit + (bool + (Z + string))) :=
  match v with
  | VUndefined => inl ()
  | VNull => inr (inl ())
  | VBool b => inr (inr (inl b))
  | VNum n => inr (inr (inr (inl n)))
  | VStr s => inr (inr (inr (inr s)))
  end.

Definition sum_to_value (x : unit + (unit + (bool + (Z + string)))) : value :=
  match x with
  | inl _ => VUndefined
  | inr (inl _) => VNull
  | inr (inr (inl b)) => VBool b
  | inr (inr (inr (inl n))) => VNum n
  | inr (inr (inr (inr s))) => VStr s
  end.

#[global] Instance value_countable : Countable value.
Proof. refine (inj_countable' value_to_sum sum_to_value _). by intros []. Defined.

#[global] Instance user_eq_dec : EqDecision Req.user.
Proof. solve_decision. Defined.

#[global] Instance user_countable : Countable Req.user.
Proof.
  refine (inj_countable' (λ u, (Req.userId u, Req.email u, Req.role u))
            (λ t, {| Req.userId := t.1.1; Req.email := t.1.2; Req.role := t.2 |}) _).
  by intros [].
Defined.

Fixpoint word_of (p : positive) : string :=
  match p with
  | xH => "1"
  | xO q => String "0" (word_of q)
  | xI q => String "1" (word_of q)
  end.

Fixpoint pos_of (s : string) : option positive :=
  match s with
  | EmptyString => None
  | String a r =>
      if Ascii.eqb a "1" then
        match r with
        | EmptyString => Some xH
        | String _ _ => xI <$> pos_of r
        end
      else if Ascii.eqb a "0" then xO <$> pos_of r
      else None
  end.

Definition jwt_sign (payload : Req.user) (secret : string) (iat ttl : Z) : string :=
  word_of (encode (payload, secret, iat + ttl)).

Definition jwt_verify (token secret : string) (now : Z) : option Req.user :=
  match pos_of token ≫= decode with
  | Some (payload, key, exp) =>
      if String.eqb key secret && (now <? exp) then Some payload else None
  | None => None
  end.

End SampleTokens.

(** * Properties *)

(** ** Lists, slices and rows *)

Lemma slice_subseteq {A} (l : list A) (from to : number) : slice l from to ⊆ l.
Proof.
  unfold slice. intros x Hx.
  apply (subseteq_take (Z.to_nat (Z.max (rel_index (Z.of_nat (length l)) to
                          - rel_index (Z.of_nat (length l)) from) 0))) in Hx.
  by apply (subseteq_drop (Z.to_nat (rel_index (Z.of_nat (length l)) from))) in Hx.
Qed.

(** Below [2^53] an integer is its own double. *)
Lemma nearest_exact (z : Z) : Z.abs z < 2 ^ 53 → nearest z = Fin z.
Proof. intros H. unfold nearest. by destruct (Z.ltb_spec (Z.abs z) (2 ^ 53)); [|lia]. Qed.

(** The offset and the end of page [page] of size [limit], where the
    arithmetic is exact. *)
Lemma page_bounds (page limit : Z) :
  1 ≤ page → 1 ≤ limit → page * limit < 2 ^ 53 →
  mul (sub (Fin page) (Fin 1)) (Fin limit) = Fin ((page - 1) * limit)
  ∧ add (Fin ((page - 1) * limit)) (Fin limit) = Fin (page * limit).
Proof.
  intros Hp Hl Hb. unfold mul, sub, add.
  rewrite (nearest_exact (page - 1)) by nia.
  rewrite (nearest_exact ((page - 1) * limit)) by nia.
  rewrite nearest_exact by nia. split; [done|]. f_equal. lia.
Qed.

(** On a page inside the natural numbers, [slice] is [drop] then [take]. *)
Lemma slice_take_drop {A} (l : list A) (offset limit : Z) :
  0 ≤ offset → 0 ≤ limit →
  slice l (Fin offset) (Fin (offset + limit))
  = take (Z.to_nat limit) (drop (Z.to_nat offset) l).
Proof.
  intros Ho Hl. unfold slice, rel_index.
  destruct (Z.ltb_spec offset 0) as [|_]; [lia|].
  destruct (Z.ltb_spec (offset + limit) 0) as [|_]; [lia|].
  set (len := Z.of_nat (length l)).
  destruct (Z_le_gt_dec len offset) as [Hge|Hlt].
  - rewrite !drop_ge by lia. by rewrite !take_nil.
  - rewrite (Z.min_l offset len) by lia.
    destruct (Z_le_gt_dec (offset + limit) len) as [Hin|Hout].
    + rewrite Z.min_l by lia. f_equal. lia.
    + rewrite Z.min_r by lia.
      rewrite !take_ge; [done| |]; rewrite length_drop; lia.
Qed.

Lemma order_by_subseteq (o : option string) (rs : list obj) : Sql.order_by o rs ⊆ rs.
Proof.
  destruct o as [col|]; simpl; [|done].
  intros x Hx. by rewrite merge_sort_Permutation in Hx.
Qed.

Lemma project_lookup (names : list string) (r : obj) (c : string) :
  c ∈ names → get (Sql.project names r) c = Sql.cell r c.
Proof.
  unfold Sql.project, get. induction names as [|c' names IH]; simpl.
  - by intros ?%elem_of_nil.
  - intros Hin. destruct (decide (c' = c)) as [->|Hne].
    + by rewrite lookup_insert_eq.
    + rewrite lookup_insert_ne by done. apply IH.
      apply elem_of_cons in Hin as [?|?]; [congruence|done].
Qed.

Lemma project_missing (names : list string) (r : obj) (c : string) :
  c ∉ names → get (Sql.project names r) c = VUndefined.
Proof.
  unfold Sql.project, get. induction names as [|c' names IH]; simpl; [done|].
  intros [Hne Hin]%not_elem_of_cons. rewrite lookup_insert_ne by done. by apply IH.
Qed.

Lemma unknown_column_None (t : Sql.table) (cols : list string) (c : string) :
  Sql.unknown_column t cols = None → c ∈ cols → Sql.ident c ∈ Sql.columns t.
Proof.
  unfold Sql.unknown_column. intros H Hc.
  apply fmap_None, list_find_None in H. rewrite Forall_forall in H.
  specialize (H c Hc). simpl in H. by apply dec_stable.
Qed.

(** A row that passes [WHERE ... col = v ...] holds [v] in that column. *)
Lemma matches_Eq (where_ : list Sql.cond) (col : string) (v : value) (r : obj) :
  Sql.Eq col v ∈ where_ → Sql.matches where_ r = true →
  Sql.cell r (Sql.ident col) = v.
Proof.
  unfold Sql.matches. intros Hin Hall.
  rewrite forallb_forall in Hall. apply list_elem_of_In in Hin.
  specialize (Hall _ Hin). apply bool_decide_eq_true in Hall. simpl in Hall.
  unfold Sql.sql_eq in Hall.
  destruct (Sql.is_null (Sql.cell r (Sql.ident col))) eqn:E1; [done|].
  destruct (Sql.is_null (Sql.cell_of v)) eqn:E2; [done|]. simpl in Hall.
  injection Hall as Hall. apply bool_decide_eq_true in Hall.
  rewrite Hall. unfold Sql.cell_of in *. by destruct (Sql.is_null v).
Qed.

(** ** What a statement returns *)

(** A statement of the fragment is run on the current tables. *)
Lemma query_run (s : Sql.stmt) (d : Sql.db) :
  Sql.modelled s = true → Sql.query s d = Sql.run s (Sql.logged d s).
Proof. intros H. unfold Sql.query, Sql.execute. by rewrite H. Qed.

Lemma execute_run (s : Sql.stmt) (d : Sql.db) :
  Sql.modelled s = true → Sql.execute s d = Sql.run s d.
Proof. intros H. unfold Sql.execute. by rewrite H. Qed.

(** An insert that names no column twice. *)
Lemma insert_run tbl cols vals (d : Sql.db) :
  NoDup (map Sql.ident cols) →
  Sql.run (Sql.Insert tbl cols vals) d
  = match Sql.unknown_column (Sql.table_of d tbl) cols with
    | Some c => (Sql.Throw (Sql.ER_BAD_FIELD_ERROR c), d)
    | None =>
        if negb (Nat.eqb (length cols) (length vals))
        then (Sql.Throw Sql.ER_WRONG_VALUE_COUNT_ON_ROW, d)
        else (Sql.Ok [ {[ "affectedRows" := VNum 1 ]} ],
              Sql.set_rows d tbl
                (Sql.rows (Sql.table_of d tbl) ++ [Sql.assign (zip cols vals) ∅]))
    end.
Proof. intros Hnd. unfold Sql.run. by rewrite bool_decide_eq_true_2. Qed.

(** The statements the handlers write themselves are in the fragment,
    whatever their parameters. *)
Ltac in_fragment :=
  unfold Sql.modelled, orderCol;
  repeat match goal with
         | |- context [if ?b then _ else _] => destruct b
         | |- context [match ?o with Some _ => _ | None => _ end] => destruct o
         end;
  reflexivity.

(** Every row of a successful [SELECT] is the projection of a stored row
    that passes the [WHERE]; the tables are as before. *)
Lemma select_rows cols tbl where_ order lo (d d' : Sql.db) (rs : list obj) :
  Sql.modelled (Sql.Select cols tbl where_ order lo) = true →
  Sql.query (Sql.Select cols tbl where_ order lo) d = (Sql.Ok rs, d') →
  Sql.unknown_column (Sql.table_of d tbl)
    (default [] cols ++ concat (map Sql.cond_columns where_) ++ option_list order) = None
  ∧ Sql.users d' = Sql.users d ∧ Sql.trades d' = Sql.trades d
  ∧ Forall (λ t, ∃ r, r ∈ Sql.rows (Sql.table_of d tbl)
                      ∧ Sql.matches where_ r = true
                      ∧ t = Sql.project (Sql.selected (Sql.table_of d tbl) cols) r) rs.
Proof.
  intros Hfrag. rewrite query_run by done. unfold Sql.run.
  replace (Sql.table_of _ tbl) with (Sql.table_of d tbl) by (by destruct tbl).
  set (t := Sql.table_of d tbl).
  destruct (Sql.unknown_column t _) eqn:Hcols; [done|].
  assert (Hsub : ∀ l, l ⊆ Sql.order_by order (List.filter (Sql.matches where_) (Sql.rows t)) →
    Forall (λ t0, ∃ r, r ∈ Sql.rows t ∧ Sql.matches where_ r = true
                       ∧ t0 = Sql.project (Sql.selected t cols) r)
      (map (Sql.project (Sql.selected t cols)) l)).
  { intros l Hl. apply Forall_forall. intros x Hx.
    apply list_elem_of_fmap in Hx as (r & -> & Hr).
    apply Hl, order_by_subseteq in Hr.
    apply list_elem_of_In, filter_In in Hr as [Hr Hm].
    exists r. by rewrite list_elem_of_In. }
  destruct lo as [[[limit| |] [offset| |]]|]; try done.
  - destruct (_ || _); [done|].
    intros [= <- <-]. split_and!; try done. apply Hsub.
    etrans; [apply subseteq_take|apply subseteq_drop].
  - intros [= <- <-]. split_and!; try done. by apply Hsub.
Qed.

(** ** Strict equality *)

Lemma strict_eq_refl (v : value) : strict_eq v v = true.
Proof. unfold strict_eq. by apply bool_decide_eq_true. Qed.

Lemma strict_eq_true (a b : value) : strict_eq a b = true ↔ a = b.
Proof. unfold strict_eq. apply bool_decide_eq_true. Qed.

Lemma strict_eq_false (a b : value) : strict_eq a b = false ↔ a ≠ b.
Proof. unfold strict_eq. apply bool_decide_eq_false. Qed.

(** ** The connection monad, step by step *)

Lemma bind_inv {A B} (m : Sql.M A) (f : A → Sql.M B) (d d' : Sql.db) (res : Sql.result B) :
  (m ≫= f) d = (res, d') →
  (∃ a d1, m d = (Sql.Ok a, d1) ∧ f a d1 = (res, d'))
  ∨ (∃ e, m d = (Sql.Throw e, d') ∧ res = Sql.Throw e).
Proof.
  unfold mbind, Sql.M_bind. destruct (m d) as [[a|e] d1]; intros H.
  - left. by exists a, d1.
  - right. exists e. by injection H as <- <-.
Qed.

Lemma try_catch_inv {A} (m : Sql.M A) (h : Sql.error → Sql.M A) (d d' : Sql.db)
    (res : Sql.result A) :
  Sql.try_catch m h d = (res, d') →
  (∃ a, m d = (Sql.Ok a, d') ∧ res = Sql.Ok a)
  ∨ (∃ e d1, m d = (Sql.Throw e, d1) ∧ h e d1 = (res, d')).
Proof.
  unfold Sql.try_catch. destruct (m d) as [[a|e] d1]; intros H.
  - left. exists a. by injection H as <- <-.
  - right. by exists e, d1.
Qed.

Lemma ret_inv {A} (a : A) (d d' : Sql.db) (res : Sql.result A) :
  (mret a : Sql.M A) d = (res, d') → res = Sql.Ok a ∧ d' = d.
Proof. by intros [= <- <-]. Qed.

Lemma throw_inv {A} (e : Sql.error) (d d' : Sql.db) (res : Sql.result A) :
  Sql.throw e d = (res, d') → res = Sql.Throw e ∧ d' = d.
Proof. by intros [= <- <-]. Qed.

(** A handler whose [catch] answers with a reply always answers. *)
Lemma on_pool_try_catch (m : Sql.M response) (msg : Sql.error → response) (s : state) :
  on_pool (Sql.try_catch m (λ e, mret (msg e))) s =
  match m (pool s) with
  | (Sql.Ok r, d) => (r, with_pool s d)
  | (Sql.Throw e, d) => (msg e, with_pool s d)
  end.
Proof. unfold on_pool, Sql.try_catch. by destruct (m (pool s)) as [[r|e] d]. Qed.


Lemma query_throw (s : Sql.stmt) (d d' : Sql.db) (e : Sql.error) :
  Sql.modelled s = true →
  Sql.query s d = (Sql.Throw e, d') →
  Sql.users d' = Sql.users d ∧ Sql.trades d' = Sql.trades d.
Proof.
  intros Hfrag. rewrite query_run by done. unfold Sql.run.
  destruct s as [tbl|cols tbl w o lo|tbl w|tbl cols|tbl cols vals|tbl sets w
                |tbl pasted sets w|tbl w];
    repeat case_match; by intros [= <- <-].
Qed.

(** ** C1: a student lists only their own trades *)

Lemma get_trades_mock_owned user q db :
  Req.role user = VStr "student" →
  Forall (λ t, get t "userId" = Req.userId user)
    (listed (json (get_trades_mock user q db))).
Proof.
  intros Hrole. unfold get_trades_mock. cbv zeta. rewrite Hrole, !strict_eq_refl.
  set (own := filter (λ t, get t "userId" = Req.userId user) (MockDatabase.getAllTrades db)).
  assert (Hown : Forall (λ t, get t "userId" = Req.userId user) own).
  { apply Forall_forall. by intros t [? _]%list_elem_of_filter. }
  set (shown := if truthy (param (Query.status q)) then _ else own) in *.
  assert (Hshown : Forall (λ t, get t "userId" = Req.userId user) shown).
  { subst shown. destruct (truthy _); [|done].
    eapply Forall_forall. intros t [_ Ht]%list_elem_of_filter.
    by eapply Forall_forall in Hown. }
  destruct (negb _); simpl; [done|].
  rewrite Forall_forall in Hshown |- *.
  intros t Ht. by apply Hshown, (slice_subseteq _ _ _ _ Ht).
Qed.

(** The rows a student's [SELECT] returns carry the student's id. *)
Lemma select_trades_owned user (w : list Sql.cond) order lo d d' rs :
  Sql.modelled
    (Sql.Select None Sql.Trades (Sql.Eq "user_id" (Req.userId user) :: w) order lo) = true →
  Sql.query (Sql.Select None Sql.Trades (Sql.Eq "user_id" (Req.userId user) :: w) order lo) d
    = (Sql.Ok rs, d') →
  Forall (λ t, Sql.cell t "user_id" = Req.userId user) rs.
Proof.
  intros Hfrag (Hcols & _ & _ & Hrows)%select_rows; [|done].
  eapply Forall_impl; [exact Hrows|]. cbv beta.
  intros t (r & _ & Hm & ->).
  apply (matches_Eq _ "user_id" (Req.userId user)) in Hm; [|by left].
  change (Sql.ident "user_id") with "user_id" in Hm.
  assert (Hin : "user_id" ∈ Sql.columns (Sql.trades d)).
  { apply (unknown_column_None _ _ "user_id") in Hcols; [done|].
    apply elem_of_app. right. simpl. by left. }
  unfold Sql.cell at 1. rewrite project_lookup by done. rewrite <- Hm.
  unfold Sql.cell, Sql.cell_of. by destruct (get r "user_id").
Qed.

Lemma get_trades_real_owned user q (s : state) :
  Req.role user = VStr "student" →
  Forall (λ t, Sql.cell t "user_id" = Req.userId user)
    (listed (json (on_pool (get_trades_real user q) s).1)).
Proof.
  intros Hrole. unfold get_trades_real. cbv zeta.
  rewrite on_pool_try_catch, Hrole, !strict_eq_refl.
  destruct (@mbind Sql.M _ _ _ _ _ (pool s)) as [[r|e] d'] eqn:Hrun; [|by cbn].
  apply bind_inv in Hrun as [(cols & d1 & _ & Hrun)|(? & _ & [=])].
  destruct (negb _).
  - apply bind_inv in Hrun as [(rs & d2 & Hsel & [[= ->] _]%ret_inv)|(? & _ & [=])].
    apply select_trades_owned in Hsel; [done|in_fragment].
  - apply bind_inv in Hrun as [(cnt & d2 & _ & Hrun)|(? & _ & [=])].
    destruct cnt as [|c cnt]; [by apply throw_inv in Hrun as [[=] _]|].
    apply bind_inv in Hrun as [(rs & d3 & Hsel & [[= ->] _]%ret_inv)|(? & _ & [=])].
    apply select_trades_owned in Hsel; [done|in_fragment].
Qed.

(** C1. Whatever the query parameters, every trade in the response to a
    student's GET /api/trades (bare array or paginated envelope, with or
    without a status filter) has the student's session [userId] as its
    owner, in the in-memory store and in the relational one. *)
Theorem student_lists_only_own_trades (USE_MOCK_DB : bool) user q (s : state) :
  Req.role user = VStr "student" →
  Forall (λ t, owner USE_MOCK_DB t = Req.userId user)
    (listed (json (get_trades USE_MOCK_DB user q s).1)).
Proof.
  intros Hrole. unfold get_trades, owner. destruct USE_MOCK_DB.
  - by apply get_trades_mock_owned.
  - by apply get_trades_real_owned.
Qed.


(** Witness of C1: Alice's paginated listing on the sample in-memory store. *)
Lemma student_lists_only_own_trades_witness :
  Forall (λ t, owner true t = VStr "student-002")
    (listed (json (get_trades true (Sample.session Sample.alice)
                     (Sample.paged "1" "10") Sample.server).1)).
Proof.
  apply (student_lists_only_own_trades true (Sample.session Sample.alice)).
  reflexivity.
Defined.

(** ** Object literals and assignments *)

Lemma spread_notin (o : obj) (b : entries) (k : string) :
  k ∉ b.*1 → get (spread o b) k = get o k.
Proof.
  unfold spread, get. revert o. induction b as [|[k' v] b IH]; intros o Hk; [done|].
  simpl in *. apply not_elem_of_cons in Hk as [Hne Hk].
  rewrite IH by done. by rewrite lookup_insert_ne.
Qed.

Lemma assign_notin (sets : entries) (r : obj) (k : string) :
  k ∉ map Sql.ident sets.*1 → (Sql.assign sets r) !! k = r !! k.
Proof.
  unfold Sql.assign. revert r. induction sets as [|[c v] sets IH]; intros r Hk; [done|].
  simpl in *. apply not_elem_of_cons in Hk as [Hne Hk].
  rewrite IH by done. by rewrite lookup_insert_ne.
Qed.

(** The first property of a literal, unless a later one has its name. *)
Lemma literal_first (k : string) (v : value) (b : entries) :
  k ∉ b.*1 → get (literal ((k, v) :: b)) k = v.
Proof.
  intros Hk. change (literal ((k, v) :: b)) with (spread (<[k := v]> ∅) b).
  rewrite spread_notin by done. unfold get. by rewrite lookup_insert_eq.
Qed.

(** A property no entry of the literal names reads [undefined]. *)
Lemma literal_missing (k : string) (b : entries) :
  k ∉ b.*1 → get (literal b) k = VUndefined.
Proof. intros Hk. unfold literal. by rewrite spread_notin. Qed.

(** ** C2: the owner of a created trade *)

Lemma post_trades_mock_owner user body db :
  ∃ t, (post_trades_mock user body db).2
       = {| MockDatabase.users := MockDatabase.users db;
            MockDatabase.trades := MockDatabase.trades db ++ [t] |}
       ∧ json (post_trades_mock user body db).1 = Obj t
       ∧ get t "userId" = Req.userId user.
Proof.
  unfold post_trades_mock, MockDatabase.createTrade. cbv zeta.
  eexists. split_and!; [reflexivity..|].
  apply literal_first. cbn [fmap list_fmap fst].
  apply (bool_decide_unpack _). by vm_compute.
Qed.

Lemma insert_rows tbl cols vals (d d' : Sql.db) (rs : list obj) :
  Sql.modelled (Sql.Insert tbl cols vals) = true →
  Sql.query (Sql.Insert tbl cols vals) d = (Sql.Ok rs, d') →
  Sql.rows (Sql.table_of d' tbl)
    = Sql.rows (Sql.table_of d tbl) ++ [Sql.assign (zip cols vals) ∅]
  ∧ Sql.columns (Sql.table_of d' tbl) = Sql.columns (Sql.table_of d tbl).
Proof.
  intros Hfrag. rewrite query_run by done. unfold Sql.run.
  destruct (Sql.unknown_column _ _); [done|]. destruct (negb _); [done|].
  destruct (negb _); [done|].
  intros [= <- <-]. by destruct tbl.
Qed.

(** The row either insert of the handler stores. *)
Lemma inserted_row_owner (cols : list string) (vals : list value) (id uid : value)
    (cs : list string) (vs : list value) :
  cols = "id" :: "user_id" :: cs → vals = id :: uid :: vs →
  "user_id" ∉ map Sql.ident cs → "id" ∉ map Sql.ident cs →
  Sql.cell (Sql.assign (zip cols vals) ∅) "user_id" = Sql.cell_of uid
  ∧ Sql.cell (Sql.assign (zip cols vals) ∅) "id" = Sql.cell_of id.
Proof.
  intros -> -> Hu Hi. cbn [zip zip_with].
  change (Sql.assign (("id", id) :: ("user_id", uid) :: ?l) ∅)
    with (Sql.assign l (<["user_id" := Sql.cell_of uid]> (<["id" := Sql.cell_of id]> ∅))).
  assert (Hkeys : ∀ k, k ∉ map Sql.ident cs → k ∉ map Sql.ident (zip cs vs).*1).
  { intros k Hk Hin. apply Hk. clear -Hin. revert vs Hin.
    induction cs as [|c cs IH]; intros [|v vs] Hin; simpl in *;
      try by apply elem_of_nil in Hin.
    apply elem_of_cons in Hin as [->|Hin]; [by left|right; eauto]. }
  unfold Sql.cell, get. rewrite !assign_notin by auto.
  rewrite lookup_insert_eq, lookup_insert_ne, lookup_insert_eq by done.
  split; unfold Sql.cell_of; simpl; [by destruct uid|by destruct id].
Qed.

Lemma post_trades_real_created tradeId now user body (d d' : Sql.db) (r : response) :
  post_trades_real tradeId now user body d = (Sql.Ok r, d') → status r = 201 →
  ∃ t, Sql.rows (Sql.trades d') = Sql.rows (Sql.trades d) ++ [t]
       ∧ Sql.cell t "user_id" = Sql.cell_of (Req.userId user)
       ∧ Sql.cell t "id" = VStr tradeId.
Proof.
  unfold post_trades_real. cbv zeta. intros Hrun Hst.
  apply try_catch_inv in Hrun as [(a & Hrun & [= <-])|(e & d1 & _ & [[= ->] _]%ret_inv)];
    [|done].
  apply bind_inv in Hrun as [(rs & d1 & Hins & [_ ->]%ret_inv)|(? & _ & [=])].
  apply try_catch_inv in Hins as [(a & Hins & _)|(e & d2 & Hfirst & Hins)].
  - apply insert_rows in Hins as [Hrows _]; [|done]. eexists. split; [exact Hrows|].
    eapply (inserted_row_owner _ _ (VStr tradeId) (Req.userId user)); [reflexivity..| |];
      apply (bool_decide_unpack _); by vm_compute.
  - destruct (String.eqb _ _); [|by apply throw_inv in Hins as [[=] _]].
    apply query_throw in Hfirst as [_ Htr]; [|done].
    apply insert_rows in Hins as [Hrows _]; [|done]. cbn [Sql.table_of] in Hrows.
    rewrite Htr in Hrows. eexists. split; [exact Hrows|].
    eapply (inserted_row_owner _ _ (VStr tradeId) (Req.userId user)); [reflexivity..| |];
      apply (bool_decide_unpack _); by vm_compute.
Qed.

(** C2. A student's POST /api/trades stores exactly one new trade, and its
    owner is the session [userId] whatever the body holds: two requests that
    differ in the body (for instance in a [user_id] or [userId] property)
    both create a trade owned by the caller.  The session identity is a
    value, not [null]. *)
Theorem created_trade_owner_is_session (USE_MOCK_DB : bool) tradeId now user
    (body1 body2 : entries) (s : state) :
  Req.role user = VStr "student" →
  Sql.is_null (Req.userId user) = false →
  status (post_trades USE_MOCK_DB tradeId now user body1 s).1 = 201 →
  status (post_trades USE_MOCK_DB tradeId now user body2 s).1 = 201 →
  ∃ t1 t2,
    stored_trades USE_MOCK_DB (post_trades USE_MOCK_DB tradeId now user body1 s).2
      = stored_trades USE_MOCK_DB s ++ [t1]
    ∧ stored_trades USE_MOCK_DB (post_trades USE_MOCK_DB tradeId now user body2 s).2
      = stored_trades USE_MOCK_DB s ++ [t2]
    ∧ owner USE_MOCK_DB t1 = Req.userId user
    ∧ owner USE_MOCK_DB t2 = Req.userId user.
Proof.
  intros Hrole Hid.
  assert (Hone : ∀ body,
    status (post_trades USE_MOCK_DB tradeId now user body s).1 = 201 →
    ∃ t, stored_trades USE_MOCK_DB (post_trades USE_MOCK_DB tradeId now user body s).2
           = stored_trades USE_MOCK_DB s ++ [t]
         ∧ owner USE_MOCK_DB t = Req.userId user).
  { intros body. unfold post_trades. rewrite Hrole, strict_eq_refl. cbn [negb].
    destruct (_ || _); [done|]. destruct USE_MOCK_DB.
    - intros _. destruct (post_trades_mock_owner user body (mockDb s)) as (t & Hdb & _ & Ho).
      destruct (post_trades_mock user body (mockDb s)) as [r db'].
      simpl in Hdb. subst db'. by exists t.
    - unfold on_pool.
      destruct (post_trades_real tradeId now user body (pool s)) as [[r|e] d'] eqn:Hrun;
        [|done].
      cbn. intros Hst.
      destruct (post_trades_real_created _ _ _ _ _ _ _ Hrun Hst) as (t & Hrows & Ho & _).
      exists t. split; [done|]. rewrite Ho. unfold Sql.cell_of. by rewrite Hid. }
  intros H1 H2. destruct (Hone _ H1) as (t1 & ? & ?), (Hone _ H2) as (t2 & ? & ?).
  by exists t1, t2.
Qed.

(** Witness of C2: Alice posts twice on the sample relational store, the
    second time naming Bob as [user_id]. *)
Lemma created_trade_owner_is_session_witness :
  ∃ t1 t2,
    stored_trades false
      (post_trades false "trade-c" Sample.today (Sample.session Sample.alice)
         [("asset", VStr "XAUUSD"); ("direction", VStr "short");
          ("entry", VNum 2000); ("sl", VNum 2010)] Sample.server).2
      = stored_trades false Sample.server ++ [t1]
    ∧ stored_trades false
        (post_trades false "trade-c" Sample.today (Sample.session Sample.alice)
           [("asset", VStr "XAUUSD"); ("direction", VStr "short");
            ("entry", VNum 2000); ("sl", VNum 2010);
            ("user_id", VStr "student-003")] Sample.server).2
      = stored_trades false Sample.server ++ [t2]
    ∧ owner false t1 = Req.userId (Sample.session Sample.alice)
    ∧ owner false t2 = Req.userId (Sample.session Sample.alice).
Proof.
  apply (created_trade_owner_is_session false); reflexivity.
Defined.


(** ** C3: the login decision *)

Lemma unknown_column_ok (t : Sql.table) (cols : list string) :
  Forall (λ c, Sql.ident c ∈ Sql.columns t) cols → Sql.unknown_column t cols = None.
Proof.
  intros H. unfold Sql.unknown_column. apply fmap_None, list_find_None.
  eapply Forall_impl; [exact H|]. simpl. tauto.
Qed.

Lemma cell_of_value (v : value) : Sql.is_null v = false → Sql.cell_of v = v.
Proof. unfold Sql.cell_of. by intros ->. Qed.

Lemma truthy_not_null (v : value) : truthy v = true → Sql.is_null v = false.
Proof. by destruct v. Qed.

(** With an [email] column, a row passes [WHERE email = ?] exactly when the
    row the handler gets holds that email. *)
Lemma matches_email (names : list string) (email : value) (r : obj) :
  "email" ∈ names → Sql.is_null email = false →
  Sql.matches [Sql.Eq "email" email] r = true
  ↔ get (Sql.project names r) "email" = email.
Proof.
  intros Hin Hnn. rewrite project_lookup by done.
  unfold Sql.matches. cbn [forallb Sql.eval]. rewrite andb_true_r, bool_decide_eq_true.
  change (Sql.ident "email") with "email".
  unfold Sql.sql_eq. rewrite (cell_of_value email), Hnn, orb_false_r by done.
  destruct (Sql.is_null (Sql.cell r "email")) eqn:E.
  - split; [done|]. intros H. by rewrite H, Hnn in E.
  - split.
    + intros [= H]. by apply bool_decide_eq_true in H.
    + intros ->. f_equal. by apply bool_decide_eq_true.
Qed.

Lemma head_select_find (names : list string) (email : value) (rows : list obj) :
  "email" ∈ names → Sql.is_null email = false →
  head (map (Sql.project names) (List.filter (Sql.matches [Sql.Eq "email" email]) rows))
  = snd <$> list_find (λ u, get u "email" = email) (map (Sql.project names) rows).
Proof.
  intros Hin Hnn. induction rows as [|r rows IH]; [done|].
  cbn [List.filter map list_find].
  destruct (Sql.matches _ r) eqn:Hm.
  - apply (matches_email names) in Hm; [|done..].
    cbn [list_fmap]. by rewrite decide_True.
  - cbn [list_fmap]. rewrite decide_False.
    + rewrite IH. by destruct (list_find _ _) as [[??]|].
    + intros H. apply (matches_email names) in H; [|done..]. congruence.
Qed.

(** The lookup of the relational branch, on a table with an [email] column. *)
Lemma select_user_by_email (email : value) (d : Sql.db) :
  "email" ∈ Sql.columns (Sql.users d) → Sql.is_null email = false →
  ∃ rs d',
    Sql.query (Sql.Select None Sql.Users [Sql.Eq "email" email] None None) d = (Sql.Ok rs, d')
    ∧ Sql.users d' = Sql.users d ∧ Sql.trades d' = Sql.trades d
    ∧ head rs = snd <$> list_find (λ u, get u "email" = email)
                          (map (Sql.project (Sql.columns (Sql.users d))) (Sql.rows (Sql.users d))).
Proof.
  intros Hin Hnn. rewrite query_run by in_fragment. unfold Sql.run. cbn [Sql.table_of Sql.users].
  rewrite unknown_column_ok.
  - eexists _, _. split; [reflexivity|]. split_and!; [done..|].
    by apply head_select_find.
  - repeat constructor. done.
Qed.

Section Login.

Variable bcrypt_compare : string → string → bool.
Variable jwt_sign : Req.user → string → Z → Z → string.
Variable JWT_SECRET : string.

(** The relational branch decides on the first row with the email. *)
Lemma login_real_found (now : Z) (body : entries) (s : state) :
  "email" ∈ Sql.columns (Sql.users (pool s)) →
  truthy (field body "email") = true →
  (on_pool (login_real bcrypt_compare jwt_sign JWT_SECRET now body) s).1 =
  match snd <$> list_find (λ u, get u "email" = field body "email") (visible_users false s) with
  | None =>
      reply 401 (Obj (literal [("error", VStr "ไม่พบบัญชีนี้");
                               ("code", VStr "auth/user-not-found")]))
  | Some user =>
      match compare bcrypt_compare (field body "password") (get user "password_hash") with
      | None =>
          reply_error 500 (illegal_arguments (field body "password") (get user "password_hash"))
      | Some false =>
          reply 401 (Obj (literal [("error", VStr "รหัสผ่านไม่ถูกต้อง");
                                   ("code", VStr "auth/wrong-password")]))
      | Some true =>
          if strict_eq (get user "status") (VStr "pending") then login_pending user
          else
            reply 200
              (WithUser
                 (literal [("status", VStr "success");
                           ("token", VStr (generateToken jwt_sign JWT_SECRET now
                                             (get user "id") (get user "email")
                                             (get user "role")))])
                 (login_user user))
      end
  end.
Proof.
  intros Hcol Hemail. unfold login_real. cbv zeta. rewrite on_pool_try_catch.
  destruct (select_user_by_email (field body "email") (pool s) Hcol
              (truthy_not_null _ Hemail)) as (rs & d' & Hq & _ & _ & Hhead).
  unfold mbind, Sql.M_bind. rewrite Hq. unfold visible_users. rewrite <- Hhead.
  destruct rs as [|user rs]; [done|]. cbn [head].
  destruct (compare _ _ _) as [[|]|]; [|done..].
  by destruct (strict_eq _ _).
Qed.

Lemma reply_error_no_token (code : Z) (msg : string) :
  get (flat (json (reply_error code msg))) "token" = VUndefined.
Proof.
  unfold reply_error. cbn [json reply flat]. apply literal_missing.
  apply (bool_decide_unpack _). by vm_compute.
Qed.

Lemma login_pending_no_token (user : obj) :
  get (flat (json (login_pending user))) "token" = VUndefined.
Proof. reflexivity. Qed.

(** Whatever the request, a reply that carries a token was made for the
    first user record with the email, and that record is not pending. *)
Lemma token_only_when_not_pending (USE_MOCK_DB : bool) (now : Z) (body : entries)
    (s : state) (token : string) :
  get (flat (json (login bcrypt_compare jwt_sign USE_MOCK_DB JWT_SECRET now body s).1))
    "token" = VStr token →
  ∃ i u,
    list_find (λ u, get u "email" = field body "email") (visible_users USE_MOCK_DB s)
      = Some (i, u)
    ∧ get u "status" ≠ VStr "pending"
    ∧ token = jwt_sign {| Req.userId := get u "id"; Req.email := get u "email";
                          Req.role := get u "role" |} JWT_SECRET now seven_days.
Proof.
  unfold login. destruct (truthy (field body "email")) eqn:Hemail; [|done].
  destruct (negb _ || negb _) eqn:Hguard; [done|]. cbn [negb orb] in Hguard.
  assert (Hleaf : ∀ (user : obj) (label text : string),
    get (flat (json
      (match compare bcrypt_compare (field body "password") (get user "password_hash") with
       | Some true =>
           if strict_eq (get user "status") (VStr "pending") then login_pending user
           else reply 200
                  (WithUser
                     (literal [(label, VStr text);
                               ("token", VStr (generateToken jwt_sign JWT_SECRET now
                                                 (get user "id") (get user "email")
                                                 (get user "role")))])
                     (login_user user))
       | Some false =>
           reply 401 (Obj (literal [("error", VStr "รหัสผ่านไม่ถูกต้อง");
                                    ("code", VStr "auth/wrong-password")]))
       | None =>
           reply_error 500 (illegal_arguments (field body "password")
                              (get user "password_hash"))
       end))) "token" = VStr token →
    get user "status" ≠ VStr "pending"
    ∧ token = jwt_sign {| Req.userId := get user "id"; Req.email := get user "email";
                          Req.role := get user "role" |} JWT_SECRET now seven_days).
  { intros user label text.
    destruct (compare _ _ _) as [[|]|]; [|done|by rewrite reply_error_no_token].
    destruct (strict_eq _ _) eqn:Hst; [done|]. apply strict_eq_false in Hst.
    cbn [json reply flat]. unfold literal, spread, get. cbn [foldl fst snd].
    rewrite lookup_insert_eq. cbn [default]. by intros [= <-]. }
  destruct USE_MOCK_DB.
  - cbn [fst]. unfold login_mock, MockDatabase.findUserByEmail, visible_users. cbv zeta.
    destruct (list_find _ _) as [[i u]|]; [|done].
    cbn [fmap option_fmap option_map snd].
    destruct (compare _ _ _) as [[|]|] eqn:Hcmp; [|done..].
    intros Htok. exists i, u. split; [done|].
    apply (Hleaf u "message" "เข้าสู่ระบบสำเร็จ"). by rewrite Hcmp.
  - destruct (decide ("email" ∈ Sql.columns (Sql.users (pool s)))) as [Hcol|Hcol].
    + rewrite login_real_found by done.
      destruct (list_find _ _) as [[i u]|]; [|done].
      cbn [fmap option_fmap option_map snd].
      intros Htok. exists i, u. split; [done|].
      by apply (Hleaf u "status" "success").
    + unfold login_real. cbv zeta. rewrite on_pool_try_catch.
      unfold mbind, Sql.M_bind. rewrite query_run by in_fragment. unfold Sql.run.
      cbn [Sql.table_of Sql.logged Sql.users default app concat map Sql.cond_columns
           option_list].
      unfold Sql.unknown_column. cbn [list_find].
      change (Sql.ident "email") with "email".
      rewrite decide_True by done. cbn [fmap option_fmap option_map snd fst].
      by rewrite reply_error_no_token.
Qed.

(** C3 (amended). A login request whose email or password is missing or
    falsy is answered 400 and nothing is looked up. Any other request is
    decided on the first user record with the email (in the relational
    store: for an email that is a string, where the comparison of the
    server is the one of the in-memory store, and on a table that holds no
    e-mail twice, where the first record is the only one): none gives 401
    [auth/user-not-found]; a password string that does not verify against
    the stored hash string gives 401 [auth/wrong-password], and a password
    or a stored hash that is not a string gives 500; a verified password on
    a [pending] account gives 403 [auth/pending-approval] with the user's
    id, email and name and no token; otherwise the reply is 200 with the
    token signed for [{userId, email, role}] with a seven-day lifetime.  And
    whatever the request, a reply carries a token only for a stored record
    that is not pending. *)
Theorem login_outcomes (USE_MOCK_DB : bool) (now : Z) (body : entries) (s : state) :
  let out := login bcrypt_compare jwt_sign USE_MOCK_DB JWT_SECRET now body s in
  let r := out.1 in
  let found := list_find (λ u, get u "email" = field body "email")
                 (visible_users USE_MOCK_DB s) in
  (truthy (field body "email") = false ∨ truthy (field body "password") = false →
   out = (reply_error 400 "Email and password required", s))
  ∧ (truthy (field body "email") = true → truthy (field body "password") = true →
     (USE_MOCK_DB = false →
      "email" ∈ Sql.columns (Sql.users (pool s))
      ∧ (∃ e, field body "email" = VStr e)
      ∧ NoDup (map (λ u, get u "email") (visible_users false s))) →
     (found = None →
        status r = 401 ∧ get (flat (json r)) "code" = VStr "auth/user-not-found")
     ∧ (∀ i u, found = Some (i, u) →
          match field body "password", get u "password_hash" with
          | VStr p, VStr h =>
              if bcrypt_compare p h then
                if decide (get u "status" = VStr "pending") then
                  status r = 403
                  ∧ get (flat (json r)) "code" = VStr "auth/pending-approval"
                  ∧ nested_user (json r)
                    = Some (literal [("id", get u "id"); ("email", get u "email");
                                     ("name", get u "name")])
                  ∧ get (flat (json r)) "token" = VUndefined
                else
                  status r = 200
                  ∧ get (flat (json r)) "token"
                    = VStr (jwt_sign {| Req.userId := get u "id"; Req.email := get u "email";
                                        Req.role := get u "role" |}
                              JWT_SECRET now seven_days)
              else
                status r = 401 ∧ get (flat (json r)) "code" = VStr "auth/wrong-password"
          | _, _ => status r = 500
          end))
  ∧ (∀ token,
       get (flat (json r)) "token" = VStr token →
       ∃ u, u ∈ visible_users USE_MOCK_DB s
            ∧ get u "status" ≠ VStr "pending"
            ∧ token = jwt_sign {| Req.userId := get u "id"; Req.email := get u "email";
                                  Req.role := get u "role" |} JWT_SECRET now seven_days).
Proof.
  intros out r found. split_and!.
  { subst out. unfold login. by intros [-> | ->]; rewrite ?orb_true_r. }
  2:{ intros token Htoken. subst r out.
      destruct (token_only_when_not_pending USE_MOCK_DB now body s token Htoken)
        as (i & u & Hfound & Hst & Htok).
      exists u. split_and!; [|done..].
      apply list_find_Some in Hfound as [Hi _]. by eapply list_elem_of_lookup_2. }
  intros Hemail Hpw Hschema.
  assert (Hcol : USE_MOCK_DB = false → "email" ∈ Sql.columns (Sql.users (pool s)))
    by (intros Hm; by destruct (Hschema Hm)).
  assert (Hr : r =
    match snd <$> found with
    | None =>
        reply 401 (Obj (literal [("error", VStr "ไม่พบบัญชีนี้");
                                 ("code", VStr "auth/user-not-found")]))
    | Some user =>
        match compare bcrypt_compare (field body "password") (get user "password_hash") with
        | Some true =>
            if strict_eq (get user "status") (VStr "pending") then login_pending user
            else
              reply 200
                (WithUser
                   (literal [(if USE_MOCK_DB then "message" else "status",
                              VStr (if USE_MOCK_DB then "เข้าสู่ระบบสำเร็จ" else "success"));
                             ("token", VStr (generateToken jwt_sign JWT_SECRET now
                                               (get user "id") (get user "email")
                                               (get user "role")))])
                   (login_user user))
        | Some false =>
            reply 401 (Obj (literal [("error", VStr "รหัสผ่านไม่ถูกต้อง");
                                     ("code", VStr "auth/wrong-password")]))
        | None =>
            if USE_MOCK_DB
            then reply 500 (Obj (literal [("error", VStr "เกิดข้อผิดพลาด กรุณาลองอีกครั้ง");
                                          ("code", VStr "auth/server-error")]))
            else reply_error 500 (illegal_arguments (field body "password")
                                    (get user "password_hash"))
        end
    end).
  { subst r out found. unfold login. rewrite Hemail, Hpw. cbn [negb orb].
    destruct USE_MOCK_DB.
    - cbn [fst]. unfold login_mock, MockDatabase.findUserByEmail, visible_users.
      cbv zeta.
      destruct (list_find _ _) as [[i u]|]; [|done]. cbn [fmap option_fmap option_map snd].
      by destruct (compare _ _ _) as [[|]|].
    - rewrite login_real_found by auto.
      by destruct (list_find _ _) as [[i u]|]. }
  clear Hschema. split.
  - intros Hnone. rewrite Hnone in Hr. rewrite Hr. split; [done|].
    by vm_compute.
  - intros i u Hfound. rewrite Hfound in Hr.
    cbn [fmap option_fmap option_map snd] in Hr. unfold compare in Hr.
    destruct (field body "password") as [| |b|n|p];
      try (rewrite Hr; by destruct USE_MOCK_DB).
    destruct (get u "password_hash") as [| |b|n|h];
      try (rewrite Hr; by destruct USE_MOCK_DB).
    destruct (bcrypt_compare p h).
    + destruct (decide _) as [Hpend|Hpend].
      * rewrite Hpend, strict_eq_refl in Hr. rewrite Hr.
        split_and!; [done|by vm_compute|done|by vm_compute].
      * apply strict_eq_false in Hpend. rewrite Hpend in Hr. rewrite Hr.
        split; [done|]. cbn [json flat reply]. unfold generateToken.
        unfold literal, spread, get. cbn [foldl fst snd].
        by destruct USE_MOCK_DB; rewrite lookup_insert_eq.
    + rewrite Hr. split; [done|by vm_compute].
Qed.

End Login.

(** Counterexample to C3 as stated: nobody has the email, and the reply is
    400, not 401, because the password is empty. *)
Lemma login_empty_password_is_400 :
  list_find (λ u, get u "email" = VStr "nobody@example.com")
    (visible_users true Sample.server) = None
  ∧ (login Sample.bcrypt_compare Sample.jwt_sign true "secret" Sample.today
       [("email", VStr "nobody@example.com"); ("password", VStr EmptyString)] Sample.server).1
    = reply_error 400 "Email and password required".
Proof. split; reflexivity. Qed.

(** Witness of C3: Bob, whose account is pending, logs in on the sample
    relational store with the right password. *)
Lemma login_outcomes_witness :
  let r := (login Sample.bcrypt_compare Sample.jwt_sign false "secret" Sample.today
              [("email", VStr "bob@example.com"); ("password", VStr "student123")]
              Sample.server).1 in
  status r = 403
  ∧ get (flat (json r)) "code" = VStr "auth/pending-approval"
  ∧ nested_user (json r)
    = Some (literal [("id", VStr "student-003"); ("email", VStr "bob@example.com");
                     ("name", VStr "Bob Trader")])
  ∧ get (flat (json r)) "token" = VUndefined.
Proof.
  assert (Hcol : false = false →
            "email" ∈ Sql.columns (Sql.users (pool Sample.server))
            ∧ (∃ e, field [("email", VStr "bob@example.com");
                           ("password", VStr "student123")] "email" = VStr e)
            ∧ NoDup (map (λ u, get u "email") (visible_users false Sample.server))).
  { intros _. split_and!; [apply (bool_decide_unpack _); by vm_compute|by eexists|].
    apply (bool_decide_unpack _). by vm_compute. }
  exact (proj2 (proj1 (proj2 (login_outcomes Sample.bcrypt_compare Sample.jwt_sign "secret"
                                false Sample.today
                                [("email", VStr "bob@example.com");
                                 ("password", VStr "student123")]
                                Sample.server))
                  eq_refl eq_refl Hcol)
           2%nat (Sql.project Sample.users_schema Sample.bob) eq_refl).
Defined.

(** ** C4: existence and ownership checks before a mutation *)

Lemma matches_id (id : string) (r : obj) :
  Sql.matches [Sql.Eq "id" (VStr id)] r = true ↔ Sql.cell r "id" = VStr id.
Proof.
  unfold Sql.matches. cbn [forallb Sql.eval]. rewrite andb_true_r, bool_decide_eq_true.
  change (Sql.ident "id") with "id". change (Sql.cell_of (VStr id)) with (VStr id).
  unfold Sql.sql_eq. cbn [Sql.is_null]. rewrite orb_false_r.
  destruct (Sql.is_null (Sql.cell r "id")) eqn:E.
  - split; [done|]. intros H. by rewrite H in E.
  - split.
    + intros [= H]. by apply bool_decide_eq_true in H.
    + intros ->. f_equal. by apply bool_decide_eq_true.
Qed.

Lemma head_select_id (names : list string) (id : string) (rows : list obj) :
  head (map (Sql.project names) (List.filter (Sql.matches [Sql.Eq "id" (VStr id)]) rows))
  = (Sql.project names ∘ snd) <$> list_find (λ r, Sql.cell r "id" = VStr id) rows.
Proof.
  induction rows as [|r rows IH]; [done|]. cbn [List.filter list_find].
  destruct (Sql.matches _ r) eqn:Hm.
  - apply matches_id in Hm. by rewrite decide_True.
  - rewrite decide_False.
    + rewrite IH. by destruct (list_find _ _) as [[??]|].
    + intros H%matches_id. congruence.
Qed.

(** The ownership query of PATCH and DELETE, on a table with the two
    columns it names. *)
Lemma select_owner (id : string) (d : Sql.db) :
  "id" ∈ Sql.columns (Sql.trades d) → "user_id" ∈ Sql.columns (Sql.trades d) →
  ∃ rs d',
    Sql.query (Sql.Select (Some ["user_id"]) Sql.Trades [Sql.Eq "id" (VStr id)] None None) d
      = (Sql.Ok rs, d')
    ∧ Sql.users d' = Sql.users d ∧ Sql.trades d' = Sql.trades d
    ∧ head rs = (Sql.project ["user_id"] ∘ snd)
                  <$> list_find (λ r, Sql.cell r "id" = VStr id) (Sql.rows (Sql.trades d)).
Proof.
  intros Hid Huid. rewrite query_run by in_fragment. unfold Sql.run. cbn [Sql.table_of Sql.trades].
  rewrite unknown_column_ok.
  - eexists _, _. split; [reflexivity|]. split_and!; [done..|]. apply head_select_id.
  - by repeat constructor.
Qed.

Lemma get_project_owner (r : obj) :
  get (Sql.project ["user_id"] r) "user_id" = Sql.cell r "user_id".
Proof. apply project_lookup. by left. Qed.

Lemma contents_with_pool (s : state) (d : Sql.db) :
  Sql.users d = Sql.users (pool s) → Sql.trades d = Sql.trades (pool s) →
  contents (with_pool s d) = contents s.
Proof. unfold contents, with_pool. simpl. by intros -> ->. Qed.

Section Checks.

Variable USE_MOCK_DB : bool.

(** C4. PATCH and DELETE of /api/trades/:id look the trade up first: when
    no trade has the id both answer 404; when the caller is a student and
    the trade found belongs to someone else both answer 403; and in these
    cases neither store has changed.  (The relational table has its [id] and
    [user_id] columns.) *)
Theorem trade_mutation_checks (now : Z) (user : Req.user) (id : string)
    (updates : entries) (s : state) :
  (USE_MOCK_DB = false →
     "id" ∈ Sql.columns (Sql.trades (pool s))
     ∧ "user_id" ∈ Sql.columns (Sql.trades (pool s))) →
  let target := list_find (λ t, trade_id USE_MOCK_DB t = VStr id)
                  (stored_trades USE_MOCK_DB s) in
  let patched := patch_trades USE_MOCK_DB now user id updates s in
  let deleted := delete_trades USE_MOCK_DB user id s in
  (target = None →
     status patched.1 = 404 ∧ status deleted.1 = 404
     ∧ contents patched.2 = contents s ∧ contents deleted.2 = contents s)
  ∧ (∀ i t, target = Some (i, t) →
       Req.role user = VStr "student" → owner USE_MOCK_DB t ≠ Req.userId user →
       status patched.1 = 403 ∧ status deleted.1 = 403
       ∧ contents patched.2 = contents s ∧ contents deleted.2 = contents s).
Proof.
  intros Hschema target patched deleted.
  subst target patched deleted.
  unfold patch_trades, delete_trades, trade_id, stored_trades, owner.
  destruct USE_MOCK_DB.
  - unfold patch_trades_mock, delete_trades_mock, MockDatabase.getTradeById.
    split.
    + intros ->. cbn. by destruct s.
    + intros i t -> Hrole Hown. cbn [fmap option_fmap option_map snd].
      apply strict_eq_false in Hown. rewrite Hrole, strict_eq_refl, Hown.
      cbn. by destruct s.
  - destruct Hschema as [Hid Huid]; [done|].
    destruct (select_owner id (pool s) Hid Huid) as (rs & d' & Hq & Hu & Ht & Hhead).
    unfold patch_trades_real, delete_trades_real. rewrite !on_pool_try_catch.
    unfold mbind, Sql.M_bind. rewrite Hq.
    split.
    + intros Hnone. rewrite Hnone in Hhead. destruct rs; [|done]. cbn.
      by rewrite contents_with_pool.
    + intros i t Hsome Hrole Hown. rewrite Hsome in Hhead.
      destruct rs as [|trade0 rs]; [done|]. injection Hhead as ->.
      cbn [compose snd]. rewrite get_project_owner.
      apply strict_eq_false in Hown. rewrite Hrole, strict_eq_refl, Hown.
      cbn. by rewrite contents_with_pool.
Qed.

End Checks.

(** Witness of C4: Alice targets Bob's trade on the sample relational store. *)
Lemma trade_mutation_checks_witness :
  let patched := patch_trades false Sample.today (Sample.session Sample.alice) "trade-b"
                   [("status", VStr "reviewed")] Sample.server in
  let deleted := delete_trades false (Sample.session Sample.alice) "trade-b" Sample.server in
  status patched.1 = 403 ∧ status deleted.1 = 403
  ∧ contents patched.2 = contents Sample.server
  ∧ contents deleted.2 = contents Sample.server.
Proof.
  assert (Hschema : false = false →
    "id" ∈ Sql.columns (Sql.trades (pool Sample.server))
    ∧ "user_id" ∈ Sql.columns (Sql.trades (pool Sample.server))).
  { intros _. split; apply (bool_decide_unpack _); by vm_compute. }
  assert (Hown : owner false Sample.trade_b ≠ Req.userId (Sample.session Sample.alice)).
  { by vm_compute. }
  exact (proj2 (trade_mutation_checks false Sample.today (Sample.session Sample.alice)
                  "trade-b" [("status", VStr "reviewed")] Sample.server Hschema)
           1%nat Sample.trade_b eq_refl eq_refl Hown).
Defined.

(** ** C5: immutable fields under PATCH *)

(** The relational branch never names a blocked key in its UPDATE. *)
Lemma patch_real_strips_blocked (updates : entries) :
  Forall (λ e, originalKey e ∉ blockedFields)
    (map to_entry (filter (λ e, e.1 ∉ blockedFields) updates)).
Proof.
  apply Forall_fmap, Forall_forall. by intros e [? _]%list_elem_of_filter.
Qed.

(** On the sample relational store a body that names [user_id], [id] and
    [created_at] changes none of them. *)
Lemma patch_real_keeps_owner :
  map (λ t, (Sql.cell t "id", Sql.cell t "user_id", Sql.cell t "created_at"))
    (stored_trades false
       (patch_trades false Sample.today (Sample.session Sample.alice) "trade-a"
          [("status", VStr "reviewed"); ("user_id", VStr "student-003");
           ("id", VStr "trade-z"); ("created_at", VNum 0)] Sample.server).2)
  = map (λ t, (Sql.cell t "id", Sql.cell t "user_id", Sql.cell t "created_at"))
      (stored_trades false Sample.server).
Proof. reflexivity. Qed.

(** The filter of the relational branch compares keys literally, while the
    key goes into the statement as the column text, where back-quotes are
    quoting (the handler itself writes the [exit] column that way): a body
    whose key is the quoted column name passes the filter. *)
Lemma patch_real_quoted_owner_key :
  map (λ t, (Sql.cell t "id", Sql.cell t "user_id"))
    (stored_trades false
       (patch_trades false Sample.today (Sample.session Sample.alice) "trade-a"
          [("`user_id`", VStr "student-003")] Sample.server).2)
  = [(VStr "trade-a", VStr "student-003"); (VStr "trade-b", VStr "student-003")].
Proof. reflexivity. Qed.

(** Nor do the wrappers of [db-ops.js] keep any field back: through either
    store the owner of the sample trade changes. *)
Lemma dbOps_updateTrade_rewrites_owner :
  map (λ t, get t "userId")
    (stored_trades true
       (dbOps.updateTrade true Sample.today (VStr "trade-a")
          [("userId", VStr "student-003")] Sample.server).2)
  = [VStr "student-003"; VStr "student-003"]
  ∧ map (λ t, Sql.cell t "user_id")
      (stored_trades false
         (dbOps.updateTrade false Sample.today (VStr "trade-a")
            [("user_id", VStr "student-003")] Sample.server).2)
    = [VStr "student-003"; VStr "student-003"].
Proof. split; reflexivity. Qed.

(** C5, at the failing input. In mock mode the body of PATCH is merged into
    the stored trade as it is: Alice, who owns [trade-a], sends
    [{userId, user_id, id, created_at}] and the stored record takes all four,
    so the trade now belongs to Bob and has another id and creation time. *)
Theorem mock_patch_rewrites_immutable_fields :
  let patched :=
    patch_trades true Sample.today (Sample.session Sample.alice) "trade-a"
      [("userId", VStr "student-003"); ("user_id", VStr "student-003");
       ("id", VStr "trade-z"); ("created_at", VNum 0)] Sample.server in
  status patched.1 = 200
  ∧ map (λ t, (get t "id", get t "userId", get t "user_id", get t "created_at"))
      (stored_trades true Sample.server)
    = [(VStr "trade-a", VStr "student-002", VStr "student-002",
        VNum (Sample.today - 8 * Sample.day));
       (VStr "trade-b", VStr "student-003", VStr "student-003",
        VNum (Sample.today - 6 * Sample.day))]
  ∧ map (λ t, (get t "id", get t "userId", get t "user_id", get t "created_at"))
      (stored_trades true patched.2)
    = [(VStr "trade-z", VStr "student-003", VStr "student-003", VNum 0);
       (VStr "trade-b", VStr "student-003", VStr "student-003",
        VNum (Sample.today - 6 * Sample.day))].
Proof. cbv zeta. split_and!; reflexivity. Qed.

(** ** C6: ids and timestamps of created trades *)

(** The relational branch stores the generated id and the clock reading. *)
Lemma post_real_assigns_id :
  let posted :=
    post_trades false "trade-c" Sample.today (Sample.session Sample.alice)
      [("asset", VStr "XAUUSD"); ("direction", VStr "short");
       ("entry", VNum 2000); ("sl", VNum 2010)] Sample.server in
  status posted.1 = 201
  ∧ map (λ t, (Sql.cell t "id", Sql.cell t "created_at", Sql.cell t "updated_at"))
      (drop 2 (stored_trades false posted.2))
    = [(VStr "trade-c", VNum Sample.today, VNum Sample.today)].
Proof. cbv zeta. split; reflexivity. Qed.

(** The wrapper of [db-ops.js] hands the trade to the in-memory store as it
    is: no id is assigned there either. *)
Lemma dbOps_createTrade_assigns_no_id :
  map (λ t, get t "id")
    (stored_trades true
       (dbOps.createTrade true
          [("user_id", VStr "student-002"); ("asset", VStr "XAUUSD");
           ("direction", VStr "short"); ("entry", VNum 2000); ("sl", VNum 2010)]
          Sample.server).2)
  = [VStr "trade-a"; VStr "trade-b"; VUndefined].
Proof. reflexivity. Qed.

(** On the sample in-memory store: after Alice's POST the store holds a
    third trade that reads [undefined] for [id], and a DELETE under that
    name, or under any other id no trade has, is answered 404. *)
Lemma mock_post_then_delete :
  let posted :=
    post_trades true "trade-c" Sample.today (Sample.session Sample.alice)
      [("asset", VStr "XAUUSD"); ("direction", VStr "short");
       ("entry", VNum 2000); ("sl", VNum 2010)] Sample.server in
  status posted.1 = 201
  ∧ map (λ t, get t "id") (stored_trades true posted.2)
    = [VStr "trade-a"; VStr "trade-b"; VUndefined]
  ∧ status (delete_trades true (Sample.session Sample.alice) "undefined" posted.2).1 = 404
  ∧ status (delete_trades true (Sample.session Sample.alice) "trade-c" posted.2).1 = 404.
Proof. cbv zeta. split_and!; reflexivity. Qed.

(** C6, in mock mode. [createTrade] stores the object the handler built,
    which has no [id], [created_at] or [updated_at]: the new record is the
    last stored trade, reads [undefined] for all three, and no id names it,
    so that a later PATCH or DELETE by id can only reach an older trade. *)
Theorem mock_created_trade_has_no_id (user : Req.user)
    (body : entries) (s : state) :
  ∃ t,
    (post_trades_mock user body (mockDb s)).1 = reply 201 (Obj t)
    ∧ MockDatabase.trades (post_trades_mock user body (mockDb s)).2
      = MockDatabase.trades (mockDb s) ++ [t]
    ∧ get t "id" = VUndefined
    ∧ get t "created_at" = VUndefined
    ∧ get t "updated_at" = VUndefined
    ∧ ∀ id : string,
        MockDatabase.getTradeById (post_trades_mock user body (mockDb s)).2 (VStr id)
        = MockDatabase.getTradeById (mockDb s) (VStr id).
Proof.
  unfold post_trades_mock, MockDatabase.createTrade. cbv zeta.
  eexists. split; [reflexivity|]. split; [reflexivity|].
  set (t := literal _).
  assert (Hmiss : ∀ k, k ∉ ["userId"; "asset"; "direction"; "entry"; "sl"; "tp"; "exit";
                            "status"; "strategy"; "emotion"; "plannedR"; "actualR";
                            "displayUnit"; "chartBeforeUrl"; "chartAfterUrl"; "reviewedBy"] →
                      get t k = VUndefined).
  { intros k Hk. by apply literal_missing. }
  split_and!; try (apply Hmiss, (bool_decide_unpack _); by vm_compute).
  intros id. unfold MockDatabase.getTradeById. cbn [MockDatabase.trades snd].
  destruct (list_find _ (MockDatabase.trades (mockDb s))) as [[i t']|] eqn:Hfind.
  - by rewrite (list_find_app_l _ _ _ _ _ Hfind).
  - rewrite (proj2 (list_find_app_None _ _ _)); [done|]. split; [done|].
    apply list_find_None. constructor; [|constructor].
    rewrite Hmiss; [done|]. apply (bool_decide_unpack _). by vm_compute.
Qed.

(** ** C7: pagination of the list endpoints *)

Lemma ceil_div_bounds (total limit : Z) :
  0 < limit →
  (ceil_div total limit - 1) * limit < total ≤ ceil_div total limit * limit.
Proof.
  intros Hl. unfold ceil_div.
  pose proof (Z.div_mod (- total) limit ltac:(lia)) as Hdm.
  pose proof (Z.mod_pos_bound (- total) limit Hl) as Hr.
  nia.
Qed.

Lemma table_of_logged (d : Sql.db) (s : Sql.stmt) (tbl : Sql.table_name) :
  Sql.table_of (Sql.logged d s) tbl = Sql.table_of d tbl.
Proof. by destruct tbl. Qed.

Lemma query_select_all cols tbl w o (d : Sql.db) :
  Sql.modelled (Sql.Select cols tbl w o None) = true →
  Sql.unknown_column (Sql.table_of d tbl)
    (default [] cols ++ concat (map Sql.cond_columns w) ++ option_list o) = None →
  Sql.query (Sql.Select cols tbl w o None) d =
  (Sql.Ok (map (Sql.project (Sql.selected (Sql.table_of d tbl) cols))
             (Sql.order_by o (List.filter (Sql.matches w) (Sql.rows (Sql.table_of d tbl))))),
   Sql.logged d (Sql.Select cols tbl w o None)).
Proof.
  intros Hfrag H. rewrite query_run by done. unfold Sql.run. by rewrite table_of_logged, H.
Qed.

Lemma query_select_page cols tbl w o (limit offset : Z) (d : Sql.db) :
  Sql.modelled (Sql.Select cols tbl w o None) = true →
  Sql.unknown_column (Sql.table_of d tbl)
    (default [] cols ++ concat (map Sql.cond_columns w) ++ option_list o) = None →
  0 ≤ limit < 2 ^ 64 → 0 ≤ offset < 2 ^ 64 →
  Sql.query (Sql.Select cols tbl w o (Some (Fin limit, Fin offset))) d =
  (Sql.Ok (take (Z.to_nat limit) (drop (Z.to_nat offset)
             (map (Sql.project (Sql.selected (Sql.table_of d tbl) cols))
                (Sql.order_by o (List.filter (Sql.matches w) (Sql.rows (Sql.table_of d tbl))))))),
   Sql.logged d (Sql.Select cols tbl w o (Some (Fin limit, Fin offset)))).
Proof.
  intros Hfrag H Hl Ho. rewrite query_run by done. unfold Sql.run. rewrite table_of_logged, H.
  destruct (Z.ltb_spec limit 0); [lia|]. destruct (Z.ltb_spec offset 0); [lia|].
  destruct (Z.leb_spec (2 ^ 64) limit); [lia|]. destruct (Z.leb_spec (2 ^ 64) offset); [lia|].
  cbn [orb]. by rewrite fmap_take, fmap_drop.
Qed.

Lemma query_count tbl w (d : Sql.db) :
  Sql.modelled (Sql.SelectCount tbl w) = true →
  Sql.unknown_column (Sql.table_of d tbl) (concat (map Sql.cond_columns w)) = None →
  Sql.query (Sql.SelectCount tbl w) d =
  (Sql.Ok [ {[ "total" :=
               VNum (Z.of_nat (length (List.filter (Sql.matches w)
                                         (Sql.rows (Sql.table_of d tbl))))) ]} ],
   Sql.logged d (Sql.SelectCount tbl w)).
Proof.
  intros Hfrag H. rewrite query_run by done. unfold Sql.run. by rewrite table_of_logged, H.
Qed.

Lemma order_by_length (o : option string) (rs : list obj) :
  length (Sql.order_by o rs) = length rs.
Proof. destruct o; simpl; [|done]. by rewrite merge_sort_Permutation. Qed.

(** The column the trades are ordered by is one the table has. *)
Lemma orderCol_known (t : Sql.table) (c : string) :
  orderCol (show_columns t) = Some c → Sql.ident c ∈ Sql.columns t.
Proof.
  unfold orderCol, show_columns. rewrite <- list_fmap_compose.
  assert (Hin : ∀ x, VStr x ∈ (λ c, get c "Field") ∘ (λ c, {[ "Field" := VStr c ]})
                                <$> Sql.columns t → x ∈ Sql.columns t).
  { intros x (y & Hy & Hin)%list_elem_of_fmap. cbn in Hy. unfold get in Hy.
    rewrite lookup_singleton_eq in Hy. by injection Hy as ->. }
  repeat case_bool_decide; intros [= <-]; by apply Hin.
Qed.

Lemma supplied_use_pagination (q : Query.t) :
  supplied (Query.page q) = true ∨ supplied (Query.limit q) = true →
  truthy (or_else (param (Query.page q)) (param (Query.limit q))) = true.
Proof.
  unfold supplied, or_else. intros [H|H].
  - by rewrite H.
  - by destruct (truthy (param (Query.page q))) eqn:E.
Qed.

Lemma query_show_columns tbl (d : Sql.db) :
  Sql.query (Sql.ShowColumns tbl) d
  = (Sql.Ok (show_columns (Sql.table_of d tbl)), Sql.logged d (Sql.ShowColumns tbl)).
Proof. rewrite query_run by in_fragment. unfold Sql.run. by rewrite table_of_logged. Qed.

Lemma trades_where_known (user : Req.user) (q : Query.t) (t : Sql.table) (o : option string) :
  "user_id" ∈ Sql.columns t → "status" ∈ Sql.columns t →
  (∀ c, o = Some c → Sql.ident c ∈ Sql.columns t) →
  Sql.unknown_column t (concat (map Sql.cond_columns (trades_where user q)) ++ option_list o)
  = None.
Proof.
  intros Hu Hs Ho. apply unknown_column_ok, Forall_app. split.
  - unfold trades_where. destruct (strict_eq _ _), (truthy _); by repeat constructor.
  - destruct o as [c|]; [|constructor]. repeat constructor. by apply Ho.
Qed.

Section Lists.

Variable USE_MOCK_DB : bool.

Lemma get_trades_shape (user : Req.user) (q : Query.t) (s : state) :
  (USE_MOCK_DB = false →
     "user_id" ∈ Sql.columns (Sql.trades (pool s))
     ∧ "status" ∈ Sql.columns (Sql.trades (pool s))) →
  let r := (get_trades USE_MOCK_DB user q s).1 in
  let results := trades_results USE_MOCK_DB user q s in
  (Query.page q = None → Query.limit q = None → r = reply 200 (Arr results))
  ∧ (∀ page limit,
     supplied (Query.page q) = true ∨ supplied (Query.limit q) = true →
     parseInt_or (Query.page q) 1 = Fin page → parseInt_or (Query.limit q) 50 = Fin limit →
     1 ≤ page → 1 ≤ limit → page * limit < 2 ^ 53 →
     r = reply 200
           (Page "trades" (page_of results page limit)
              {| Pagination.page := Fin page; Pagination.limit := Fin limit;
                 Pagination.total := Z.of_nat (length results);
                 Pagination.totalPages := Fin (ceil_div (Z.of_nat (length results)) limit) |})).
Proof.
  intros Hschema r results. subst r results.
  unfold get_trades, trades_results. destruct USE_MOCK_DB.
  - cbn [fst]. unfold get_trades_mock, MockDatabase.getAllTrades. cbv zeta. split.
    + by intros -> ->.
    + intros page limit Hsup Hpage Hlimit Hp Hl Hb.
      rewrite (supplied_use_pagination q Hsup), Hpage, Hlimit. cbn [negb].
      destruct (page_bounds page limit Hp Hl Hb) as [-> ->].
      unfold page_of, ceil_quot. destruct (Z.eqb_spec limit 0); [lia|].
      replace (page * limit) with ((page - 1) * limit + limit) by lia.
      rewrite slice_take_drop; [done|nia|lia].
  - destruct Hschema as [Hu Hs]; [done|].
    unfold get_trades_real. cbv zeta. rewrite on_pool_try_catch.
    unfold mbind, Sql.M_bind. rewrite query_show_columns. cbn [Sql.table_of].
    fold (trades_where user q).
    set (d1 := Sql.logged (pool s) _).
    assert (Hknown : Sql.unknown_column (Sql.table_of d1 Sql.Trades)
              ([] ++ concat (map Sql.cond_columns (trades_where user q))
                  ++ option_list (orderCol (show_columns (Sql.trades (pool s))))) = None).
    { cbn [app]. apply trades_where_known; [done..|]. apply orderCol_known. }
    assert (Hfrag : ∀ lo, Sql.modelled
              (Sql.Select None Sql.Trades (trades_where user q)
                 (orderCol (show_columns (Sql.trades (pool s)))) lo) = true).
    { intros lo. unfold trades_where. in_fragment. }
    split.
    + intros Hpage Hlimit. rewrite Hpage, Hlimit. cbn [param or_else truthy negb].
      by rewrite query_select_all.
    + intros page limit Hsup Hpage Hlimit Hp Hl Hb.
      rewrite (supplied_use_pagination q Hsup), Hpage, Hlimit. cbn [negb].
      destruct (page_bounds page limit Hp Hl Hb) as [-> _].
      rewrite query_count.
      2:{ unfold trades_where. in_fragment. }
      2:{ rewrite <- (app_nil_r (concat _)).
          by apply (trades_where_known user q _ None). }
      assert (H64 : (2 : Z) ^ 53 < 2 ^ 64) by done.
      rewrite query_select_page; [|done|done|nia|nia].
      cbn [fst]. unfold reply, page_of, get, ceil_quot. rewrite lookup_singleton_eq.
      cbn [default]. destruct (Z.eqb_spec limit 0); [lia|].
      by rewrite !length_map, !order_by_length.
Qed.

Lemma users_columns_known (q : Query.t) (t : Sql.table) :
  Forall (λ c, c ∈ Sql.columns t) users_columns →
  Forall (λ c, Sql.ident c ∈ Sql.columns t)
    (users_columns ++ concat (map Sql.cond_columns (users_where q)) ++ ["created_at"]).
Proof.
  intros Hcols. rewrite Forall_forall in Hcols.
  assert (Hk : ∀ c, bool_decide (Sql.ident c ∈ users_columns) = true →
                    Sql.ident c ∈ Sql.columns t).
  { intros c Hc%bool_decide_eq_true. by apply Hcols. }
  rewrite !Forall_app. split_and!.
  - repeat constructor; by apply Hk.
  - unfold users_where. destruct (truthy _), (truthy _); repeat constructor; by apply Hk.
  - repeat constructor; by apply Hk.
Qed.

Lemma get_users_shape (user : Req.user) (q : Query.t) (s : state) :
  (USE_MOCK_DB = false →
     Forall (λ c, c ∈ Sql.columns (Sql.users (pool s))) users_columns) →
  Req.role user = VStr "admin" ∨ Req.role user = VStr "coach" →
  let r := (get_users USE_MOCK_DB user q s).1 in
  let results := users_results USE_MOCK_DB q s in
  (Query.page q = None → Query.limit q = None → r = reply 200 (Arr results))
  ∧ (∀ page limit,
     supplied (Query.page q) = true ∨ supplied (Query.limit q) = true →
     parseInt_or (Query.page q) 1 = Fin page → parseInt_or (Query.limit q) 50 = Fin limit →
     1 ≤ page → 1 ≤ limit → page * limit < 2 ^ 53 →
     r = reply 200
           (Page "users" (page_of results page limit)
              {| Pagination.page := Fin page; Pagination.limit := Fin limit;
                 Pagination.total := Z.of_nat (length results);
                 Pagination.totalPages := Fin (ceil_div (Z.of_nat (length results)) limit) |})).
Proof.
  intros Hschema Hrole r results. subst r results.
  unfold get_users, users_results.
  assert (Hgate : negb (strict_eq (Req.role user) (VStr "admin")
                        || strict_eq (Req.role user) (VStr "coach")) = false).
  { destruct Hrole as [-> | ->]; by rewrite strict_eq_refl, ?orb_true_r. }
  rewrite Hgate. destruct USE_MOCK_DB.
  - cbn [fst]. unfold get_users_mock, MockDatabase.getAllUsers. cbv zeta. split.
    + by intros -> ->.
    + intros page limit Hsup Hpage Hlimit Hp Hl Hb.
      rewrite (supplied_use_pagination q Hsup), Hpage, Hlimit. cbn [negb].
      destruct (page_bounds page limit Hp Hl Hb) as [-> ->].
      unfold page_of, ceil_quot. destruct (Z.eqb_spec limit 0); [lia|].
      replace (page * limit) with ((page - 1) * limit + limit) by lia.
      rewrite slice_take_drop; [done|nia|lia].
  - specialize (Hschema eq_refl).
    unfold get_users_real. cbv zeta. rewrite on_pool_try_catch.
    fold (users_where q).
    pose proof (users_columns_known q _ Hschema) as Hknown.
    apply Forall_app in Hknown as Hcount. destruct Hcount as [_ Hcount].
    apply Forall_app in Hcount as [Hcount _].
    assert (Hfrag : ∀ lo, Sql.modelled
              (Sql.Select (Some users_columns) Sql.Users (users_where q)
                 (Some "created_at") lo) = true).
    { intros lo. unfold users_where. in_fragment. }
    split.
    + intros Hpage Hlimit. rewrite Hpage, Hlimit. cbn [param or_else truthy negb].
      unfold mbind, Sql.M_bind. rewrite query_select_all; [done|done|].
      by apply unknown_column_ok.
    + intros page limit Hsup Hpage Hlimit Hp Hl Hb.
      rewrite (supplied_use_pagination q Hsup), Hpage, Hlimit. cbn [negb].
      destruct (page_bounds page limit Hp Hl Hb) as [-> _].
      unfold mbind, Sql.M_bind. rewrite query_count; [|unfold users_where; in_fragment
                                                      |by apply unknown_column_ok].
      assert (H64 : (2 : Z) ^ 53 < 2 ^ 64) by done.
      rewrite query_select_page; [|done|by apply unknown_column_ok|nia|nia].
      cbn [fst]. unfold reply, page_of, get, ceil_quot. rewrite lookup_singleton_eq.
      cbn [default]. destruct (Z.eqb_spec limit 0); [lia|].
      by rewrite !length_map, !order_by_length.
Qed.

End Lists.

(** *** The order of a relational listing *)

Lemma order_by_Permutation (o : option string) (rs : list obj) : Sql.order_by o rs ≡ₚ rs.
Proof. destruct o; [apply merge_sort_Permutation|done]. Qed.

Lemma cell_project (names : list string) (r : obj) (c : string) :
  c ∈ names → Sql.cell (Sql.project names r) c = Sql.cell r c.
Proof.
  intros Hc. unfold Sql.cell at 1. rewrite project_lookup by done.
  unfold Sql.cell, Sql.cell_of. by destruct (get r c).
Qed.

Lemma cell_leb_total (a b : value) : Sql.cell_leb a b = true ∨ Sql.cell_leb b a = true.
Proof.
  destruct a as [| |x|x|x], b as [| |y|y|y]; cbn; auto.
  - destruct x, y; auto.
  - destruct (Z.leb_spec x y); [auto|]. right. apply Z.leb_le. lia.
  - apply String.leb_total.
Qed.

#[local] Instance desc_total (col : string) : Total (Sql.desc col).
Proof.
  intros x y. unfold Sql.desc.
  destruct (cell_leb_total (Sql.cell y (Sql.ident col)) (Sql.cell x (Sql.ident col)))
    as [->| ->]; [by left|by right].
Qed.

Lemma order_by_sorted (col : string) (rs : list obj) :
  Sorted (Sql.desc col) (Sql.order_by (Some col) rs).
Proof. apply (Sorted_merge_sort _). Qed.

Lemma sorted_projection (names : list string) (col : string) (rs : list obj) :
  Sql.ident col = col → col ∈ names →
  Sorted (Sql.desc col) rs → Sorted (newest_first col) (map (Sql.project names) rs).
Proof.
  intros Hq Hcol Hs. apply (Sorted_fmap (Sql.project names) (Sql.desc col)); [|done].
  intros x y. unfold Sql.desc, newest_first. by rewrite Hq, !cell_project.
Qed.

Lemma orderCol_is_order_column (t : Sql.table) : orderCol (show_columns t) = order_column t.
Proof.
  assert (Hin : ∀ x, VStr x ∈ map (λ c, get c "Field") (show_columns t) ↔ x ∈ Sql.columns t).
  { intros x. unfold show_columns. rewrite map_map. split.
    - intros (y & Hy & Hin)%list_elem_of_fmap. cbn in Hy. unfold get in Hy.
      rewrite lookup_singleton_eq in Hy. by injection Hy as ->.
    - intros Hx. apply list_elem_of_fmap. exists x. split; [|done].
      unfold get. by rewrite lookup_singleton_eq. }
  unfold orderCol, order_column. cbv zeta.
  rewrite !(bool_decide_ext _ _ (Hin _)). done.
Qed.

Lemma order_column_cases (t : Sql.table) (col : string) :
  order_column t = Some col → Sql.ident col = col ∧ col ∈ Sql.columns t.
Proof.
  unfold order_column. repeat case_bool_decide; intros [= <-]; by split.
Qed.

Lemma trades_results_arranged (USE_MOCK_DB : bool) (user : Req.user) (q : Query.t)
    (s : state) :
  arranged USE_MOCK_DB (order_column (Sql.trades (pool s)))
    (trades_selection USE_MOCK_DB user q s) (trades_results USE_MOCK_DB user q s).
Proof.
  unfold arranged, trades_selection, trades_results. destruct USE_MOCK_DB; [done|].
  cbv zeta. rewrite orderCol_is_order_column. split.
  - apply Permutation_map, order_by_Permutation.
  - intros col Hcol. rewrite Hcol. destruct (order_column_cases _ _ Hcol) as [Hq Hin].
    apply sorted_projection; [done|done|apply order_by_sorted].
Qed.

Lemma users_results_arranged (USE_MOCK_DB : bool) (q : Query.t) (s : state) :
  arranged USE_MOCK_DB (Some "created_at")
    (users_selection USE_MOCK_DB q s) (users_results USE_MOCK_DB q s).
Proof.
  unfold arranged, users_selection, users_results. destruct USE_MOCK_DB; [done|].
  cbv zeta. split.
  - apply Permutation_map, order_by_Permutation.
  - intros col [= <-]. apply sorted_projection; [done| |apply order_by_sorted].
    apply (bool_decide_unpack _). by vm_compute.
Qed.

(** C7 (amended). Without [page] and [limit] both list endpoints answer
    with the bare array of the selected records, in the order of the store
    (for a table: some order descending in the [ORDER BY] column). When
    [page] or [limit] is supplied with a non-empty value, [page] is
    [parseInt(page)] (1 when that is NaN or 0) and [limit] is
    [parseInt(limit)] (50 when that is NaN or 0); whenever [page >= 1],
    [limit >= 1] and [page * limit < 2^53], the answer is the envelope
    [{trades | users: items, pagination}] whose items are the [limit]
    records from position [(page - 1) * limit] on, whose [total] counts the
    records and whose [totalPages] is the least number of pages of [limit]
    items that hold them. The in-memory store answers with an envelope for
    every supplied value, its items being [Array.prototype.slice] of the
    records. With 120 visible trades, [?page=2&limit=50] returns the 51st to
    100th and [totalPages = 3]. *)
Theorem list_pagination (USE_MOCK_DB : bool) (user : Req.user) (q : Query.t) (s : state) :
  (USE_MOCK_DB = false →
     "user_id" ∈ Sql.columns (Sql.trades (pool s))
     ∧ "status" ∈ Sql.columns (Sql.trades (pool s))
     ∧ Forall (λ c, c ∈ Sql.columns (Sql.users (pool s))) users_columns) →
  let rt := (get_trades USE_MOCK_DB user q s).1 in
  let ru := (get_users USE_MOCK_DB user q s).1 in
  let paged := supplied (Query.page q) = true ∨ supplied (Query.limit q) = true in
  ∃ trades users,
    arranged USE_MOCK_DB (order_column (Sql.trades (pool s)))
      (trades_selection USE_MOCK_DB user q s) trades
    ∧ arranged USE_MOCK_DB (Some "created_at") (users_selection USE_MOCK_DB q s) users
    ∧ (Query.page q = None → Query.limit q = None → rt = reply 200 (Arr trades))
    ∧ (∀ page limit,
       paged →
       parseInt_or (Query.page q) 1 = Fin page → parseInt_or (Query.limit q) 50 = Fin limit →
       1 ≤ page → 1 ≤ limit → page * limit < 2 ^ 53 →
       rt = reply 200
              (Page "trades" (page_of trades page limit)
                 {| Pagination.page := Fin page; Pagination.limit := Fin limit;
                    Pagination.total := Z.of_nat (length trades);
                    Pagination.totalPages :=
                      Fin (ceil_div (Z.of_nat (length trades)) limit) |})
       ∧ (ceil_div (Z.of_nat (length trades)) limit - 1) * limit
         < Z.of_nat (length trades) ≤ ceil_div (Z.of_nat (length trades)) limit * limit)
    ∧ (Req.role user = VStr "admin" ∨ Req.role user = VStr "coach" →
       (Query.page q = None → Query.limit q = None → ru = reply 200 (Arr users))
       ∧ (∀ page limit,
          paged →
          parseInt_or (Query.page q) 1 = Fin page →
          parseInt_or (Query.limit q) 50 = Fin limit →
          1 ≤ page → 1 ≤ limit → page * limit < 2 ^ 53 →
          ru = reply 200
                 (Page "users" (page_of users page limit)
                    {| Pagination.page := Fin page; Pagination.limit := Fin limit;
                       Pagination.total := Z.of_nat (length users);
                       Pagination.totalPages :=
                         Fin (ceil_div (Z.of_nat (length users)) limit) |})))
    ∧ (USE_MOCK_DB = true → paged →
       let page := parseInt_or (Query.page q) 1 in
       let limit := parseInt_or (Query.limit q) 50 in
       let offset := mul (sub page (Fin 1)) limit in
       rt = reply 200
              (Page "trades" (slice trades offset (add offset limit))
                 {| Pagination.page := page; Pagination.limit := limit;
                    Pagination.total := Z.of_nat (length trades);
                    Pagination.totalPages := ceil_quot (Z.of_nat (length trades)) limit |}))
    ∧ (Query.page q = Some "2" → Query.limit q = Some "50" → length trades = 120%nat →
       listed (json rt) = take 50 (drop 50 trades)
       ∧ length (listed (json rt)) = 50%nat
       ∧ Pagination.totalPages <$> pagination_of (json rt) = Some (Fin 3)).
Proof.
  intros Hschema rt ru paged.
  assert (Ht : USE_MOCK_DB = false →
     "user_id" ∈ Sql.columns (Sql.trades (pool s))
     ∧ "status" ∈ Sql.columns (Sql.trades (pool s))) by (intros H; by apply Hschema in H as (?&?&?)).
  assert (Hu : USE_MOCK_DB = false →
     Forall (λ c, c ∈ Sql.columns (Sql.users (pool s))) users_columns)
    by (intros H; by apply Hschema in H as (?&?&?)).
  destruct (get_trades_shape USE_MOCK_DB user q s Ht) as [Hbare Hpage].
  exists (trades_results USE_MOCK_DB user q s), (users_results USE_MOCK_DB q s).
  split_and!.
  - apply trades_results_arranged.
  - apply users_results_arranged.
  - exact Hbare.
  - intros page limit Hsup Hpg Hlm Hp Hl Hb. split; [by apply Hpage|].
    apply ceil_div_bounds. lia.
  - intros Hrole. exact (get_users_shape USE_MOCK_DB user q s Hu Hrole).
  - intros -> Hsup. subst rt. cbv zeta. unfold get_trades, trades_results. cbn [fst].
    unfold get_trades_mock, MockDatabase.getAllTrades. cbv zeta.
    by rewrite (supplied_use_pagination q Hsup).
  - intros Hq2 Hq50 Hlen. subst rt.
    rewrite (Hpage 2 50).
    + cbn [json reply listed pagination_of]. unfold page_of.
      change (Z.to_nat ((2 - 1) * 50)) with 50%nat. change (Z.to_nat 50) with 50%nat.
      rewrite Hlen. split_and!; [done| |done].
      rewrite length_take, length_drop, Hlen. done.
    + left. by rewrite Hq2.
    + by rewrite Hq2.
    + by rewrite Hq50.
    + done.
    + done.
    + done.
Qed.

(** Counterexample to C7 as stated, on the sample stores seen by the
    admin: [?page=] (supplied, empty) is answered with the bare array;
    [?limit=-1] is answered by the in-memory store with an envelope that
    holds one of the two trades, which is not a page of size [-1], and by
    the relational store with 500 and no envelope. *)
Lemma negative_limit_is_not_a_page :
  let r_empty :=
    (get_trades true (Sample.session Sample.admin)
       {| Query.page := Some EmptyString; Query.limit := None;
          Query.status := None; Query.role := None |} Sample.server).1 in
  let q := {| Query.page := None; Query.limit := Some "-1";
              Query.status := None; Query.role := None |} in
  let r := (get_trades true (Sample.session Sample.admin) q Sample.server).1 in
  r_empty = reply 200 (Arr [Sample.trade_a; Sample.trade_b])
  ∧ r = reply 200
          (Page "trades" [Sample.trade_a]
             {| Pagination.page := Fin 1; Pagination.limit := Fin (-1);
                Pagination.total := 2; Pagination.totalPages := Fin (-2) |})
  ∧ page_of (trades_results true (Sample.session Sample.admin) q Sample.server) 1 (-1) = []
  ∧ status (get_trades false (Sample.session Sample.admin) q Sample.server).1 = 500
  ∧ pagination_of (json (get_trades false (Sample.session Sample.admin) q Sample.server).1)
    = None.
Proof. cbv zeta. split_and!; reflexivity. Qed.

(** Witness of C7: the second page of size one of the sample relational
    store, as the admin sees it. *)
Lemma list_pagination_witness :
  ∃ trades,
    trades ≡ₚ trades_selection false (Sample.session Sample.admin) (Sample.paged "2" "1")
                Sample.server
    ∧ (get_trades false (Sample.session Sample.admin) (Sample.paged "2" "1") Sample.server).1
      = reply 200
          (Page "trades" (page_of trades 2 1)
             {| Pagination.page := Fin 2; Pagination.limit := Fin 1;
                Pagination.total := Z.of_nat (length trades);
                Pagination.totalPages := Fin (ceil_div (Z.of_nat (length trades)) 1) |}).
Proof.
  assert (Hschema : false = false →
     "user_id" ∈ Sql.columns (Sql.trades (pool Sample.server))
     ∧ "status" ∈ Sql.columns (Sql.trades (pool Sample.server))
     ∧ Forall (λ c, c ∈ Sql.columns (Sql.users (pool Sample.server))) users_columns).
  { intros _. split_and!; [apply (bool_decide_unpack _); by vm_compute..|].
    apply Forall_forall. intros c Hc. apply (bool_decide_unpack _).
    repeat (apply elem_of_cons in Hc as [->|Hc]; [by vm_compute|]).
    by apply elem_of_nil in Hc. }
  destruct (list_pagination false (Sample.session Sample.admin) (Sample.paged "2" "1")
              Sample.server Hschema) as (trades & users & [Hperm _] & _ & _ & Hpaged & _).
  exists trades. split; [exact Hperm|].
  refine (proj1 (Hpaged 2 1 _ _ _ _ _ _)); [by left|reflexivity|reflexivity|done..].
Defined.

(** ** C8: one retry without the optional columns *)

Lemma query_update_throw tbl sets w (d : Sql.db) (c : string) :
  Sql.modelled (Sql.Update tbl sets w) = true →
  Sql.unknown_column (Sql.table_of d tbl) (map fst sets ++ concat (map Sql.cond_columns w))
    = Some c →
  Sql.query (Sql.Update tbl sets w) d
  = (Sql.Throw (Sql.ER_BAD_FIELD_ERROR c), Sql.logged d (Sql.Update tbl sets w)).
Proof.
  intros Hfrag H. rewrite query_run by done. unfold Sql.run. by rewrite table_of_logged, H.
Qed.

Lemma query_update_ok tbl sets w (d : Sql.db) :
  Sql.modelled (Sql.Update tbl sets w) = true →
  Sql.unknown_column (Sql.table_of d tbl) (map fst sets ++ concat (map Sql.cond_columns w))
    = None →
  ∃ rs,
    Sql.query (Sql.Update tbl sets w) d
    = (Sql.Ok rs,
       Sql.set_rows (Sql.logged d (Sql.Update tbl sets w)) tbl
         (map (λ r, if Sql.matches w r then Sql.assign sets r else r)
            (Sql.rows (Sql.table_of d tbl)))).
Proof.
  intros Hfrag H. rewrite query_run by done. unfold Sql.run. rewrite table_of_logged, H.
  by eexists.
Qed.

Lemma query_insert_throw tbl cols vals (d : Sql.db) (c : string) :
  Sql.modelled (Sql.Insert tbl cols vals) = true →
  Sql.unknown_column (Sql.table_of d tbl) cols = Some c →
  Sql.query (Sql.Insert tbl cols vals) d
  = (Sql.Throw (Sql.ER_BAD_FIELD_ERROR c), Sql.logged d (Sql.Insert tbl cols vals)).
Proof.
  intros Hfrag H. rewrite query_run by done. unfold Sql.run. by rewrite table_of_logged, H.
Qed.

Lemma query_insert_ok tbl cols vals (d : Sql.db) :
  Sql.modelled (Sql.Insert tbl cols vals) = true →
  Sql.unknown_column (Sql.table_of d tbl) cols = None →
  NoDup (map Sql.ident cols) → length cols = length vals →
  ∃ rs,
    Sql.query (Sql.Insert tbl cols vals) d
    = (Sql.Ok rs,
       Sql.set_rows (Sql.logged d (Sql.Insert tbl cols vals)) tbl
         (Sql.rows (Sql.table_of d tbl) ++ [Sql.assign (zip cols vals) ∅])).
Proof.
  intros Hfrag H Hnd Hlen. rewrite query_run by done. unfold Sql.run.
  rewrite table_of_logged, H, Hlen. rewrite bool_decide_eq_true_2 by done.
  rewrite Nat.eqb_refl. by eexists.
Qed.

(** The fallback insert is the full one without the optional columns. *)
Lemma fallback_columns_are_stripped :
  fallback_columns = filter (λ c, c ∉ optional_columns) insert_columns.
Proof. reflexivity. Qed.

Lemma select_id_cons (names : list string) (id : string) (rows : list obj) (i : nat) (t : obj) :
  list_find (λ r, Sql.cell r "id" = VStr id) rows = Some (i, t) →
  ∃ rest, map (Sql.project names) (List.filter (Sql.matches [Sql.Eq "id" (VStr id)]) rows)
          = Sql.project names t :: rest.
Proof.
  intros Hfind. pose proof (head_select_id names id rows) as Hhead.
  rewrite Hfind in Hhead.
  destruct (map _ _) as [|x rest]; [done|]. injection Hhead as ->. by exists rest.
Qed.


Lemma update_of_run (es : list entry) (now : Z) (id : string) (d : Sql.db) :
  es ≠ [] →
  Sql.run (update_of es now id) d
  = Sql.run (Sql.Update Sql.Trades (set_clause es ++ [("updated_at", VNum now)])
               [Sql.Eq "id" (VStr id)]) d.
Proof. intros Hes. unfold update_of. by destruct es. Qed.

Lemma update_of_columns (es : list entry) (now : Z) (id : string) :
  Sql.statement_columns (update_of es now id)
  = map fst (set_clause es ++ [("updated_at", VNum now)])
    ++ concat (map Sql.cond_columns [Sql.Eq "id" (VStr id)]).
Proof. unfold update_of. cbn [Sql.statement_columns]. by rewrite map_app, <- app_assoc. Qed.

Lemma query_update_of_throw (es : list entry) (now : Z) (id : string) (d : Sql.db)
    (c : string) :
  es ≠ [] → Sql.modelled (update_of es now id) = true →
  Sql.unknown_column (Sql.trades d) (Sql.statement_columns (update_of es now id)) = Some c →
  Sql.query (update_of es now id) d
  = (Sql.Throw (Sql.ER_BAD_FIELD_ERROR c), Sql.logged d (update_of es now id)).
Proof.
  intros Hes Hfrag H. rewrite query_run, update_of_run by done. unfold Sql.run.
  rewrite update_of_columns in H. cbn [Sql.table_of Sql.logged Sql.trades]. by rewrite H.
Qed.

Lemma query_update_of_ok (es : list entry) (now : Z) (id : string) (d : Sql.db) :
  es ≠ [] → Sql.modelled (update_of es now id) = true →
  Sql.unknown_column (Sql.trades d) (Sql.statement_columns (update_of es now id)) = None →
  ∃ rs,
    Sql.query (update_of es now id) d
    = (Sql.Ok rs,
       Sql.set_rows (Sql.logged d (update_of es now id)) Sql.Trades
         (map (λ r, if Sql.matches [Sql.Eq "id" (VStr id)] r
                    then Sql.assign (set_clause es ++ [("updated_at", VNum now)]) r
                    else r)
            (Sql.rows (Sql.trades d)))).
Proof.
  intros Hes Hfrag H. rewrite query_run, update_of_run by done. unfold Sql.run.
  rewrite update_of_columns in H. cbn [Sql.table_of Sql.logged Sql.trades]. rewrite H.
  by eexists.
Qed.

(** The retry names a part of what the first statement names. *)
Lemma reduced_in_fragment (updates : entries) (now : Z) (id : string) :
  Sql.modelled (update_of (patch_entries updates) now id) = true →
  Sql.modelled (update_of (reduced_entries updates) now id) = true.
Proof.
  unfold Sql.modelled, update_of, reduced_entries. cbn [Sql.statement_columns].
  rewrite !forallb_app. intros [H1 H2]%andb_true_iff. apply andb_true_iff. split; [|done].
  rewrite forallb_forall in H1 |- *. intros c Hc. apply H1.
  apply list_elem_of_In in Hc. apply list_elem_of_In.
  unfold set_clause in *. rewrite <- list_fmap_compose in *.
  apply list_elem_of_fmap in Hc as (e & -> & He). apply list_elem_of_fmap.
  exists e. split; [done|]. by apply list_elem_of_filter in He as [_ He].
Qed.

Lemma contents_logged (s : state) (d : Sql.db) (st : Sql.stmt) :
  contents (with_pool s d) = contents s →
  contents (with_pool s (Sql.logged d st)) = contents s.
Proof. done. Qed.




(** ** Counting the writes of a handler *)

Section Writes.

Context {A B : Type}.






End Writes.


Section WritesOfHandlers.

Variable now : Z.
Variable user : Req.user.



End WritesOfHandlers.




(** ** C9: the retention sweep *)

Lemma cleanup_matches (now : Z) (t : obj) :
  Sql.matches
    [Sql.Le "created_at" (VNum (now - seven_days));
     Sql.Or (Sql.IsNotNull "chart_before_url") (Sql.IsNotNull "chart_after_url")] t
  = eligible now t.
Proof.
  unfold Sql.matches, eligible. cbn [forallb Sql.eval].
  change (Sql.ident "created_at") with "created_at".
  change (Sql.ident "chart_before_url") with "chart_before_url".
  change (Sql.ident "chart_after_url") with "chart_after_url".
  change (Sql.cell_of (VNum (now - seven_days))) with (VNum (now - seven_days)).
  rewrite andb_true_r.
  destruct (Sql.cell t "created_at") as [| |b|created|str]; try done.
  cbn [Sql.sql_le].
  destruct (created <=? now - seven_days); [|done].
  by destruct (Sql.is_null (Sql.cell t "chart_before_url")),
              (Sql.is_null (Sql.cell t "chart_after_url")).
Qed.

Lemma cleanup_assign (now : Z) (t : obj) :
  Sql.assign [("chart_before_url", VNull); ("chart_after_url", VNull);
              ("updated_at", VNum now)] t
  = swept now t.
Proof. reflexivity. Qed.

Lemma sweep_columns_known (t : Sql.table) (now : Z) :
  Forall (λ c, c ∈ Sql.columns t) sweep_columns →
  Sql.unknown_column t (Sql.statement_columns (cleanup_statement now)) = None.
Proof.
  intros H. rewrite Forall_forall in H. apply unknown_column_ok.
  repeat constructor; apply H, (bool_decide_unpack _); by vm_compute.
Qed.

Lemma query_tables_on_read (st : Sql.stmt) (d d' : Sql.db) (res : Sql.result (list obj)) :
  Sql.modelled st = true →
  Sql.query st d = (res, d') → is_write st = false →
  Sql.users d' = Sql.users d ∧ Sql.trades d' = Sql.trades d.
Proof.
  intros Hfrag. rewrite query_run by done. unfold Sql.run.
  destruct st as [tbl|cols tbl w o lo|tbl w|tbl cols|tbl cols vals|tbl sets w
                 |tbl pasted sets w|tbl w];
    try done; repeat case_match; by intros [= <- <-].
Qed.

(** C9 (amended). One run of the clean-up, where it is scheduled (the
    relational deployment, on a trades table that has the columns it names),
    sets both chart columns to [NULL] and stamps [updated_at] on exactly the
    trades created seven days ago or earlier ([created_at <= now - 7 days])
    that have a chart in at least one of the two columns; every other trade,
    the users and the in-memory store are as before.  In mock mode nothing
    is scheduled. *)
Theorem cleanup_sweeps_old_charts (now : Z) (s : state) :
  Forall (λ c, c ∈ Sql.columns (Sql.trades (pool s))) sweep_columns →
  Sql.rows (Sql.trades (pool (cron_tick false now s)))
  = map (λ t, if eligible now t then swept now t else t) (Sql.rows (Sql.trades (pool s)))
  ∧ Sql.columns (Sql.trades (pool (cron_tick false now s))) = Sql.columns (Sql.trades (pool s))
  ∧ Sql.users (pool (cron_tick false now s)) = Sql.users (pool s)
  ∧ mockDb (cron_tick false now s) = mockDb s
  ∧ cron_tick true now s = s.
Proof.
  intros Hcols. unfold cron_tick. cbn [negb]. split_and!; [| | |done|done].
  all: unfold cleanup_job, Sql.try_catch, mbind, Sql.M_bind.
  all: destruct (query_update_ok Sql.Trades
                   [("chart_before_url", VNull); ("chart_after_url", VNull);
                    ("updated_at", VNum now)]
                   [Sql.Le "created_at" (VNum (now - seven_days));
                    Sql.Or (Sql.IsNotNull "chart_before_url")
                      (Sql.IsNotNull "chart_after_url")] (pool s) eq_refl
                   (sweep_columns_known _ now Hcols)) as [rs Hq].
  all: unfold cleanup_statement; rewrite Hq.
  all: match goal with |- context [Sql.query ?st ?d] =>
         destruct (Sql.query st d) as [[rs'|e] d'] eqn:Hsum;
         (apply query_tables_on_read in Hsum as [Hu Ht]; [|done|done])
       end.
  all: cbn [snd with_pool pool]; unfold mret, Sql.M_ret; cbn [snd].
  all: rewrite ?Hu, ?Ht; cbn [Sql.set_rows Sql.trades Sql.users Sql.rows Sql.columns
                              Sql.logged Sql.table_of]; try done.
  all: apply map_ext; intros t; rewrite cleanup_matches; by destruct (eligible now t).
Qed.

(** Counterexample to C9 as stated: a trade created exactly seven days
    before the run, which is not more than seven days old, loses its chart. *)
Lemma week_old_trade_is_swept :
  Sql.cell SampleSweep.week_old "created_at" = VNum (Sample.today - seven_days)
  ∧ Sql.cell SampleSweep.week_old "chart_before_url" = VStr "data:image/png;base64,CCCC"
  ∧ map (λ t, (Sql.cell t "id", Sql.cell t "chart_before_url", Sql.cell t "updated_at"))
      (stored_trades false (cron_tick false Sample.today SampleSweep.server))
    = [(VStr "trade-a", VNull, VNum Sample.today);
       (VStr "trade-b", VStr "data:image/png;base64,BBBB", VNum (Sample.today - 6 * Sample.day));
       (VStr "trade-w", VNull, VNum Sample.today);
       (VStr "trade-o", VNull, VNum (Sample.today - 30 * Sample.day))].
Proof. split_and!; reflexivity. Qed.

(** Witness of C9: on the sample store the trade of eight days ago is swept
    and the one of six days ago is not. *)
Lemma cleanup_sweeps_old_charts_witness :
  Sql.rows (Sql.trades (pool (cron_tick false Sample.today Sample.server)))
  = [swept Sample.today Sample.trade_a; Sample.trade_b].
Proof.
  assert (Hcols : Forall (λ c, c ∈ Sql.columns (Sql.trades (pool Sample.server)))
                    sweep_columns).
  { repeat constructor; apply (bool_decide_unpack _); by vm_compute. }
  exact (proj1 (cleanup_sweeps_old_charts Sample.today Sample.server Hcols)).
Defined.

(** ** C10: the token decides alone *)

Lemma split_spaceless (w : string) : spaceless w = true → split " " w = [w].
Proof.
  induction w as [|a w IH]; [done|]. cbn [spaceless split].
  intros [Ha Hw]%andb_true_iff. apply negb_true_iff in Ha. rewrite Ha, (IH Hw). done.
Qed.

Lemma split_first_word (w rest : string) :
  spaceless w = true → split " " (w +:+ String " " rest) = w :: split " " rest.
Proof.
  induction w as [|a w IH]; [done|]. cbn [spaceless]. intros [Ha Hw]%andb_true_iff.
  apply negb_true_iff in Ha.
  change (String a w +:+ String " " rest) with (String a (w +:+ String " " rest)).
  cbn [split]. rewrite Ha, (IH Hw). done.
Qed.

(** The toy token library keeps the contract of [jsonwebtoken]. *)
Lemma pos_of_word (p : positive) : SampleTokens.pos_of (SampleTokens.word_of p) = Some p.
Proof.
  induction p as [p IH|p IH|]; cbn [SampleTokens.word_of SampleTokens.pos_of]; [|by rewrite IH|done].
  change (Ascii.eqb "1" "1") with true. cbv iota. rewrite IH.
  by destruct p.
Qed.

Lemma word_spaceless (p : positive) :
  spaceless (SampleTokens.word_of p) = true ∧ SampleTokens.word_of p ≠ EmptyString.
Proof. split; [|by destruct p]. induction p as [p IH|p IH|]; cbn; by rewrite ?IH. Qed.

Lemma sample_verify_sign (payload : Req.user) (secret : string) (iat ttl now : Z) :
  SampleTokens.jwt_verify (SampleTokens.jwt_sign payload secret iat ttl) secret now
  = if now <? iat + ttl then Some payload else None.
Proof.
  unfold SampleTokens.jwt_verify, SampleTokens.jwt_sign.
  rewrite pos_of_word. cbn [mbind option_bind]. rewrite decode_encode.
  by rewrite String.eqb_refl.
Qed.

Section Tokens.

Variable bcrypt_compare : string → string → bool.
Variable jwt_sign : Req.user → string → Z → Z → string.
Variable jwt_verify : string → string → Z → option Req.user.
Variable JWT_SECRET : string.

(** What is assumed of [jsonwebtoken]: with the secret it was signed with,
    a token verifies to its payload as long as the clock is before
    [iat + expiresIn], and not after; and a token is one non-empty word. *)
Hypothesis verify_sign : ∀ payload iat ttl now,
  jwt_verify (jwt_sign payload JWT_SECRET iat ttl) JWT_SECRET now
  = if now <? iat + ttl then Some payload else None.
Hypothesis sign_word : ∀ payload iat ttl,
  spaceless (jwt_sign payload JWT_SECRET iat ttl) = true
  ∧ jwt_sign payload JWT_SECRET iat ttl ≠ EmptyString.

(** A token of [generateToken] in the header, at a given clock reading. *)
Lemma generated_token_verifies (issued now : Z) (claims : Req.user) (s : state) :
  let token := generateToken jwt_sign JWT_SECRET issued (Req.userId claims)
                 (Req.email claims) (Req.role claims) in
  verifyToken jwt_verify JWT_SECRET s now (Some ("Bearer " +:+ token))
  = if now <? issued + seven_days then Next claims
    else Rejected (reply_error 401 "Invalid token").
Proof.
  cbv zeta. unfold generateToken.
  replace {| Req.userId := Req.userId claims; Req.email := Req.email claims;
             Req.role := Req.role claims |} with claims by by destruct claims.
  destruct (sign_word claims issued seven_days) as [Hword Hne].
  set (token := jwt_sign claims JWT_SECRET issued seven_days) in *.
  unfold verifyToken, bearer.
  change ("Bearer " +:+ token) with ("Bearer" +:+ String " " token).
  rewrite split_first_word by done. rewrite split_spaceless by done.
  cbn [lookup list_lookup param truthy]. apply String.eqb_neq in Hne. rewrite Hne.
  cbn [negb]. subst token. rewrite verify_sign. by destruct (now <? _).
Qed.

(** C10. Assuming of [jsonwebtoken] that a token verifies to its payload
    until its lifetime is over: every token that a login hands out carries
    the id, the e-mail and the role that a stored account had at that
    moment, and
    for seven days from then the middleware puts exactly these in
    [req.user] and lets every protected handler run with them, in whatever
    state the stores are by then (the account may have another role or
    status, or be deleted); from seven days on the same header is answered
    401.  The middleware reads the header, the secret and the clock, and
    never the stores. *)
Theorem token_decides_alone (USE_MOCK_DB : bool) (issued : Z) (body : entries)
    (s0 : state) (token : string) :
  get (flat (json (login bcrypt_compare jwt_sign USE_MOCK_DB JWT_SECRET issued body s0).1))
    "token" = VStr token →
  ∃ u,
    u ∈ visible_users USE_MOCK_DB s0
    ∧ token = generateToken jwt_sign JWT_SECRET issued (get u "id") (get u "email")
                (get u "role")
    ∧ ∀ (s : state) (now : Z),
        let claims := {| Req.userId := get u "id"; Req.email := get u "email";
                         Req.role := get u "role" |} in
        let header := Some ("Bearer " +:+ token) in
        (now < issued + seven_days →
           verifyToken jwt_verify JWT_SECRET s now header = Next claims
           ∧ ∀ handler,
               protected jwt_verify JWT_SECRET handler now header s = handler claims s)
        ∧ (issued + seven_days ≤ now →
           verifyToken jwt_verify JWT_SECRET s now header
             = Rejected (reply_error 401 "Invalid token")
           ∧ ∀ handler,
               protected jwt_verify JWT_SECRET handler now header s
               = (reply_error 401 "Invalid token", s)).
Proof.
  intros Htoken.
  destruct (token_only_when_not_pending bcrypt_compare jwt_sign JWT_SECRET USE_MOCK_DB
              issued body s0 token Htoken) as (i & u & Hfound & _ & ->).
  exists u. split_and!; [|done|].
  { apply list_find_Some in Hfound as [Hi _]. by eapply list_elem_of_lookup_2. }
  intros s now. cbv zeta.
  pose proof (generated_token_verifies issued now
                {| Req.userId := get u "id"; Req.email := get u "email";
                   Req.role := get u "role" |} s) as Hv.
  cbv zeta in Hv. unfold generateToken in Hv. cbn [Req.userId Req.email Req.role] in Hv.
  split.
  - intros Hnow. destruct (Z.ltb_spec now (issued + seven_days)); [|lia].
    split; [done|]. intros handler. unfold protected. by rewrite Hv.
  - intros Hnow. destruct (Z.ltb_spec now (issued + seven_days)); [lia|].
    split; [done|]. intros handler. unfold protected. by rewrite Hv.
Qed.

End Tokens.

(** Witness of C10: Alice logs in on the sample in-memory store; six days
    later, when the admin has made her a coach and then deleted her
    account, her token still lists her trades as the student she was; on
    the seventh day it is refused. *)
Lemma token_decides_alone_witness :
  let token := SampleTokens.jwt_sign (Sample.session Sample.alice) "secret" Sample.today
                 seven_days in
  let header := Some ("Bearer " +:+ token) in
  let promoted :=
    (patch_users SampleAccounts.bcrypt_hash true "salt" (Sample.today + Sample.day)
       (Sample.session Sample.admin) "student-002" [("role", VStr "coach")]
       Sample.server).2 in
  let gone := (delete_users true (Sample.session Sample.admin) "student-002" promoted).2 in
  let list_trades := λ user, get_trades true user Sample.no_query in
  (λ u, get u "role") <$> MockDatabase.findUserById (mockDb promoted) (VStr "student-002")
    = Some (VStr "coach")
  ∧ MockDatabase.findUserById (mockDb gone) (VStr "student-002") = None
  ∧ protected SampleTokens.jwt_verify "secret" list_trades
      (Sample.today + 6 * Sample.day) header promoted
    = list_trades (Sample.session Sample.alice) promoted
  ∧ protected SampleTokens.jwt_verify "secret" list_trades
      (Sample.today + 6 * Sample.day) header gone
    = list_trades (Sample.session Sample.alice) gone
  ∧ protected SampleTokens.jwt_verify "secret" list_trades
      (Sample.today + 7 * Sample.day) header gone
    = (reply_error 401 "Invalid token", gone).
Proof.
  cbv zeta.
  destruct (token_decides_alone Sample.bcrypt_compare SampleTokens.jwt_sign
              SampleTokens.jwt_verify "secret"
              (λ payload iat ttl now, sample_verify_sign payload "secret" iat ttl now)
              (λ payload iat ttl, word_spaceless _)
              true Sample.today
              [("email", VStr "alice@example.com"); ("password", VStr "student123")]
              Sample.server
              (SampleTokens.jwt_sign (Sample.session Sample.alice) "secret" Sample.today
                 seven_days) eq_refl)
    as (u & Hin & Htok & Hlater).
  assert (Hu : u = Sample.alice).
  { change (visible_users true Sample.server)
      with [Sample.admin; Sample.alice; Sample.bob] in Hin.
    apply elem_of_cons in Hin as [->|Hin]; [by vm_compute in Htok|].
    apply elem_of_cons in Hin as [->|Hin]; [done|].
    apply elem_of_cons in Hin as [->|Hin]; [by vm_compute in Htok|].
    by apply elem_of_nil in Hin. }
  subst u. clear Hin Htok.
  split_and!.
  - reflexivity.
  - reflexivity.
  - refine (proj2 (proj1 (Hlater _ (Sample.today + 6 * Sample.day)) _) _). reflexivity.
  - refine (proj2 (proj1 (Hlater _ (Sample.today + 6 * Sample.day)) _) _). reflexivity.
  - refine (proj2 (proj2 (Hlater _ (Sample.today + 7 * Sample.day)) _) _). by vm_compute.
Defined.

(** * Further properties of the code *)

(** ** The in-memory store: create, update, delete and look up *)

Section Finding.

Context {A : Type} (P : A → Prop) `{!∀ x, Decision (P x)}.

Lemma find_snoc (l : list A) (x : A) :
  snd <$> list_find P (l ++ [x])
  = match snd <$> list_find P l with
    | Some y => Some y
    | None => if decide (P x) then Some x else None
    end.
Proof.
  destruct (list_find P l) as [[i y]|] eqn:Hfind.
  - by rewrite (list_find_app_l _ _ _ _ _ Hfind).
  - rewrite (list_find_app_r _ _ _ Hfind). cbn [list_find].
    by destruct (decide (P x)).
Qed.

(** Replacing the record found leaves every other position alone. *)
Lemma find_insert_frame (l : list A) (i : nat) (x y : A) :
  list_find P l = Some (i, x) →
  length (<[i := y]> l) = length l
  ∧ <[i := y]> l !! i = Some y
  ∧ ∀ j, j ≠ i → <[i := y]> l !! j = l !! j.
Proof.
  intros (Hi & _ & _)%list_find_Some. split_and!.
  - apply length_insert.
  - apply list_lookup_insert_eq. by eapply lookup_lt_Some.
  - intros j Hj. by apply list_lookup_insert_ne.
Qed.

End Finding.

Lemma filter_all {A} (P : A → Prop) `{!∀ x, Decision (P x)} (l : list A) :
  Forall P l → filter P l = l.
Proof.
  induction 1 as [|x l Hx _ IH]; [done|]. by rewrite filter_cons_True, IH.
Qed.

(** With pairwise distinct keys, deleting the first record that has a key
    deletes every record that has it. *)
Lemma delete_found_is_filter (f : obj → value) (a : value) (l : list obj) (i : nat) (x : obj) :
  NoDup (map f l) →
  list_find (λ y, f y = a) l = Some (i, x) →
  delete i l = filter (λ y, f y ≠ a) l.
Proof.
  revert i. induction l as [|y l IH]; intros i Hnd Hfind; [done|].
  cbn [map] in Hnd. apply NoDup_cons in Hnd as [Hy Hnd].
  cbn [list_find] in Hfind. destruct (decide (f y = a)) as [Hya|Hya].
  - injection Hfind as <- <-. cbn [delete list_delete].
    rewrite filter_cons_False by (intros H; by apply H).
    symmetry. apply filter_all, Forall_forall. intros z Hz Hza.
    apply Hy. rewrite Hya, <- Hza. apply list_elem_of_fmap. by exists z.
  - destruct (list_find _ l) as [[j z]|] eqn:Hl; [|done].
    injection Hfind as <- <-. cbn [delete list_delete].
    rewrite filter_cons_True by done. f_equal. by apply IH.
Qed.

Lemma not_found_filter (f : obj → value) (a : value) (l : list obj) :
  list_find (λ y, f y = a) l = None → filter (λ y, f y ≠ a) l = l.
Proof. intros H%list_find_None. by apply filter_all. Qed.

Lemma find_in_filtered (f : obj → value) (a : value) (l : list obj) :
  list_find (λ y, f y = a) (filter (λ y, f y ≠ a) l) = None.
Proof.
  apply list_find_None, Forall_forall. by intros y [? _]%list_elem_of_filter.
Qed.

Lemma find_other_in_filtered (f : obj → value) (a b : value) (l : list obj) :
  a ≠ b →
  snd <$> list_find (λ y, f y = b) (filter (λ y, f y ≠ a) l)
  = snd <$> list_find (λ y, f y = b) l.
Proof.
  intros Hab. induction l as [|y l IH]; [done|].
  destruct (decide (f y = a)) as [Hya|Hya].
  - rewrite filter_cons_False by (intros H; by apply H).
    cbn [list_find]. rewrite decide_False by congruence.
    rewrite IH. by destruct (list_find _ l) as [[??]|].
  - rewrite filter_cons_True by done. cbn [list_find].
    destruct (decide (f y = b)); [done|].
    destruct (list_find _ (filter _ l)) as [[??]|], (list_find _ l) as [[??]|];
      cbn in *; congruence.
Qed.
Lemma find_insert_same (f : obj → value) (a : value) (l : list obj) (i : nat) (x y : obj) :
  list_find (λ z, f z = a) l = Some (i, x) → f y = a →
  ∀ b, snd <$> list_find (λ z, f z = b) (<[i := y]> l)
       = if decide (b = a) then Some y else snd <$> list_find (λ z, f z = b) l.
Proof.
  intros Hfind Hy b. revert i Hfind. induction l as [|z l IH]; intros i Hfind; [done|].
  cbn [list_find] in Hfind. destruct (decide (f z = a)) as [Hz|Hz].
  - injection Hfind as <- <-. cbn [insert list_insert list_find].
    destruct (decide (b = a)) as [->|Hb].
    + by rewrite decide_True.
    + rewrite !decide_False by congruence. done.
  - destruct (list_find _ l) as [[j w]|] eqn:Hl; [|done].
    injection Hfind as <- <-. cbn [insert list_insert list_find].
    destruct (decide (f z = b)) as [Hzb|Hzb].
    + rewrite decide_False by congruence. done.
    + specialize (IH j eq_refl).
      destruct (decide (b = a)); destruct (list_find _ (<[j:=y]> l)) as [[??]|];
        destruct (list_find (λ z0, f z0 = b) l) as [[??]|]; cbn in *; congruence.
Qed.

(** X1: [updateTrade] and [updateUser] change nothing when no record has the
    id; otherwise they replace the first record that has it by the merge of
    that record and the updates, return the merge, and leave every other
    position and the other collection alone. Unless the updates carry an
    [id] themselves, the merged record is what the id finds afterwards and
    every other id finds what it found before. *)
Theorem mock_update_merges (db : MockDatabase.t) (id : value) (updates : entries) :
  let ut := MockDatabase.updateTrade db id updates in
  let uu := MockDatabase.updateUser db id updates in
  (MockDatabase.findTradeById db id = None → ut = (None, db))
  ∧ (MockDatabase.findUserById db id = None → uu = (None, db))
  ∧ (∀ i old,
       list_find (λ t, get t "id" = id) (MockDatabase.trades db) = Some (i, old) →
       ut.1 = Some (spread old updates)
       ∧ MockDatabase.users ut.2 = MockDatabase.users db
       ∧ replaced_at (MockDatabase.trades db) (MockDatabase.trades ut.2) i (spread old updates)
       ∧ ("id" ∉ updates.*1 →
          ∀ b, MockDatabase.findTradeById ut.2 b
               = if decide (b = id) then Some (spread old updates)
                 else MockDatabase.findTradeById db b))
  ∧ (∀ i old,
       list_find (λ u, get u "id" = id) (MockDatabase.users db) = Some (i, old) →
       uu.1 = Some (spread old updates)
       ∧ MockDatabase.trades uu.2 = MockDatabase.trades db
       ∧ replaced_at (MockDatabase.users db) (MockDatabase.users uu.2) i (spread old updates)
       ∧ ("id" ∉ updates.*1 →
          ∀ b, MockDatabase.findUserById uu.2 b
               = if decide (b = id) then Some (spread old updates)
                 else MockDatabase.findUserById db b)).
Proof.
  cbv zeta. unfold MockDatabase.updateTrade, MockDatabase.updateUser,
    MockDatabase.findTradeById, MockDatabase.findUserById. split_and!.
  - by destruct (list_find _ (MockDatabase.trades db)) as [[??]|].
  - by destruct (list_find _ (MockDatabase.users db)) as [[??]|].
  - intros i old Hfind. rewrite Hfind. cbn. split_and!; [done|done| |].
    + by eapply find_insert_frame.
    + intros Hid b. apply (find_insert_same (λ t, get t "id") id _ _ old); [done|].
      rewrite spread_notin by done. by apply list_find_Some in Hfind as (_ & ? & _).
  - intros i old Hfind. rewrite Hfind. cbn. split_and!; [done|done| |].
    + by eapply find_insert_frame.
    + intros Hid b. apply (find_insert_same (λ t, get t "id") id _ _ old); [done|].
      rewrite spread_notin by done. by apply list_find_Some in Hfind as (_ & ? & _).
Qed.

Lemma mock_update_merges_witness :
  let ut := MockDatabase.updateTrade Sample.mock (VStr "trade-b")
              [("status", VStr "reviewed")] in
  ut.1 = Some (spread Sample.trade_b [("status", VStr "reviewed")])
  ∧ MockDatabase.findTradeById ut.2 (VStr "trade-a") = Some Sample.trade_a
  ∧ MockDatabase.findTradeById ut.2 (VStr "trade-b")
    = Some (spread Sample.trade_b [("status", VStr "reviewed")]).
Proof.
  destruct (mock_update_merges Sample.mock (VStr "trade-b") [("status", VStr "reviewed")])
    as (_ & _ & H & _).
  destruct (H 1%nat Sample.trade_b) as (H1 & _ & _ & H4); [reflexivity|].
  split; [exact H1|].
  assert (Hid : "id" ∉ [("status", VStr "reviewed")].*1)
    by (apply (bool_decide_unpack _); by vm_compute).
  split; rewrite (H4 Hid); reflexivity.
Defined.

Lemma ids_filter_NoDup (P : obj → Prop) `{!∀ x, Decision (P x)} (l : list obj) :
  NoDup (ids l) → NoDup (ids (filter P l)).
Proof.
  unfold ids. intros Hnd. refine (sublist_NoDup _ _ Hnd _).
  apply (fmap_sublist (λ o : obj, get o "id")), sublist_filter.
Qed.

Lemma delete_by_key (f : obj → value) (a : value) (l : list obj) :
  NoDup (map f l) →
  match list_find (λ y, f y = a) l with
  | Some (i, _) => delete i l
  | None => l
  end = filter (λ y, f y ≠ a) l.
Proof.
  intros Hnd. destruct (list_find _ l) as [[i x]|] eqn:Hfind.
  - by eapply delete_found_is_filter.
  - symmetry. by apply not_found_filter.
Qed.

Lemma find_after_filter (f : obj → value) (a b : value) (l : list obj) :
  snd <$> list_find (λ y, f y = b) (filter (λ y, f y ≠ a) l)
  = if decide (b = a) then None else snd <$> list_find (λ y, f y = b) l.
Proof.
  destruct (decide (b = a)) as [->|Hb].
  - by rewrite find_in_filtered.
  - by apply find_other_in_filtered.
Qed.

(** X2: when the ids of the stored records are pairwise distinct,
    [deleteTrade] and [deleteUser] remove exactly the records that have the
    id, report whether there was one, and leave the other collection alone;
    afterwards the id finds nothing and every other id finds what it found
    before. *)
Theorem mock_delete_removes_by_id (db : MockDatabase.t) (id : value) :
  NoDup (ids (MockDatabase.trades db)) → NoDup (ids (MockDatabase.users db)) →
  let dt := MockDatabase.deleteTrade db id in
  let du := MockDatabase.deleteUser db id in
  dt = (bool_decide (is_Some (MockDatabase.findTradeById db id)),
        {| MockDatabase.users := MockDatabase.users db;
           MockDatabase.trades := filter (λ t, get t "id" ≠ id) (MockDatabase.trades db) |})
  ∧ du = (bool_decide (is_Some (MockDatabase.findUserById db id)),
          {| MockDatabase.users := filter (λ u, get u "id" ≠ id) (MockDatabase.users db);
             MockDatabase.trades := MockDatabase.trades db |})
  ∧ (∀ b, MockDatabase.findTradeById dt.2 b
          = if decide (b = id) then None else MockDatabase.findTradeById db b)
  ∧ (∀ b, MockDatabase.findUserById du.2 b
          = if decide (b = id) then None else MockDatabase.findUserById db b).
Proof.
  intros Ht Hu. cbv zeta.
  assert (Hdt : MockDatabase.deleteTrade db id
    = (bool_decide (is_Some (MockDatabase.findTradeById db id)),
       {| MockDatabase.users := MockDatabase.users db;
          MockDatabase.trades := filter (λ t, get t "id" ≠ id) (MockDatabase.trades db) |})).
  { pose proof (delete_by_key (λ t, get t "id") id _ Ht) as H.
    unfold MockDatabase.deleteTrade, MockDatabase.findTradeById.
    destruct (list_find _ (MockDatabase.trades db)) as [[i x]|]; cbn; rewrite <- H.
    - done.
    - by destruct db. }
  assert (Hdu : MockDatabase.deleteUser db id
    = (bool_decide (is_Some (MockDatabase.findUserById db id)),
       {| MockDatabase.users := filter (λ u, get u "id" ≠ id) (MockDatabase.users db);
          MockDatabase.trades := MockDatabase.trades db |})).
  { pose proof (delete_by_key (λ t, get t "id") id _ Hu) as H.
    unfold MockDatabase.deleteUser, MockDatabase.findUserById.
    destruct (list_find _ (MockDatabase.users db)) as [[i x]|]; cbn; rewrite <- H.
    - done.
    - by destruct db. }
  rewrite Hdt, Hdu. split_and!; [done|done| |]; intros b; cbn;
    apply (find_after_filter (λ t, get t "id")).
Qed.

Lemma mock_delete_removes_by_id_witness :
  MockDatabase.deleteTrade Sample.mock (VStr "trade-a")
  = (true, {| MockDatabase.users := MockDatabase.users Sample.mock;
              MockDatabase.trades := [Sample.trade_b] |})
  ∧ MockDatabase.deleteUser Sample.mock (VStr "nobody")
    = (false, Sample.mock).
Proof.
  assert (Ht : NoDup (ids (MockDatabase.trades Sample.mock)))
    by (apply (bool_decide_unpack _); by vm_compute).
  assert (Hu : NoDup (ids (MockDatabase.users Sample.mock)))
    by (apply (bool_decide_unpack _); by vm_compute).
  split.
  - destruct (mock_delete_removes_by_id Sample.mock (VStr "trade-a") Ht Hu) as (H & _).
    rewrite H. reflexivity.
  - destruct (mock_delete_removes_by_id Sample.mock (VStr "nobody") Ht Hu) as (_ & H & _).
    rewrite H. reflexivity.
Defined.

(** X3: [createUser] and [createTrade] return and append the record they
    are handed, whatever it holds and whatever is stored; a look-up by
    e-mail or id afterwards still finds an earlier record with that key
    first, and finds the new record only when no earlier one has the key. *)
Theorem mock_create_appends (db : MockDatabase.t) (o : obj) :
  let cu := MockDatabase.createUser db o in
  let ct := MockDatabase.createTrade db o in
  cu = (o, {| MockDatabase.users := MockDatabase.users db ++ [o];
              MockDatabase.trades := MockDatabase.trades db |})
  ∧ ct = (o, {| MockDatabase.users := MockDatabase.users db;
                MockDatabase.trades := MockDatabase.trades db ++ [o] |})
  ∧ (∀ e, MockDatabase.findUserByEmail cu.2 e
          = match MockDatabase.findUserByEmail db e with
            | Some u => Some u
            | None => if decide (get o "email" = e) then Some o else None
            end)
  ∧ (∀ a, MockDatabase.findUserById cu.2 a
          = match MockDatabase.findUserById db a with
            | Some u => Some u
            | None => if decide (get o "id" = a) then Some o else None
            end)
  ∧ (∀ a, MockDatabase.findTradeById ct.2 a
          = match MockDatabase.findTradeById db a with
            | Some t => Some t
            | None => if decide (get o "id" = a) then Some o else None
            end)
  ∧ (∀ a, MockDatabase.getTradesByUserId ct.2 a
          = MockDatabase.getTradesByUserId db a
            ++ (if decide (get o "user_id" = a) then [o] else [])).
Proof.
  cbv zeta. split_and!; try done.
  - intros e. exact (find_snoc (λ u, get u "email" = e) _ o).
  - intros a. exact (find_snoc (λ u, get u "id" = a) _ o).
  - intros a. exact (find_snoc (λ u, get u "id" = a) _ o).
  - intros a. unfold MockDatabase.getTradesByUserId. cbn.
    rewrite filter_app. f_equal.
Qed.

(** ** Registration *)

Section Registration.

Variable bcrypt_hash : string → string → string.

Lemma register_real_run (userId salt : string) (now : Z) (body : entries) (d : Sql.db) :
  register_real bcrypt_hash userId salt now body d =
  let d1 := Sql.logged d (select_email_of (field body "email")) in
  match Sql.unknown_column (Sql.users d) ["id"; "email"] with
  | Some c => (Sql.Ok (reply_error 500 (Sql.message (Sql.ER_BAD_FIELD_ERROR c))), d1)
  | None =>
      match List.filter (Sql.matches [Sql.Eq "email" (field body "email")])
              (Sql.rows (Sql.users d)) with
      | _ :: _ => (Sql.Ok (reply_error 400 "Email already registered"), d1)
      | [] =>
          match hash_password bcrypt_hash (field body "password") salt with
          | None =>
              (Sql.Ok (reply_error 500 (illegal_hash_arguments (field body "password"))), d1)
          | Some h =>
              let d2 := Sql.logged d1 (insert_account userId now body h) in
              match Sql.unknown_column (Sql.users d) account_columns with
              | Some c =>
                  (Sql.Ok (reply_error 500 (Sql.message (Sql.ER_BAD_FIELD_ERROR c))), d2)
              | None =>
                  (Sql.Ok (reply 200 (Obj (literal [("message", VStr registered)]))),
                   Sql.set_rows d2 Sql.Users
                     (Sql.rows (Sql.users d)
                        ++ [Sql.assign (zip account_columns
                                          (account_values userId now body h)) ∅]))
              end
          end
      end
  end.
Proof.
  unfold register_real, Sql.try_catch, mbind, Sql.M_bind, Sql.query. cbv zeta.
  rewrite execute_run by in_fragment.
  cbn [Sql.run Sql.table_of Sql.logged Sql.users default concat map Sql.cond_columns
       option_list app from_option id].
  change ("id" :: "email" :: option_list None) with ["id"; "email"].
  destruct (Sql.unknown_column (Sql.users d) ["id"; "email"]) as [c|].
  { done. }
  cbn [Sql.order_by].
  destruct (List.filter _ (Sql.rows (Sql.users d))) as [|r rs]; cbn [map length Nat.eqb negb];
    [|done].
  destruct (hash_password bcrypt_hash (field body "password") salt) as [h|]; [|done].
  rewrite execute_run by in_fragment.
  rewrite insert_run by (apply (bool_decide_unpack _); by vm_compute).
  cbn [Sql.table_of Sql.logged Sql.users].
  fold account_columns.
  destruct (Sql.unknown_column (Sql.users d) account_columns) as [c|]; [done|].
  done.
Qed.


Lemma matches_Eq_iff (col : string) (v : value) (r : obj) :
  Sql.is_null v = false →
  Sql.matches [Sql.Eq col v] r = true ↔ Sql.cell r (Sql.ident col) = v.
Proof.
  intros Hv. unfold Sql.matches. cbn [forallb Sql.eval]. rewrite andb_true_r.
  rewrite bool_decide_eq_true. unfold Sql.sql_eq. rewrite (cell_of_value v Hv), Hv.
  rewrite orb_false_r. split.
  - destruct (Sql.is_null (Sql.cell r (Sql.ident col))); [done|].
    intros [= H]. by apply bool_decide_eq_true in H.
  - intros ->. rewrite Hv. f_equal. by apply bool_decide_eq_true.
Qed.

Lemma filter_nil_Forall {A} (f : A → bool) (l : list A) :
  List.filter f l = [] → Forall (λ x, f x = false) l.
Proof.
  induction l as [|x l IH]; cbn; [by constructor|].
  destruct (f x) eqn:Hx; [done|]. intros H. constructor; auto.
Qed.

Lemma account_row (userId : string) (now : Z) (body : entries) (h : string) :
  let row := Sql.assign (zip account_columns (account_values userId now body h)) ∅ in
  Sql.cell row "id" = VStr userId
  ∧ Sql.cell row "name" = Sql.cell_of (field body "name")
  ∧ Sql.cell row "email" = Sql.cell_of (field body "email")
  ∧ Sql.cell row "password_hash" = VStr h
  ∧ Sql.cell row "role" = VStr "student"
  ∧ Sql.cell row "status" = VStr "pending"
  ∧ Sql.cell row "created_at" = VNum now.
Proof.
  cbv zeta. unfold Sql.cell, get.
  split_and!; [reflexivity| |  |reflexivity..].
  - change ((Sql.assign (zip account_columns (account_values userId now body h)) ∅) !! "name")
      with (Some (Sql.cell_of (field body "name"))).
    cbn. by destruct (field body "name").
  - change ((Sql.assign (zip account_columns (account_values userId now body h)) ∅) !! "email")
      with (Some (Sql.cell_of (field body "email"))).
    cbn. by destruct (field body "email").
Qed.

Lemma account_columns_known (t : Sql.table) :
  Sql.unknown_column t account_columns = None →
  Forall (λ c, c ∈ Sql.columns t) account_columns.
Proof.
  intros Hcols. apply Forall_forall. intros c Hc.
  pose proof (unknown_column_None _ _ c Hcols Hc) as Hin.
  unfold account_columns in Hc.
  repeat (apply elem_of_cons in Hc as [->|Hc]; [exact Hin|]).
  by apply elem_of_nil in Hc.
Qed.

Lemma register_accepted (USE_MOCK_DB : bool) (userId salt : string)
    (now : Z) (body : entries) (s : state) :
  let out := register bcrypt_hash USE_MOCK_DB userId salt now body s in
  status out.1 = 200 →
  ∃ u p,
    field body "password" = VStr p
    ∧ stored_users USE_MOCK_DB out.2 = stored_users USE_MOCK_DB s ++ [u]
    ∧ stored_trades USE_MOCK_DB out.2 = stored_trades USE_MOCK_DB s
    ∧ attr USE_MOCK_DB u "id" = VStr userId
    ∧ attr USE_MOCK_DB u "name" = field body "name"
    ∧ attr USE_MOCK_DB u "email" = field body "email"
    ∧ attr USE_MOCK_DB u "password_hash" = VStr (bcrypt_hash p salt)
    ∧ attr USE_MOCK_DB u "role" = VStr "student"
    ∧ attr USE_MOCK_DB u "status" = VStr "pending"
    ∧ attr USE_MOCK_DB u "created_at" = VNum now
    ∧ Forall (λ v, attr USE_MOCK_DB v "email" ≠ field body "email")
        (stored_users USE_MOCK_DB s)
    ∧ get (flat (json out.1)) "token" = VUndefined
    ∧ truthy (field body "email") = true
    ∧ truthy (field body "password") = true
    ∧ (USE_MOCK_DB = false →
       Sql.columns (Sql.users (pool out.2)) = Sql.columns (Sql.users (pool s))
       ∧ Forall (λ c, c ∈ Sql.columns (Sql.users (pool s))) account_columns).
Proof.
  cbv zeta. unfold register.
  destruct (truthy (field body "name")) eqn:Hname; [|intros [=]].
  destruct (truthy (field body "email")) eqn:Hemail; [|intros [=]].
  destruct (truthy (field body "password")) eqn:Hpw; [|intros [=]].
  cbn [negb orb]. destruct USE_MOCK_DB.
  - unfold register_mock. cbv zeta.
    destruct (MockDatabase.findUserByEmail (mockDb s) (field body "email")) eqn:Hfind;
      [intros [=]|].
    destruct (hash_password bcrypt_hash (field body "password") salt) as [h|] eqn:Hh;
      [|intros [=]].
    intros _. unfold hash_password in Hh.
    destruct (field body "password") as [| | | |p] eqn:Hp; try done.
    injection Hh as <-. eexists _, p. cbn.
    split_and!; try reflexivity; try done.
    unfold MockDatabase.findUserByEmail in Hfind.
    destruct (list_find _ (MockDatabase.users (mockDb s))) as [[??]|] eqn:Hl; [done|].
    by apply list_find_None in Hl.
  - unfold on_pool. rewrite register_real_run. cbv zeta.
    destruct (Sql.unknown_column (Sql.users (pool s)) ["id"; "email"]) as [c|] eqn:Hc;
      [intros [=]|].
    destruct (List.filter _ (Sql.rows (Sql.users (pool s)))) as [|r rs] eqn:Hrows;
      [|intros [=]].
    destruct (hash_password bcrypt_hash (field body "password") salt) as [h|] eqn:Hh;
      [|intros [=]].
    destruct (Sql.unknown_column (Sql.users (pool s)) account_columns) as [c|] eqn:Hcols;
      [intros [=]|].
    intros _. unfold hash_password in Hh.
    destruct (field body "password") as [| | | |p] eqn:Hp; try done.
    injection Hh as <-. eexists _, p. cbn.
    destruct (account_row userId now body (bcrypt_hash p salt))
      as (Hid & Hn & He & Hph & Hr & Hs & Hcr).
    rewrite (cell_of_value _ (truthy_not_null _ Hname)) in Hn.
    rewrite (cell_of_value _ (truthy_not_null _ Hemail)) in He.
    split_and!; try done.
    2:{ intros _. split; [done|]. by apply account_columns_known. }
    apply filter_nil_Forall in Hrows. eapply Forall_impl; [exact Hrows|].
    intros v Hv Heq.
    apply (proj2 (matches_Eq_iff "email" _ v (truthy_not_null _ Hemail))) in Heq.
    congruence.
Qed.


(** X4: whatever else the body carries, a registration that is answered
    with 200 adds exactly one account, last in the store, with the generated
    id, the name and e-mail of the body, the hash of the password, role
    [student] and status [pending]; no earlier account had that e-mail, the
    trades are untouched and the reply carries no token. *)
Theorem register_creates_pending_student (USE_MOCK_DB : bool) (userId salt : string)
    (now : Z) (body : entries) (s : state) :
  let out := register bcrypt_hash USE_MOCK_DB userId salt now body s in
  status out.1 = 200 →
  ∃ u p,
    field body "password" = VStr p
    ∧ stored_users USE_MOCK_DB out.2 = stored_users USE_MOCK_DB s ++ [u]
    ∧ stored_trades USE_MOCK_DB out.2 = stored_trades USE_MOCK_DB s
    ∧ attr USE_MOCK_DB u "id" = VStr userId
    ∧ attr USE_MOCK_DB u "name" = field body "name"
    ∧ attr USE_MOCK_DB u "email" = field body "email"
    ∧ attr USE_MOCK_DB u "password_hash" = VStr (bcrypt_hash p salt)
    ∧ attr USE_MOCK_DB u "role" = VStr "student"
    ∧ attr USE_MOCK_DB u "status" = VStr "pending"
    ∧ attr USE_MOCK_DB u "created_at" = VNum now
    ∧ Forall (λ v, attr USE_MOCK_DB v "email" ≠ field body "email")
        (stored_users USE_MOCK_DB s)
    ∧ get (flat (json out.1)) "token" = VUndefined.
Proof.
  cbv zeta. intros Hok.
  destruct (register_accepted USE_MOCK_DB userId salt now body s Hok)
    as (u & p & H1 & H2 & H3 & H4 & H5 & H6 & H7 & H8 & H9 & H10 & H11 & H12 & _).
  exists u, p. by split_and!.
Qed.

(** X5: a registration is answered with 200, 400 or 500; a body without a
    name, an e-mail or a password is refused with 400 before the store is
    consulted, an e-mail that an account already has is refused with 400, and
    every reply other than 200 leaves the accounts and the trades as they
    were. *)
Theorem register_rejections (USE_MOCK_DB : bool) (userId salt : string)
    (now : Z) (body : entries) (s : state) :
  let out := register bcrypt_hash USE_MOCK_DB userId salt now body s in
  (status out.1 = 200 ∨ status out.1 = 400 ∨ status out.1 = 500)
  ∧ (status out.1 ≠ 200 → contents out.2 = contents s)
  ∧ (truthy (field body "name") = false ∨ truthy (field body "email") = false
     ∨ truthy (field body "password") = false →
     out = (reply_error 400 "Missing required fields", s))
  ∧ (truthy (field body "name") = true → truthy (field body "email") = true →
     truthy (field body "password") = true →
     (USE_MOCK_DB = false →
        "id" ∈ Sql.columns (Sql.users (pool s))
        ∧ "email" ∈ Sql.columns (Sql.users (pool s))) →
     Exists (λ v, attr USE_MOCK_DB v "email" = field body "email")
       (stored_users USE_MOCK_DB s) →
     out.1 = reply_error 400 "Email already registered").
Proof.
  cbv zeta. unfold register.
  destruct (truthy (field body "name")) eqn:Hname;
    [|cbn; split_and!; auto; by intros].
  destruct (truthy (field body "email")) eqn:Hemail;
    [|cbn; split_and!; auto; by intros].
  destruct (truthy (field body "password")) eqn:Hpw;
    [|cbn; split_and!; auto; by intros].
  cbn [negb orb]. destruct USE_MOCK_DB.
  - unfold register_mock. cbv zeta.
    destruct (MockDatabase.findUserByEmail (mockDb s) (field body "email")) eqn:Hfind.
    { cbn. split_and!; auto. by intros [|[|]]. }
    destruct (hash_password bcrypt_hash (field body "password") salt) as [h|] eqn:Hh.
    + cbn. split_and!; auto; [done|by intros [|[|]]|].
      intros _ _ _ _ Hex. exfalso.
      unfold MockDatabase.findUserByEmail in Hfind.
      destruct (list_find _ (MockDatabase.users (mockDb s))) as [[??]|] eqn:Hl; [done|].
      apply list_find_None in Hl. apply Exists_exists in Hex as (v & Hv & Heq).
      by apply (proj1 (Forall_forall _ _) Hl v).
    + cbn. split_and!; auto; [by intros [|[|]]|].
      intros _ _ _ _ Hex. exfalso.
      unfold MockDatabase.findUserByEmail in Hfind.
      destruct (list_find _ (MockDatabase.users (mockDb s))) as [[??]|] eqn:Hl; [done|].
      apply list_find_None in Hl. apply Exists_exists in Hex as (v & Hv & Heq).
      by apply (proj1 (Forall_forall _ _) Hl v).
  - unfold on_pool. rewrite register_real_run. cbv zeta.
    assert (Hlog : ∀ st, contents (with_pool s (Sql.logged (pool s) st)) = contents s).
    { intros st. by apply contents_logged, contents_with_pool. }
    destruct (Sql.unknown_column (Sql.users (pool s)) ["id"; "email"]) as [c|] eqn:Hc.
    { cbn [fst snd]. split_and!; auto; [by intros [|[|]]|].
      intros _ _ _ Hcols _. destruct (Hcols eq_refl) as [Hi He].
      rewrite unknown_column_ok in Hc; [done|]. by repeat constructor. }
    destruct (List.filter _ (Sql.rows (Sql.users (pool s)))) as [|r rs] eqn:Hrows.
    2:{ cbn [fst snd]. split_and!; auto. by intros [|[|]]. }
    assert (Hnone : ¬ Exists (λ v, attr false v "email" = field body "email")
                      (stored_users false s)).
    { intros (v & Hv & Heq)%Exists_exists. cbn in Hv, Heq.
      apply (proj2 (matches_Eq_iff "email" _ v (truthy_not_null _ Hemail))) in Heq.
      assert (Hin : In v (List.filter (Sql.matches [Sql.Eq "email" (field body "email")])
                            (Sql.rows (Sql.users (pool s))))).
      { apply filter_In. split; [|done]. by apply list_elem_of_In. }
      rewrite Hrows in Hin. destruct Hin. }
    destruct (hash_password bcrypt_hash (field body "password") salt) as [h|] eqn:Hh.
    2:{ cbn [fst snd]. split_and!; auto; try (by intros [|[|]]). intros; by exfalso. }
    destruct (Sql.unknown_column (Sql.users (pool s)) account_columns) as [c|] eqn:Hcols.
    { cbn [fst snd]. split_and!; auto; try (by intros [|[|]]). intros; by exfalso. }
    cbn [fst snd]. split_and!; auto; try done; by intros [|[|]].
Qed.

End Registration.

Lemma register_creates_pending_student_witness :
  ∃ u,
    stored_users false
      (register SampleAccounts.bcrypt_hash false "student-004" "salt" Sample.today
         SampleAccounts.carol Sample.server).2
    = stored_users false Sample.server ++ [u]
    ∧ attr false u "role" = VStr "student"
    ∧ attr false u "status" = VStr "pending".
Proof.
  destruct (register_creates_pending_student SampleAccounts.bcrypt_hash false "student-004"
              "salt" Sample.today SampleAccounts.carol Sample.server)
    as (u & p & _ & Hu & _ & _ & _ & _ & _ & Hr & Hs & _); [reflexivity|].
  exists u. split_and!; assumption.
Defined.

Lemma register_rejections_witness :
  register SampleAccounts.bcrypt_hash true "student-004" "salt" Sample.today
    [("name", VStr "Alice Again"); ("email", VStr "alice@example.com")] Sample.server
  = (reply_error 400 "Missing required fields", Sample.server)
  ∧ (register SampleAccounts.bcrypt_hash false "student-004" "salt" Sample.today
       [("name", VStr "Alice Again"); ("email", VStr "alice@example.com");
        ("password", VStr "other")] Sample.server).1
    = reply_error 400 "Email already registered".
Proof.
  split.
  - apply (register_rejections SampleAccounts.bcrypt_hash true "student-004" "salt"
             Sample.today). right; right; reflexivity.
  - apply (register_rejections SampleAccounts.bcrypt_hash false "student-004" "salt"
             Sample.today); try reflexivity.
    + intros _. split; apply (bool_decide_unpack _); by vm_compute.
    + apply Exists_cons_tl, Exists_cons_hd. reflexivity.
Defined.

(** ** From registration to the first login *)

Section FirstLogin.

Variable bcrypt_hash : string → string → string.
Variable bcrypt_compare : string → string → bool.
Variable jwt_sign : Req.user → string → Z → Z → string.
Variable JWT_SECRET : string.

(** What [bcrypt] promises: a password verifies against its own hash. *)
Hypothesis hash_verifies : ∀ p salt, bcrypt_compare p (bcrypt_hash p salt) = true.

Lemma find_last {A} (P : A → Prop) `{!∀ x, Decision (P x)} (l : list A) (x : A) :
  Forall (λ y, ¬ P y) l → P x → snd <$> list_find P (l ++ [x]) = Some x.
Proof.
  intros Hl Hx. rewrite find_snoc. rewrite (proj2 (list_find_None P l) Hl). cbn.
  by rewrite decide_True.
Qed.

(** The account a registration created is the one its e-mail finds. *)
Lemma registered_is_found (USE_MOCK_DB : bool) (userId salt : string)
    (now : Z) (body : entries) (s : state) :
  let out := register bcrypt_hash USE_MOCK_DB userId salt now body s in
  status out.1 = 200 →
  ∃ u p,
    field body "password" = VStr p
    ∧ snd <$> list_find (λ v, get v "email" = field body "email")
                (visible_users USE_MOCK_DB out.2) = Some u
    ∧ get u "id" = VStr userId
    ∧ get u "email" = field body "email"
    ∧ get u "name" = field body "name"
    ∧ get u "password_hash" = VStr (bcrypt_hash p salt)
    ∧ get u "role" = VStr "student"
    ∧ get u "status" = VStr "pending".
Proof.
  cbv zeta. intros Hok.
  destruct (register_accepted bcrypt_hash USE_MOCK_DB userId salt now body s Hok)
    as (u & p & Hp & Hu & _ & Hid & Hn & He & Hph & Hr & Hs & _ & Hno & _ & _ & _ & Hcols).
  destruct USE_MOCK_DB.
  - exists u, p. cbn in *. rewrite Hu. split_and!; try done. by apply find_last.
  - destruct (Hcols eq_refl) as [Hsame Hknown]. cbn in Hu, Hno, Hid, Hn, He, Hph, Hr, Hs.
    set (cols := Sql.columns (Sql.users (pool s))) in *.
    assert (Hget : ∀ r c, c ∈ account_columns → get (Sql.project cols r) c = Sql.cell r c).
    { intros r c Hc. apply project_lookup. by apply (proj1 (Forall_forall _ _) Hknown). }
    assert (Hin : ∀ c, bool_decide (c ∈ account_columns) = true → c ∈ account_columns).
    { intros c. apply bool_decide_eq_true. }
    exists (Sql.project cols u), p. unfold visible_users. rewrite Hsame, Hu, map_app.
    rewrite !Hget by (by apply Hin). split_and!; try done.
    apply find_last.
    + apply Forall_forall. intros v (r & -> & Hr')%list_elem_of_fmap.
      rewrite Hget by (by apply Hin). by apply (proj1 (Forall_forall _ _) Hno).
    + rewrite Hget by (by apply Hin). done.
Qed.

(** X6: an account that was just registered cannot log in yet: with the
    password it registered with, the login is answered with 403
    [auth/pending-approval] and no token. *)
Theorem registered_account_awaits_approval (USE_MOCK_DB : bool) (userId salt : string)
    (now later : Z) (body credentials : entries) (s : state) :
  let out := register bcrypt_hash USE_MOCK_DB userId salt now body s in
  let r := (login bcrypt_compare jwt_sign USE_MOCK_DB JWT_SECRET later credentials out.2).1 in
  status out.1 = 200 →
  field credentials "email" = field body "email" →
  field credentials "password" = field body "password" →
  status r = 403
  ∧ get (flat (json r)) "code" = VStr "auth/pending-approval"
  ∧ get (flat (json r)) "token" = VUndefined
  ∧ nested_user (json r)
    = Some (literal [("id", VStr userId); ("email", field body "email");
                     ("name", field body "name")]).
Proof.
  cbv zeta. intros Hok Hemail Hpw.
  destruct (register_accepted bcrypt_hash USE_MOCK_DB userId salt now body s Hok)
    as (_ & _ & _ & _ & _ & _ & _ & _ & _ & _ & _ & _ & _ & _ & Hte & Htp & Hcols).
  destruct (registered_is_found USE_MOCK_DB userId salt now body s Hok)
    as (u & p & Hp & Hfind & Hid & He & Hn & Hph & Hr & Hs).
  set (out := register bcrypt_hash USE_MOCK_DB userId salt now body s) in *.
  unfold login. rewrite Hemail, Hpw, Hte, Htp. cbn [negb orb].
  assert (Hpending :
    status (login_pending u) = 403
    ∧ get (flat (json (login_pending u))) "code" = VStr "auth/pending-approval"
    ∧ get (flat (json (login_pending u))) "token" = VUndefined
    ∧ nested_user (json (login_pending u))
      = Some (literal [("id", VStr userId); ("email", field body "email");
                       ("name", field body "name")])).
  { unfold login_pending. rewrite Hid, He, Hn. by split_and!. }
  destruct USE_MOCK_DB.
  - cbn [fst]. unfold login_mock. cbv zeta. rewrite Hemail, Hpw.
    unfold MockDatabase.findUserByEmail. cbn [visible_users] in Hfind. rewrite Hfind.
    rewrite Hp, Hph. cbn [compare]. rewrite hash_verifies, Hs, strict_eq_refl.
    exact Hpending.
  - rewrite login_real_found.
    + rewrite Hemail, Hpw, Hfind, Hp, Hph. cbn [compare].
      rewrite hash_verifies, Hs, strict_eq_refl. exact Hpending.
    + destruct (Hcols eq_refl) as [-> Hknown].
      apply (proj1 (Forall_forall _ _) Hknown). apply (bool_decide_unpack _). by vm_compute.
    + by rewrite Hemail.
Qed.

End FirstLogin.

(** ** The admin's user routes *)

Lemma affected_none (n : nat) :
  strict_eq (get (default ∅ (head [ ({[ "affectedRows" := VNum (Z.of_nat n) ]} : obj) ]))
               "affectedRows") (VNum 0)
  = Nat.eqb n 0.
Proof.
  cbn [head default]. change (get _ "affectedRows") with (VNum (Z.of_nat n)).
  destruct n; [apply strict_eq_refl|]. cbn [Nat.eqb]. apply strict_eq_false.
  intros [= H].
Qed.

Lemma Forall2_insert_found {A} (R : A → A → Prop) (l : list A) (i : nat) (x y : A) :
  (∀ z, R z z) → l !! i = Some x → R x y → Forall2 R l (<[i := y]> l).
Proof.
  intros Hrefl. revert i. induction l as [|z l IH]; intros [|i] Hi Hxy; try done.
  - injection Hi as ->. constructor; [done|]. by apply Forall_Forall2_diag, Forall_forall.
  - constructor; [done|]. by apply IH.
Qed.

Lemma Forall2_map_same {A} (R : A → A → Prop) (f : A → A) (l : list A) :
  (∀ z, R z (f z)) → Forall2 R l (map f l).
Proof. intros H. induction l; constructor; auto. Qed.

Lemma map_unmatched {A} (p : A → bool) (f : A → A) (l : list A) :
  List.filter p l = [] → map (λ r, if p r then f r else r) l = l.
Proof.
  intros H%filter_nil_Forall. induction H as [|x l Hx _ IH]; [done|].
  cbn. by rewrite Hx, IH.
Qed.

Section UserRoutes.

Variable bcrypt_hash : string → string → string.

Lemma user_updates_keys (salt : string) (body updates : entries) :
  user_updates bcrypt_hash salt body = Some updates →
  updates.*1 ⊆ ["role"; "status"; "password_hash"].
Proof.
  unfold user_updates. cbv zeta.
  destruct (truthy (field body "role")), (truthy (field body "status")),
    (truthy (field body "password"));
    try destruct (hash_password _ _ _); intros [= <-]; cbn;
    apply (bool_decide_unpack _); by vm_compute.
Qed.

Lemma update_account_in_fragment (salt : string) (now : Z) (id : string)
    (body updates : entries) :
  user_updates bcrypt_hash salt body = Some updates →
  Sql.modelled (update_account updates now id) = true.
Proof.
  unfold user_updates. cbv zeta.
  destruct (truthy (field body "role")), (truthy (field body "status")),
    (truthy (field body "password"));
    try destruct (hash_password _ _ _); by intros [= <-].
Qed.

Lemma patch_users_real_run (salt : string) (now : Z) (id : string) (body : entries)
    (d : Sql.db) :
  patch_users_real bcrypt_hash salt now id body d =
  match user_updates bcrypt_hash salt body with
  | None => (Sql.Ok (reply_error 500 (illegal_hash_arguments (field body "password"))), d)
  | Some updates =>
      if Nat.eqb (length updates) 0 then (Sql.Ok (reply_error 400 "No fields to update"), d)
      else
        let d1 := Sql.logged d (update_account updates now id) in
        match Sql.unknown_column (Sql.users d)
                (Sql.statement_columns (update_account updates now id)) with
        | Some c => (Sql.Ok (reply_error 500 (Sql.message (Sql.ER_BAD_FIELD_ERROR c))), d1)
        | None =>
            (Sql.Ok (if Nat.eqb (length (List.filter (Sql.matches [Sql.Eq "id" (VStr id)])
                                           (Sql.rows (Sql.users d)))) 0
                     then reply_error 404 "User not found"
                     else reply 200 (Obj (literal [("message",
                                                    VStr "User updated successfully")]))),
             Sql.set_rows d1 Sql.Users
               (map (λ r, if Sql.matches [Sql.Eq "id" (VStr id)] r
                          then Sql.assign (updates ++ [("updated_at", VNum now)]) r
                          else r)
                  (Sql.rows (Sql.users d))))
        end
  end.
Proof.
  unfold patch_users_real, Sql.try_catch.
  destruct (user_updates bcrypt_hash salt body) as [updates|] eqn:Hupd; [|done].
  pose proof (update_account_in_fragment salt now id body updates Hupd) as Hfrag.
  destruct (Nat.eqb (length updates) 0); [done|].
  unfold mbind, Sql.M_bind. cbv zeta.
  destruct (Sql.unknown_column (Sql.users d)
              (Sql.statement_columns (update_account updates now id))) as [c|] eqn:Hc.
  - rewrite (query_update_throw _ _ _ _ c); [done|exact Hfrag|exact Hc].
  - unfold Sql.query. rewrite execute_run by exact Hfrag. unfold update_account.
    cbn [Sql.run Sql.table_of Sql.logged Sql.users].
    unfold update_account in Hc. cbn [Sql.statement_columns] in Hc. rewrite Hc.
    rewrite affected_none. by destruct (Nat.eqb _ 0).
Qed.

Lemma account_settings_cover (salt : string) (body updates : entries) (now : Z) (k : string) :
  user_updates bcrypt_hash salt body = Some updates →
  k ∉ account_settings →
  (k ∉ updates.*1) ∧ (k ∉ map Sql.ident ((updates ++ [("updated_at", VNum now)]).*1)).
Proof.
  intros Hupd Hk. pose proof (user_updates_keys _ _ _ Hupd) as Hsub.
  assert (Hall : ∀ c, c ∈ updates.*1 → c ∈ ["role"; "status"; "password_hash"])
    by (intros c Hc; by apply Hsub).
  split.
  - intros Hin. apply Hk. specialize (Hall _ Hin). unfold account_settings.
    repeat (apply elem_of_cons in Hall as [->|Hall];
            [apply (bool_decide_unpack _); by vm_compute|]).
    by apply elem_of_nil in Hall.
  - rewrite fmap_app, map_app. intros [Hin|Hin]%elem_of_app.
    + apply list_elem_of_fmap in Hin as (c & -> & Hc). specialize (Hall _ Hc).
      apply Hk. unfold account_settings.
      repeat (apply elem_of_cons in Hall as [->|Hall];
              [apply (bool_decide_unpack _); by vm_compute|]).
      by apply elem_of_nil in Hall.
    + cbn in Hin. apply list_elem_of_singleton in Hin as ->.
      apply Hk. apply (bool_decide_unpack _). by vm_compute.
Qed.

Lemma table_eta (t : Sql.table) :
  {| Sql.columns := Sql.columns t; Sql.rows := Sql.rows t |} = t.
Proof. by destruct t. Qed.

(** X7: PATCH /api/users/:id is for admins only and touches one account.
    For a body whose members are JSON scalars (strings, numbers, booleans
    or null) and whatever the reply, the trades stay as they were, the
    accounts keep their number and order, an account with another id is
    left as it was, and of the account with the id only the role, the
    status, the password hash and the modification stamp can change. A body
    with no role, status or password is refused with 400, and every reply
    other than 200 leaves the store as it was. *)
Theorem patch_users_touches_one_account (USE_MOCK_DB : bool) (salt : string) (now : Z)
    (user : Req.user) (id : string) (body : entries) (s : state) :
  let out := patch_users bcrypt_hash USE_MOCK_DB salt now user id body s in
  stored_trades USE_MOCK_DB out.2 = stored_trades USE_MOCK_DB s
  ∧ Forall2 (λ u u', (attr USE_MOCK_DB u "id" ≠ VStr id → u' = u)
                     ∧ ∀ k, k ∉ account_settings →
                            attr USE_MOCK_DB u' k = attr USE_MOCK_DB u k)
      (stored_users USE_MOCK_DB s) (stored_users USE_MOCK_DB out.2)
  ∧ (Req.role user ≠ VStr "admin" → out = (reply_error 403 "Admin only", s))
  ∧ (Req.role user = VStr "admin" →
     truthy (field body "role") = false → truthy (field body "status") = false →
     truthy (field body "password") = false →
     out.1 = reply_error 400 "No fields to update")
  ∧ (status out.1 ≠ 200 → contents out.2 = contents s).
Proof.
  cbv zeta.
  assert (Hsame : ∀ l : list obj,
            Forall2 (λ u u', (attr USE_MOCK_DB u "id" ≠ VStr id → u' = u)
                             ∧ ∀ k, k ∉ account_settings →
                                    attr USE_MOCK_DB u' k = attr USE_MOCK_DB u k) l l).
  { intros l. by apply Forall_Forall2_diag, Forall_forall. }
  unfold patch_users.
  destruct (strict_eq (Req.role user) (VStr "admin")) eqn:Hrole; cbn [negb].
  2:{ apply strict_eq_false in Hrole. by split_and!. }
  apply strict_eq_true in Hrole.
  assert (Hnone : truthy (field body "role") = false → truthy (field body "status") = false →
                  truthy (field body "password") = false →
                  user_updates bcrypt_hash salt body = Some []).
  { intros H1 H2 H3. unfold user_updates. by rewrite H1, H2, H3. }
  destruct USE_MOCK_DB.
  - unfold patch_users_mock.
    destruct (user_updates bcrypt_hash salt body) as [updates|] eqn:Hupd.
    2:{ cbn. split_and!; try done; try (by destruct s as [[??]?]).
        all: intros _ H1 H2 H3; by specialize (Hnone H1 H2 H3). }
    destruct (Nat.eqb (length updates) 0) eqn:Hlen.
    { cbn. split_and!; try done; try (by destruct s as [[??]?]).
      all: intros _ H1 H2 H3; specialize (Hnone H1 H2 H3); by simplify_eq. }
    assert (Hne : updates ≠ []) by (by destruct updates).
    unfold MockDatabase.updateUser.
    destruct (list_find _ (MockDatabase.users (mockDb s))) as [[i old]|] eqn:Hfind.
    + cbn. split_and!; try done.
      * apply list_find_Some in Hfind as (Hi & Hold & _).
        eapply Forall2_insert_found; [|exact Hi|].
        { intros z. by split. }
        split; [by intros H|]. intros k Hk.
        apply spread_notin. by eapply (account_settings_cover _ _ _ 0).
      * intros _ H1 H2 H3. specialize (Hnone H1 H2 H3). by simplify_eq.
    + cbn. split_and!; try done; try apply Hsame; try (by destruct s as [[??]?]).
      intros _ H1 H2 H3. specialize (Hnone H1 H2 H3). by simplify_eq.
  - unfold on_pool. rewrite patch_users_real_run.
    destruct (user_updates bcrypt_hash salt body) as [updates|] eqn:Hupd.
    2:{ cbn. split_and!; try done; try (by destruct s as [[??]?]).
        all: intros _ H1 H2 H3; by specialize (Hnone H1 H2 H3). }
    destruct (Nat.eqb (length updates) 0) eqn:Hlen.
    { cbn. split_and!; try done; try (by destruct s as [[??]?]).
      all: intros _ H1 H2 H3; specialize (Hnone H1 H2 H3); by simplify_eq. }
    assert (Hne : updates ≠ []) by (by destruct updates).
    assert (H400 : Req.role user = VStr "admin" →
              truthy (field body "role") = false → truthy (field body "status") = false →
              truthy (field body "password") = false → False).
    { intros _ H1 H2 H3. specialize (Hnone H1 H2 H3). by simplify_eq. }
    cbv zeta.
    destruct (Sql.unknown_column _ (Sql.statement_columns _)) as [c|] eqn:Hc.
    { cbn. split_and!; try done; try apply Hsame;
        try (intros Hx H1 H2 H3; exfalso; by apply H400). }
    cbn [fst snd]. split_and!.
    + done.
    + unfold stored_users, attr.
      cbn [pool with_pool Sql.set_rows Sql.users Sql.rows Sql.logged].
      apply Forall2_map_same. intros r.
      destruct (Sql.matches [Sql.Eq "id" (VStr id)] r) eqn:Hm.
      * apply matches_id in Hm. split; [by intros H|]. intros k Hk.
        unfold Sql.cell, get. f_equal. f_equal. apply assign_notin.
        by eapply account_settings_cover.
      * by split.
    + done.
    + intros Hx H1 H2 H3. exfalso. by apply H400.
    + destruct (List.filter _ (Sql.rows (Sql.users (pool s)))) as [|r rs] eqn:Hrows;
        cbn [length Nat.eqb]; [|done].
      intros _. rewrite map_unmatched by done. unfold contents. cbn.
      by rewrite table_eta.
Qed.

End UserRoutes.

Lemma patch_users_touches_one_account_witness :
  status (patch_users SampleAccounts.bcrypt_hash false "salt" Sample.today
            (Sample.session Sample.admin) "student-003" [("status", VStr "approved")]
            Sample.server).1 = 200
  ∧ stored_trades false
      (patch_users SampleAccounts.bcrypt_hash false "salt" Sample.today
         (Sample.session Sample.admin) "student-003" [("status", VStr "approved")]
         Sample.server).2
    = stored_trades false Sample.server
  ∧ Forall2 (λ u u', (attr false u "id" ≠ VStr "student-003" → u' = u)
                     ∧ ∀ k, k ∉ account_settings → attr false u' k = attr false u k)
      (stored_users false Sample.server)
      (stored_users false
         (patch_users SampleAccounts.bcrypt_hash false "salt" Sample.today
            (Sample.session Sample.admin) "student-003" [("status", VStr "approved")]
            Sample.server).2)
  ∧ (patch_users SampleAccounts.bcrypt_hash false "salt" Sample.today
       (Sample.session Sample.admin) "student-003" [] Sample.server).1
    = reply_error 400 "No fields to update"
  ∧ patch_users SampleAccounts.bcrypt_hash false "salt" Sample.today
      (Sample.session Sample.alice) "student-003" [("status", VStr "approved")] Sample.server
    = (reply_error 403 "Admin only", Sample.server).
Proof.
  split; [by vm_compute|].
  destruct (patch_users_touches_one_account SampleAccounts.bcrypt_hash false "salt"
              Sample.today (Sample.session Sample.admin) "student-003"
              [("status", VStr "approved")] Sample.server) as (H1 & H2 & _).
  destruct (patch_users_touches_one_account SampleAccounts.bcrypt_hash false "salt"
              Sample.today (Sample.session Sample.admin) "student-003" []
              Sample.server) as (_ & _ & _ & H4 & _).
  destruct (patch_users_touches_one_account SampleAccounts.bcrypt_hash false "salt"
              Sample.today (Sample.session Sample.alice) "student-003"
              [("status", VStr "approved")] Sample.server) as (_ & _ & H3 & _).
  split_and!; [exact H1|exact H2|by apply H4|apply H3; intros [=]].
Defined.

(** ** From approval to the first token *)

Section Approval.

Variable bcrypt_hash : string → string → string.
Variable bcrypt_compare : string → string → bool.
Variable jwt_sign : Req.user → string → Z → Z → string.
Variable JWT_SECRET : string.

Hypothesis hash_verifies : ∀ p salt, bcrypt_compare p (bcrypt_hash p salt) = true.

(** The login of an account that is found, not pending, and whose password
    verifies. *)
Lemma login_found (USE_MOCK_DB : bool) (now : Z) (credentials : entries) (s : state)
    (u : obj) (p h : string) :
  truthy (field credentials "email") = true →
  field credentials "password" = VStr p → p ≠ EmptyString →
  (USE_MOCK_DB = false → "email" ∈ Sql.columns (Sql.users (pool s))) →
  snd <$> list_find (λ v, get v "email" = field credentials "email")
            (visible_users USE_MOCK_DB s) = Some u →
  get u "password_hash" = VStr h → bcrypt_compare p h = true →
  get u "status" ≠ VStr "pending" →
  let r := (login bcrypt_compare jwt_sign USE_MOCK_DB JWT_SECRET now credentials s).1 in
  status r = 200
  ∧ get (flat (json r)) "token"
    = VStr (jwt_sign {| Req.userId := get u "id"; Req.email := get u "email";
                        Req.role := get u "role" |} JWT_SECRET now seven_days)
  ∧ nested_user (json r) = Some (login_user u).
Proof.
  intros Hemail Hpw Hp Hcol Hfind Hh Hcmp Hst. cbv zeta. unfold login.
  rewrite Hemail, Hpw. assert (Htp : truthy (VStr p) = true) by (by destruct p).
  rewrite Htp. cbn [negb orb]. apply strict_eq_false in Hst.
  destruct USE_MOCK_DB.
  - cbn [fst]. unfold login_mock. cbv zeta. unfold MockDatabase.findUserByEmail.
    cbn [visible_users] in Hfind. rewrite Hfind, Hpw, Hh. cbn [compare].
    rewrite Hcmp, Hst. by split_and!.
  - rewrite login_real_found by (auto). rewrite Hfind, Hpw, Hh. cbn [compare].
    rewrite Hcmp, Hst. by split_and!.
Qed.

Lemma status_only (salt : string) (pb : entries) (st : string) :
  field pb "status" = VStr st → st ≠ EmptyString →
  truthy (field pb "role") = false → truthy (field pb "password") = false →
  user_updates bcrypt_hash salt pb = Some [("status", VStr st)].
Proof.
  intros Hst Hne Hr Hp. unfold user_updates. rewrite Hr, Hp, Hst.
  by destruct st.
Qed.

Lemma approve_mock (salt id : string) (pb : entries) (st : string) (db : MockDatabase.t)
    (users : list obj) (u : obj) :
  MockDatabase.users db = users ++ [u] →
  Forall (λ v, get v "id" ≠ VStr id) users → get u "id" = VStr id →
  user_updates bcrypt_hash salt pb = Some [("status", VStr st)] →
  patch_users_mock bcrypt_hash salt id pb db
  = (reply 200 (Obj (literal [("message", VStr "User updated successfully")])),
     {| MockDatabase.users := users ++ [spread u [("status", VStr st)]];
        MockDatabase.trades := MockDatabase.trades db |}).
Proof.
  intros Hu Hfresh Hid Hupd. unfold patch_users_mock. rewrite Hupd. cbn [length Nat.eqb].
  unfold MockDatabase.updateUser. rewrite Hu.
  rewrite (list_find_app_r _ _ _ (proj2 (list_find_None _ _) Hfresh)).
  cbn [list_find]. rewrite decide_True by done. cbn.
  rewrite insert_app_r_alt by done. by rewrite Nat.sub_diag.
Qed.

Lemma approve_real (salt : string) (now : Z) (id : string) (pb : entries) (st : string)
    (d : Sql.db) (rows : list obj) (row : obj) :
  Sql.rows (Sql.users d) = rows ++ [row] →
  Forall (λ c, c ∈ Sql.columns (Sql.users d)) account_columns →
  Sql.cell row "id" = VStr id →
  user_updates bcrypt_hash salt pb = Some [("status", VStr st)] →
  let sets := [("status", VStr st); ("updated_at", VNum now)] in
  ∃ d',
    patch_users_real bcrypt_hash salt now id pb d
    = (Sql.Ok (reply 200 (Obj (literal [("message", VStr "User updated successfully")]))), d')
    ∧ Sql.columns (Sql.users d') = Sql.columns (Sql.users d)
    ∧ Sql.rows (Sql.users d')
      = map (λ r, if Sql.matches [Sql.Eq "id" (VStr id)] r then Sql.assign sets r else r) rows
        ++ [Sql.assign sets row].
Proof.
  intros Hrows Hknown Hid Hupd. cbv zeta. rewrite patch_users_real_run, Hupd.
  cbn [length Nat.eqb]. cbv zeta.
  assert (Hin : ∀ c, bool_decide (c ∈ account_columns) = true →
                     c ∈ Sql.columns (Sql.users d)).
  { intros c Hc%bool_decide_eq_true. by apply (proj1 (Forall_forall _ _) Hknown). }
  rewrite unknown_column_ok.
  2:{ cbn. repeat constructor; by apply Hin. }
  assert (Hm : Sql.matches [Sql.Eq "id" (VStr id)] row = true) by (by apply matches_id).
  rewrite Hrows, List.filter_app, map_app. cbn [List.filter map]. rewrite Hm.
  rewrite length_app. cbn [length]. rewrite Nat.add_1_r. cbn [Nat.eqb].
  eexists. split; [reflexivity|]. by cbn.
Qed.

(** X8: once an admin has set the status of a freshly registered account
    to anything but [pending], a login with the registered e-mail and
    password is answered with 200 and a token for the new id, the e-mail and
    the role [student]. *)
Theorem approved_account_logs_in (USE_MOCK_DB : bool) (userId salt salt' : string)
    (now now1 now2 : Z) (body pb credentials : entries) (admin : Req.user) (st : string)
    (s : state) :
  let out := register bcrypt_hash USE_MOCK_DB userId salt now body s in
  let approved := patch_users bcrypt_hash USE_MOCK_DB salt' now1 admin userId pb out.2 in
  let r := (login bcrypt_compare jwt_sign USE_MOCK_DB JWT_SECRET now2 credentials
              approved.2).1 in
  status out.1 = 200 →
  (USE_MOCK_DB = true → MockDatabase.findUserById (mockDb s) (VStr userId) = None) →
  Req.role admin = VStr "admin" →
  field pb "status" = VStr st → st ≠ EmptyString → st ≠ "pending" →
  truthy (field pb "role") = false → truthy (field pb "password") = false →
  field credentials "email" = field body "email" →
  field credentials "password" = field body "password" →
  status approved.1 = 200
  ∧ status r = 200
  ∧ get (flat (json r)) "token"
    = VStr (jwt_sign {| Req.userId := VStr userId; Req.email := field body "email";
                        Req.role := VStr "student" |} JWT_SECRET now2 seven_days)
  ∧ nested_user (json r)
    = Some (literal [("id", VStr userId); ("email", field body "email");
                     ("name", field body "name"); ("role", VStr "student");
                     ("status", VStr st)]).
Proof.
  cbv zeta. intros Hok Hfresh Hadmin Hst Hne Hnp Hrole Hpass Hemail Hpw.
  destruct (register_accepted bcrypt_hash USE_MOCK_DB userId salt now body s Hok)
    as (u & p & Hp & Hu & _ & Hid & Hn & He & Hph & Hr & Hs & _ & Hno & _ & Hte & Htp & Hcols).
  set (out := register bcrypt_hash USE_MOCK_DB userId salt now body s) in *.
  pose proof (status_only salt' pb st Hst Hne Hrole Hpass) as Hupd.
  assert (Hpne : p ≠ EmptyString).
  { intros ->. by rewrite Hp in Htp. }
  assert (Hshape : ∀ v : obj,
            get v "id" = VStr userId → get v "email" = field body "email" →
            get v "name" = field body "name" → get v "role" = VStr "student" →
            get v "status" = VStr st →
            VStr (jwt_sign {| Req.userId := get v "id"; Req.email := get v "email";
                              Req.role := get v "role" |} JWT_SECRET now2 seven_days)
            = VStr (jwt_sign {| Req.userId := VStr userId; Req.email := field body "email";
                                Req.role := VStr "student" |} JWT_SECRET now2 seven_days)
            ∧ Some (login_user v)
              = Some (literal [("id", VStr userId); ("email", field body "email");
                               ("name", field body "name"); ("role", VStr "student");
                               ("status", VStr st)])).
  { intros v H1 H2 H3 H4 H5. unfold login_user. by rewrite H1, H2, H3, H4, H5. }
  unfold patch_users. rewrite Hadmin, strict_eq_refl. cbn [negb].
  destruct USE_MOCK_DB.
  - cbn [stored_users attr] in *.
    assert (Hfresh' : Forall (λ v, get v "id" ≠ VStr userId) (MockDatabase.users (mockDb s))).
    { specialize (Hfresh eq_refl). unfold MockDatabase.findUserById in Hfresh.
      destruct (list_find _ (MockDatabase.users (mockDb s))) as [[??]|] eqn:Hl; [done|].
      by apply list_find_None in Hl. }
    rewrite (approve_mock salt' userId pb st _ _ u Hu Hfresh' Hid Hupd).
    split; [done|].
    set (u' := spread u [("status", VStr st)]).
    assert (Hkeep : ∀ k, k ≠ "status" → get u' k = get u k).
    { intros k Hk. apply spread_notin. cbn. by intros ->%list_elem_of_singleton. }
    assert (Hst' : get u' "status" = VStr st).
    { unfold u', spread, get. cbn [foldl fst snd]. by rewrite lookup_insert_eq. }
    destruct (login_found true now2 credentials
                (with_mockDb out.2
                   {| MockDatabase.users := MockDatabase.users (mockDb s) ++ [u'];
                      MockDatabase.trades := MockDatabase.trades (mockDb out.2) |})
                u' p (bcrypt_hash p salt)) as (H1 & H2 & H3); try done.
    + by rewrite Hemail.
    + by rewrite Hpw.
    + cbn [visible_users with_mockDb mockDb MockDatabase.users]. rewrite Hemail.
      apply find_last; [done|]. by rewrite Hkeep.
    + by rewrite Hkeep.
    + rewrite Hst'. by intros [= ->].
    + destruct (Hshape u') as [E1 E2]; try (rewrite Hkeep; done); try done.
      cbn [fst snd]. rewrite H2, H3. by split_and!.
  - cbn [stored_users attr] in *. destruct (Hcols eq_refl) as [Hsame Hknown].
    rewrite <- Hsame in Hknown.
    destruct (approve_real salt' now1 userId pb st (pool out.2) _ u Hu Hknown Hid Hupd)
      as (d' & Hrun & Hcols' & Hrows').
    unfold on_pool. rewrite Hrun. split; [done|]. cbn [fst snd].
    set (sets := [("status", VStr st); ("updated_at", VNum now1)]) in *.
    set (cols := Sql.columns (Sql.users (pool out.2))) in *.
    assert (Hget : ∀ r c, bool_decide (c ∈ account_columns) = true →
                          get (Sql.project cols r) c = Sql.cell r c).
    { intros r c Hc%bool_decide_eq_true. apply project_lookup.
      by apply (proj1 (Forall_forall _ _) Hknown). }
    assert (Hkeep : ∀ r k, k ≠ "status" → k ≠ "updated_at" →
                           Sql.cell (Sql.assign sets r) k = Sql.cell r k).
    { intros r k H1 H2. unfold Sql.cell, get. f_equal. f_equal. apply assign_notin.
      cbn. intros [->|[->|[]%elem_of_nil]%elem_of_cons]%elem_of_cons; done. }
    assert (Hst' : Sql.cell (Sql.assign sets u) "status" = VStr st).
    { unfold Sql.cell, get, Sql.assign, sets. cbn [foldl fst snd].
      rewrite lookup_insert_ne by done. by rewrite lookup_insert_eq. }
    set (u' := Sql.project cols (Sql.assign sets u)).
    destruct (login_found false now2 credentials (with_pool out.2 d') u' p
                (bcrypt_hash p salt)) as (H1 & H2 & H3); try done.
    + by rewrite Hemail.
    + by rewrite Hpw.
    + intros _. cbn [pool with_pool]. rewrite Hcols'.
      apply (proj1 (Forall_forall _ _) Hknown). apply (bool_decide_unpack _). by vm_compute.
    + unfold visible_users. cbn [pool with_pool]. rewrite Hcols', Hrows', map_app.
      rewrite Hemail. apply find_last.
      * apply Forall_forall. intros v (r' & -> & (r & -> & Hr')%list_elem_of_fmap)%list_elem_of_fmap.
        rewrite Hget by done.
        destruct (Sql.matches _ r); [rewrite Hkeep by done|];
          by apply (proj1 (Forall_forall _ _) Hno).
      * unfold u'. rewrite Hget by done. by rewrite Hkeep.
    + unfold u'. rewrite Hget by done. by rewrite Hkeep.
    + unfold u'. rewrite Hget by done. rewrite Hst'. by intros [= ->].
    + destruct (Hshape u') as [E1 E2]; unfold u';
        try (rewrite Hget by done; rewrite ?Hkeep by done; done).
      rewrite H2, H3. by split_and!.
Qed.

End Approval.

Lemma sample_hash_verifies (p salt : string) :
  Sample.bcrypt_compare p (SampleAccounts.bcrypt_hash p salt) = true.
Proof. apply String.eqb_refl. Qed.

Lemma registered_account_awaits_approval_witness :
  let out := register SampleAccounts.bcrypt_hash true "student-004" "salt" Sample.today
               SampleAccounts.carol Sample.server in
  status (login Sample.bcrypt_compare Sample.jwt_sign true "secret" (Sample.today + 60)
            [("email", VStr "carol@example.com"); ("password", VStr "student123")]
            out.2).1 = 403.
Proof.
  destruct (registered_account_awaits_approval SampleAccounts.bcrypt_hash
              Sample.bcrypt_compare Sample.jwt_sign "secret" sample_hash_verifies
              true "student-004" "salt" Sample.today (Sample.today + 60)
              SampleAccounts.carol
              [("email", VStr "carol@example.com"); ("password", VStr "student123")]
              Sample.server) as [H _]; [reflexivity..|exact H].
Defined.

Lemma approved_account_logs_in_witness :
  let out := register SampleAccounts.bcrypt_hash false "student-004" "salt" Sample.today
               SampleAccounts.carol Sample.server in
  let approved := patch_users SampleAccounts.bcrypt_hash false "salt" (Sample.today + 30)
                    (Sample.session Sample.admin) "student-004"
                    [("status", VStr "approved")] out.2 in
  status approved.1 = 200
  ∧ status (login Sample.bcrypt_compare Sample.jwt_sign false "secret" (Sample.today + 60)
              [("email", VStr "carol@example.com"); ("password", VStr "student123")]
              approved.2).1 = 200.
Proof.
  destruct (approved_account_logs_in SampleAccounts.bcrypt_hash
              Sample.bcrypt_compare Sample.jwt_sign "secret" sample_hash_verifies
              false "student-004" "salt" "salt" Sample.today (Sample.today + 30)
              (Sample.today + 60) SampleAccounts.carol [("status", VStr "approved")]
              [("email", VStr "carol@example.com"); ("password", VStr "student123")]
              (Sample.session Sample.admin) "approved" Sample.server)
    as (H1 & H2 & _); try reflexivity; try done.
Defined.

(** ** Deleting an account and its trades *)

Lemma filter_iff_on {A} (P1 P2 : A → Prop) `{!∀ x, Decision (P1 x), !∀ x, Decision (P2 x)}
    (l : list A) :
  (∀ x, x ∈ l → (P1 x ↔ P2 x)) → filter P1 l = filter P2 l.
Proof.
  induction l as [|a l IH]; intros Hiff; [done|].
  assert (IH' : filter P1 l = filter P2 l).
  { apply IH. intros x Hx. apply Hiff. by right. }
  destruct (decide (P1 a)) as [Ha|Ha].
  - rewrite !filter_cons_True; [by rewrite IH'|by apply Hiff; [left|]|done].
  - rewrite !filter_cons_False; [done| |done]. intros Hb. apply Ha, Hiff; [left|done].
Qed.

Lemma filter_bool {A} (f : A → bool) (P : A → Prop) `{!∀ x, Decision (P x)} (l : list A) :
  (∀ x, f x = true ↔ P x) → List.filter f l = filter P l.
Proof.
  intros Hiff. induction l as [|a l IH]; [done|]. cbn [List.filter].
  destruct (f a) eqn:Hfa.
  - rewrite filter_cons_True by (by apply Hiff). by rewrite IH.
  - rewrite filter_cons_False; [done|]. intros Hp%Hiff. congruence.
Qed.

Lemma NoDup_map_inj {A B} (f : A → B) (l : list A) (x y : A) :
  NoDup (map f l) → x ∈ l → y ∈ l → f x = f y → x = y.
Proof.
  induction l as [|a l IH]; intros Hnd Hx Hy Hxy; [by apply elem_of_nil in Hx|].
  cbn [map] in Hnd. apply NoDup_cons in Hnd as [Ha Hnd].
  apply elem_of_cons in Hx as [->|Hx]; apply elem_of_cons in Hy as [->|Hy]; auto.
  - exfalso. apply Ha. rewrite Hxy. apply list_elem_of_fmap. by exists y.
  - exfalso. apply Ha. rewrite <- Hxy. apply list_elem_of_fmap. by exists x.
Qed.

Lemma deleteTrade_filter (db : MockDatabase.t) (a : value) :
  NoDup (ids (MockDatabase.trades db)) →
  MockDatabase.users (MockDatabase.deleteTrade db a).2 = MockDatabase.users db
  ∧ MockDatabase.trades (MockDatabase.deleteTrade db a).2
    = filter (λ t, get t "id" ≠ a) (MockDatabase.trades db).
Proof.
  intros Hnd. pose proof (delete_by_key (λ t, get t "id") a _ Hnd) as H.
  unfold MockDatabase.deleteTrade.
  by destruct (list_find _ (MockDatabase.trades db)) as [[i x]|].
Qed.

(** Deleting the trades of a list one by one, by id. *)
Lemma delete_each (ts : list obj) (db : MockDatabase.t) :
  NoDup (ids (MockDatabase.trades db)) →
  let db1 := foldl (λ acc trade, (MockDatabase.deleteTrade acc (get trade "id")).2) db ts in
  MockDatabase.users db1 = MockDatabase.users db
  ∧ MockDatabase.trades db1
    = filter (λ t, get t "id" ∉ ids ts) (MockDatabase.trades db).
Proof.
  cbv zeta. revert db. induction ts as [|t ts IH]; intros db Hnd.
  - cbn. split; [done|]. symmetry. apply filter_all, Forall_forall.
    intros x _. apply not_elem_of_nil.
  - cbn [foldl]. destruct (deleteTrade_filter db (get t "id") Hnd) as [Hu Ht].
    destruct (IH (MockDatabase.deleteTrade db (get t "id")).2) as [Hu' Ht'].
    { rewrite Ht. by apply ids_filter_NoDup. }
    rewrite Hu', Ht', Hu, Ht. split; [done|].
    rewrite list_filter_filter. apply list_filter_iff. intros x. cbn [ids map].
    rewrite not_elem_of_cons. tauto.
Qed.

Lemma delete_owned (id : value) (l : list obj) :
  NoDup (ids l) →
  filter (λ t, get t "id" ∉ ids (filter (λ t, get t "userId" = id) l)) l
  = filter (λ t, get t "userId" ≠ id) l.
Proof.
  intros Hnd. apply filter_iff_on. intros x Hx. split.
  - intros Hnot Howner. apply Hnot. apply list_elem_of_fmap. exists x.
    split; [done|]. by apply list_elem_of_filter.
  - intros Hother (z & Hz & [Hown Hin]%list_elem_of_filter)%list_elem_of_fmap.
    apply Hother. by rewrite (NoDup_map_inj (λ o, get o "id") l x z Hnd Hx Hin Hz).
Qed.

Lemma delete_users_real_run (id : string) (d : Sql.db) :
  delete_users_real id d =
  let d1 := Sql.logged d (delete_trades_of id) in
  match Sql.unknown_column (Sql.trades d) ["user_id"] with
  | Some c => (Sql.Ok (reply_error 500 (Sql.message (Sql.ER_BAD_FIELD_ERROR c))), d1)
  | None =>
      let d2 :=
        Sql.logged
          (Sql.set_rows d1 Sql.Trades
             (List.filter (λ r, negb (Sql.matches [Sql.Eq "user_id" (VStr id)] r))
                (Sql.rows (Sql.trades d))))
          (delete_account id) in
      match Sql.unknown_column (Sql.users d) ["id"] with
      | Some c => (Sql.Ok (reply_error 500 (Sql.message (Sql.ER_BAD_FIELD_ERROR c))), d2)
      | None =>
          (Sql.Ok (if Nat.eqb (length (List.filter (Sql.matches [Sql.Eq "id" (VStr id)])
                                         (Sql.rows (Sql.users d)))) 0
                   then reply_error 404 "User not found"
                   else reply 200 (Obj (literal [("message",
                                                  VStr "User deleted successfully")]))),
           Sql.set_rows d2 Sql.Users
             (List.filter (λ r, negb (Sql.matches [Sql.Eq "id" (VStr id)] r))
                (Sql.rows (Sql.users d))))
      end
  end.
Proof.
  unfold delete_users_real, Sql.try_catch, mbind, Sql.M_bind, Sql.query. cbv zeta.
  rewrite execute_run by in_fragment.
  cbn [Sql.run Sql.table_of Sql.logged Sql.trades concat map Sql.cond_columns app].
  destruct (Sql.unknown_column (Sql.trades d) ["user_id"]) as [c|]; [done|].
  rewrite execute_run by in_fragment.
  cbn [Sql.run Sql.table_of Sql.logged Sql.set_rows Sql.users concat map
       Sql.cond_columns app].
  destruct (Sql.unknown_column (Sql.users d) ["id"]) as [c|]; [done|].
  rewrite affected_none. by destruct (Nat.eqb _ 0).
Qed.

Lemma not_matches_Eq (col : string) (id : string) (r : obj) :
  negb (Sql.matches [Sql.Eq col (VStr id)] r) = true ↔ Sql.cell r (Sql.ident col) ≠ VStr id.
Proof.
  rewrite negb_true_iff, <- not_true_iff_false.
  by rewrite (matches_Eq_iff col (VStr id) r).
Qed.

Lemma filter_length_Exists {A} (f : A → bool) (P : A → Prop) (l : list A) :
  (∀ x, f x = true ↔ P x) →
  Nat.eqb (length (List.filter f l)) 0 = false ↔ Exists P l.
Proof.
  intros Hiff. induction l as [|a l IH]; cbn [List.filter].
  - split; [done|]. by intros ?%Exists_nil.
  - destruct (f a) eqn:Hfa.
    + split; [|done]. intros _. left. by apply Hiff.
    + rewrite IH. split; [by right|]. intros [Ha|Hl]%Exists_cons; [|done].
      apply Hiff in Ha. congruence.
Qed.

(** X9: DELETE /api/users/:id is for admins only. For an admin, when the
    ids of the stored records are pairwise distinct (in-memory store) or
    the tables have the columns the statements name (relational store), it
    removes every trade of that owner and every account with that id and
    nothing else; it answers 200 when there was such an account and 404
    otherwise, and the trades of that owner id are removed in both cases. *)
Theorem delete_users_cascades (USE_MOCK_DB : bool) (user : Req.user) (id : string)
    (s : state) :
  let out := delete_users USE_MOCK_DB user id s in
  (Req.role user ≠ VStr "admin" → out = (reply_error 403 "Admin only", s))
  ∧ (Req.role user = VStr "admin" →
     (USE_MOCK_DB = true →
        NoDup (ids (MockDatabase.trades (mockDb s)))
        ∧ NoDup (ids (MockDatabase.users (mockDb s)))) →
     (USE_MOCK_DB = false →
        "user_id" ∈ Sql.columns (Sql.trades (pool s))
        ∧ "id" ∈ Sql.columns (Sql.users (pool s))) →
     stored_trades USE_MOCK_DB out.2
     = filter (λ t, owner USE_MOCK_DB t ≠ VStr id) (stored_trades USE_MOCK_DB s)
     ∧ stored_users USE_MOCK_DB out.2
       = filter (λ u, attr USE_MOCK_DB u "id" ≠ VStr id) (stored_users USE_MOCK_DB s)
     ∧ (status out.1 = 200 ∨ status out.1 = 404)
     ∧ (status out.1 = 200
        ↔ Exists (λ u, attr USE_MOCK_DB u "id" = VStr id) (stored_users USE_MOCK_DB s))).
Proof.
  cbv zeta. unfold delete_users.
  destruct (strict_eq (Req.role user) (VStr "admin")) eqn:Hrole; cbn [negb].
  2:{ apply strict_eq_false in Hrole. by split. }
  apply strict_eq_true in Hrole. split; [done|]. intros _ Hmock Hreal.
  destruct USE_MOCK_DB.
  - destruct (Hmock eq_refl) as [Ht Hu]. clear Hmock Hreal.
    unfold delete_users_mock. cbv zeta. unfold MockDatabase.getAllTrades.
    destruct (delete_each (filter (λ t, get t "userId" = VStr id)
                             (MockDatabase.trades (mockDb s))) (mockDb s) Ht)
      as [Hu1 Ht1].
    set (db1 := foldl _ (mockDb s) _) in *.
    rewrite delete_owned in Ht1 by done.
    pose proof (delete_by_key (λ u, get u "id") (VStr id) (MockDatabase.users db1)) as Hdel.
    rewrite Hu1 in Hdel. specialize (Hdel Hu).
    unfold MockDatabase.deleteUser. rewrite Hu1.
    destruct (list_find _ (MockDatabase.users (mockDb s))) as [[i x]|] eqn:Hfind.
    + cbn. rewrite Hdel. split_and!; [done|done|by left|]. split; [|done].
      intros _. apply list_find_Some in Hfind as (Hi & Hx & _).
      apply Exists_exists. exists x. split; [|done]. by eapply list_elem_of_lookup_2.
    + cbn. rewrite Hu1. split_and!; [done|exact Hdel|by right|]. split; [done|].
      apply list_find_None in Hfind. intros (x & Hx & Hid)%Exists_exists.
      exfalso. by apply (proj1 (Forall_forall _ _) Hfind x).
  - destruct (Hreal eq_refl) as [Ht Hu]. clear Hmock Hreal.
    unfold on_pool. rewrite delete_users_real_run. cbv zeta.
    rewrite (unknown_column_ok (Sql.trades (pool s)) ["user_id"]) by (by repeat constructor).
    rewrite (unknown_column_ok (Sql.users (pool s)) ["id"]) by (by repeat constructor).
    cbn [fst snd stored_trades stored_users pool with_pool Sql.set_rows Sql.logged
         Sql.users Sql.trades Sql.rows owner attr].
    pose proof (filter_length_Exists (Sql.matches [Sql.Eq "id" (VStr id)])
                  (λ u, Sql.cell u "id" = VStr id) (Sql.rows (Sql.users (pool s)))
                  (matches_id id)) as Hex.
    split_and!.
    + apply filter_bool. intros r. apply (not_matches_Eq "user_id").
    + apply filter_bool. intros r. apply (not_matches_Eq "id").
    + destruct (Nat.eqb _ 0); [by right|by left].
    + rewrite <- Hex. by destruct (Nat.eqb _ 0).
Qed.

Lemma delete_users_cascades_witness :
  let out := delete_users true (Sample.session Sample.admin) "student-002" Sample.server in
  status out.1 = 200
  ∧ stored_trades true out.2 = [Sample.trade_b]
  ∧ stored_users true out.2 = [Sample.admin; Sample.bob].
Proof.
  destruct (delete_users_cascades true (Sample.session Sample.admin) "student-002"
              Sample.server) as [_ H].
  destruct H as (Ht & Hu & _ & Hs); [reflexivity| |done|].
  - intros _. split; apply (bool_decide_unpack _); by vm_compute.
  - split_and!.
    + apply Hs. apply Exists_cons_tl, Exists_cons_hd. reflexivity.
    + rewrite Ht. reflexivity.
    + rewrite Hu. reflexivity.
Defined.

(** ** Deleting a trade *)

Lemma delete_trades_real_reaches_delete (user : Req.user) (id : string) (d : Sql.db)
    (i : nat) (t : obj) :
  "id" ∈ Sql.columns (Sql.trades d) → "user_id" ∈ Sql.columns (Sql.trades d) →
  list_find (λ r, Sql.cell r "id" = VStr id) (Sql.rows (Sql.trades d)) = Some (i, t) →
  ¬ (Req.role user = VStr "student" ∧ Sql.cell t "user_id" ≠ Req.userId user) →
  delete_trades_real user id d
  = (Sql.Ok (reply 200 (Obj (literal [("message", VStr "Trade deleted")]))),
     Sql.set_rows (Sql.logged (Sql.logged d (select_owner_of id)) (delete_trade_of id))
       Sql.Trades
       (List.filter (λ r, negb (Sql.matches [Sql.Eq "id" (VStr id)] r))
          (Sql.rows (Sql.trades d)))).
Proof.
  intros Hid Huid Hfind Hmay. unfold delete_trades_real.
  unfold Sql.try_catch at 1. unfold mbind at 1. unfold Sql.M_bind at 1.
  rewrite query_select_all; [|done|].
  2:{ apply unknown_column_ok. by repeat constructor. }
  cbn [Sql.table_of Sql.order_by Sql.logged Sql.trades].
  destruct (select_id_cons (Sql.selected (Sql.trades d) (Some ["user_id"])) id _ i t Hfind)
    as [rest ->].
  change (Sql.selected (Sql.trades d) (Some ["user_id"])) with ["user_id"].
  rewrite get_project_owner.
  assert (Hgate : strict_eq (Req.role user) (VStr "student")
                  && negb (strict_eq (Sql.cell t "user_id") (Req.userId user)) = false).
  { destruct (strict_eq (Req.role user) _) eqn:Hr; [|done].
    destruct (strict_eq (Sql.cell t _) _) eqn:Ho; [done|].
    apply strict_eq_true in Hr. apply strict_eq_false in Ho. by destruct Hmay. }
  rewrite Hgate. unfold mbind, Sql.M_bind, Sql.query.
  rewrite execute_run by in_fragment.
  cbn [Sql.run Sql.table_of Sql.logged Sql.trades concat map Sql.cond_columns app].
  rewrite (unknown_column_ok (Sql.trades d) ["id"]) by (by repeat constructor).
  done.
Qed.

(** X10: DELETE /api/trades/:id, when a trade has the id and the caller is
    not a student who targets another's trade, answers 200 and removes the
    trades with that id and nothing else: every other trade and every
    account stays as it was (with pairwise distinct ids in the in-memory
    store, and the id / user_id columns present in the relational one). *)
Theorem delete_trades_removes_the_trade (USE_MOCK_DB : bool) (user : Req.user)
    (id : string) (s : state) (i : nat) (t : obj) :
  (USE_MOCK_DB = true → NoDup (ids (MockDatabase.trades (mockDb s)))) →
  (USE_MOCK_DB = false →
     "id" ∈ Sql.columns (Sql.trades (pool s))
     ∧ "user_id" ∈ Sql.columns (Sql.trades (pool s))) →
  list_find (λ t, trade_id USE_MOCK_DB t = VStr id) (stored_trades USE_MOCK_DB s)
    = Some (i, t) →
  ¬ (Req.role user = VStr "student" ∧ owner USE_MOCK_DB t ≠ Req.userId user) →
  let out := delete_trades USE_MOCK_DB user id s in
  out.1 = reply 200 (Obj (literal [("message", VStr "Trade deleted")]))
  ∧ stored_trades USE_MOCK_DB out.2
    = filter (λ t, trade_id USE_MOCK_DB t ≠ VStr id) (stored_trades USE_MOCK_DB s)
  ∧ stored_users USE_MOCK_DB out.2 = stored_users USE_MOCK_DB s.
Proof.
  intros Hmock Hreal Hfind Hmay. cbv zeta. unfold delete_trades.
  destruct USE_MOCK_DB.
  - cbn [trade_id stored_trades owner] in *. specialize (Hmock eq_refl).
    unfold delete_trades_mock, MockDatabase.getTradeById. rewrite Hfind. cbn [fmap option_fmap option_map snd].
    assert (Hgate : strict_eq (Req.role user) (VStr "student")
                    && negb (strict_eq (get t "userId") (Req.userId user)) = false).
    { destruct (strict_eq (Req.role user) _) eqn:Hr; [|done].
      destruct (strict_eq (get t _) _) eqn:Ho; [done|].
      apply strict_eq_true in Hr. apply strict_eq_false in Ho. by destruct Hmay. }
    rewrite Hgate.
    destruct (deleteTrade_filter (mockDb s) (VStr id) Hmock) as [Hu Ht].
    destruct (MockDatabase.deleteTrade (mockDb s) (VStr id)) as [b db']. cbn in *.
    by rewrite Hu, Ht.
  - cbn [trade_id stored_trades owner] in *. destruct (Hreal eq_refl) as [Hid Huid].
    unfold on_pool.
    rewrite (delete_trades_real_reaches_delete user id (pool s) i t Hid Huid Hfind Hmay).
    cbn. split_and!; [done| |done].
    apply filter_bool. intros r. apply (not_matches_Eq "id").
Qed.

Lemma delete_trades_removes_the_trade_witness :
  let out := delete_trades false (Sample.session Sample.alice) "trade-a" Sample.server in
  status out.1 = 200 ∧ stored_trades false out.2 = [Sample.trade_b].
Proof.
  destruct (delete_trades_removes_the_trade false (Sample.session Sample.alice) "trade-a"
              Sample.server 0%nat Sample.trade_a) as (H1 & H2 & _).
  - done.
  - intros _. split; apply (bool_decide_unpack _); by vm_compute.
  - reflexivity.
  - intros [_ H]. by apply H.
  - split; [by rewrite H1|]. rewrite H2. reflexivity.
Defined.

(** ** The identity of a trade under PATCH *)

(** A text the application writes names the column it spells. *)
Lemma written_ident (c : string) :
  c ∈ written → Sql.is_name c = true ∧ (Sql.ident c ∈ protected_columns → c ∈ protected_columns).
Proof.
  revert c. apply Forall_forall. unfold written.
  repeat (apply Forall_cons; split;
          [split; [reflexivity|intros H; revert H; apply (bool_decide_unpack _); by vm_compute]|]).
  constructor.
Qed.

(** A key that is not blocked is not mapped to the name of an identity
    column. *)
Lemma mapped_safe (k : string) :
  k ∉ blockedFields → mapped k ∈ written → Sql.ident (mapped k) ∉ protected_columns.
Proof.
  intros Hb Hw Hin. apply (written_ident _ Hw) in Hin. clear Hw.
  apply Hb. revert Hin. unfold mapped, field, columnMap. cbn [list_find fst snd].
  repeat (destruct (decide (_ = k)) as [<-|?];
          [cbn; intros Hin;
           first [ by (apply (bool_decide_unpack _); vm_compute)
                 | by (exfalso; revert Hin; apply (bool_decide_unpack _); vm_compute) ]|]).
  cbn [fmap option_fmap option_map]. unfold protected_columns.
  destruct (bool_decide (k ∈ inherited)).
  { unfold native. intros Hin.
    repeat (apply elem_of_cons in Hin as [Hin|Hin]; [by destruct (String.eqb k _)|]).
    by apply elem_of_nil in Hin. }
  destruct (String.eqb k "__proto__").
  { intros Hin. exfalso. revert Hin. apply (bool_decide_unpack _). by vm_compute. }
  intros Hin.
  repeat (apply elem_of_cons in Hin as [->|Hin];
          [apply (bool_decide_unpack _); by vm_compute|]).
  by apply elem_of_nil in Hin.
Qed.

(** The keys that the rebuilt body holds are keys of the body that are not
    blocked. *)
Lemma set_property_keys (acc : entries) (k : string) (v : value) (c : string) :
  c ∈ (set_property acc k v).*1 → c ∈ acc.*1 ∨ c = k.
Proof.
  unfold set_property. destruct (String.eqb k "__proto__"); [by left|].
  case_bool_decide as Hk.
  - intros (e & -> & He)%list_elem_of_fmap.
    apply list_elem_of_fmap in He as (e0 & -> & He0).
    destruct (String.eqb_spec e0.1 k) as [<-|Hne]; cbn.
    + left. apply list_elem_of_fmap. by exists e0.
    + left. apply list_elem_of_fmap. by exists e0.
  - rewrite fmap_app. intros [H|H]%elem_of_app; [by left|right].
    cbn in H. by apply list_elem_of_singleton in H.
Qed.

Lemma filteredUpdates_keys (updates : entries) (c : string) :
  c ∈ (filteredUpdates updates).*1 → c ∉ blockedFields.
Proof.
  unfold filteredUpdates.
  assert (Hgen : ∀ l acc,
    Forall (λ e : string * value, e.1 ∉ blockedFields) l →
    Forall (λ k, k ∉ blockedFields) acc.*1 →
    Forall (λ k, k ∉ blockedFields)
      (foldl (λ acc e, set_property acc e.1 e.2) acc l).*1).
  { induction l as [|e l IH]; intros acc Hl Hacc; [done|]. cbn [foldl].
    apply Forall_cons in Hl as [He Hl]. apply IH; [done|].
    apply Forall_forall. intros k [Hk| ->]%set_property_keys; [|done].
    by apply (proj1 (Forall_forall _ _) Hacc). }
  intros Hc. refine (proj1 (Forall_forall _ _) (Hgen _ [] _ _) c Hc); [|constructor].
  apply Forall_forall. by intros e [He _]%list_elem_of_filter.
Qed.

Section Preservation.

Context {A B : Type} (R : Sql.db → Sql.db → Prop).
Hypothesis R_refl : ∀ d, R d d.
Hypothesis R_trans : ∀ d1 d2 d3, R d1 d2 → R d2 d3 → R d1 d3.

Lemma preserves_ret (a : A) : preserves R (mret a : Sql.M A).
Proof. intros d res d' [= _ <-]. apply R_refl. Qed.

Lemma preserves_throw (e : Sql.error) : preserves R (Sql.throw e : Sql.M A).
Proof. intros d res d' [= _ <-]. apply R_refl. Qed.

Lemma preserves_bind (m : Sql.M A) (f : A → Sql.M B) :
  preserves R m → (∀ a, preserves R (f a)) → preserves R (m ≫= f).
Proof.
  intros Hm Hf d res d' Hrun.
  apply bind_inv in Hrun as [(a & d1 & Hm1 & Hf1)|(e & Hm1 & _)].
  - eapply R_trans; [by eapply Hm|by eapply Hf].
  - by eapply Hm.
Qed.

Lemma preserves_try_catch (m : Sql.M A) (h : Sql.error → Sql.M A) :
  preserves R m → (∀ e, preserves R (h e)) → preserves R (Sql.try_catch m h).
Proof.
  intros Hm Hh d res d' Hrun.
  apply try_catch_inv in Hrun as [(a & Hm1 & _)|(e & d1 & Hm1 & Hh1)].
  - by eapply Hm.
  - eapply R_trans; [by eapply Hm|by eapply Hh].
Qed.

End Preservation.

Lemma same_identities_refl (id : string) (d : Sql.db) : same_identities id d d.
Proof.
  split_and!; [done|done|]. by apply Forall_Forall2_diag, Forall_forall.
Qed.

Lemma same_identities_trans (id : string) (d1 d2 d3 : Sql.db) :
  same_identities id d1 d2 → same_identities id d2 d3 → same_identities id d1 d3.
Proof.
  intros (Hu1 & Hc1 & Hr1) (Hu2 & Hc2 & Hr2). split_and!; [congruence|congruence|].
  eapply Forall2_trans; [|exact Hr1|exact Hr2].
  intros x y z [Hxy Hxy'] [Hyz Hyz']. split; [congruence|].
  intros Hx. rewrite <- (Hxy' Hx). apply Hyz'.
  assert (Sql.cell y "id" = Sql.cell x "id") as -> by (by injection Hxy). done.
Qed.

Lemma same_identities_tables (id : string) (d d' : Sql.db) :
  Sql.users d' = Sql.users d → Sql.trades d' = Sql.trades d → same_identities id d d'.
Proof.
  intros Hu Ht. split_and!; [done|by rewrite Ht|]. rewrite Ht.
  by apply Forall_Forall2_diag, Forall_forall.
Qed.

Lemma same_identities_read (id : string) (st : Sql.stmt) :
  Sql.modelled st = true → is_write st = false →
  preserves (same_identities id) (Sql.query st).
Proof.
  intros Hfrag Hst d res d' Hrun.
  destruct (query_tables_on_read st d d' res Hfrag Hrun Hst) as [Hu Ht].
  by apply same_identities_tables.
Qed.

Lemma identity_of_assign (sets : entries) (r : obj) :
  Forall (λ c, Sql.ident c ∉ protected_columns) sets.*1 →
  identity_of (Sql.assign sets r) = identity_of r.
Proof.
  intros Hsafe.
  assert (Hk : ∀ k, k ∈ protected_columns → Sql.cell (Sql.assign sets r) k = Sql.cell r k).
  { intros k Hk. unfold Sql.cell, get. f_equal. f_equal. apply assign_notin.
    intros (c & -> & Hc)%list_elem_of_fmap.
    by apply (proj1 (Forall_forall _ _) Hsafe c). }
  unfold identity_of. rewrite !Hk; [done|..]; apply (bool_decide_unpack _); by vm_compute.
Qed.

Lemma same_identities_update (es : list entry) (now : Z) (id : string) :
  es ≠ [] → Sql.modelled (update_of es now id) = true →
  Forall (λ e, Sql.ident (column e) ∉ protected_columns) es →
  preserves (same_identities id) (Sql.query (update_of es now id)).
Proof.
  intros Hes Hfrag Hsafe d res d' Hrun.
  destruct (Sql.unknown_column (Sql.trades d) (Sql.statement_columns (update_of es now id)))
    as [c|] eqn:Hc.
  - rewrite (query_update_of_throw _ _ _ _ c Hes Hfrag Hc) in Hrun. injection Hrun as _ <-.
    by apply same_identities_tables.
  - destruct (query_update_of_ok _ _ _ _ Hes Hfrag Hc) as [rs Hok]. rewrite Hok in Hrun.
    injection Hrun as _ <-. split_and!; [done|done|].
    cbn [Sql.set_rows Sql.trades Sql.rows Sql.logged].
    apply (Forall2_map_same _
             (λ r, if Sql.matches [Sql.Eq "id" (VStr id)] r
                   then Sql.assign (set_clause es ++ [("updated_at", VNum now)]) r
                   else r)).
    intros r. cbv beta.
    destruct (Sql.matches [Sql.Eq "id" (VStr id)] r) eqn:Hm; [|by split].
    apply matches_id in Hm. split; [|done].
    apply identity_of_assign. rewrite fmap_app. apply Forall_app. split.
    + unfold set_clause. rewrite <- list_fmap_compose. apply Forall_fmap.
      eapply Forall_impl; [exact Hsafe|]. by intros e He.
    + repeat constructor. apply (bool_decide_unpack _). by vm_compute.
Qed.

Lemma patch_entries_safe (updates : entries) :
  Forall (λ e, column e ∈ written) (patch_entries updates) →
  Forall (λ e, Sql.ident (column e) ∉ protected_columns) (patch_entries updates).
Proof.
  intros Hw. apply Forall_forall. intros e He.
  pose proof (proj1 (Forall_forall _ _) Hw e He) as Hcol.
  unfold patch_entries in He. apply list_elem_of_fmap in He as (kv & -> & Hkv).
  cbn [column to_entry] in *. apply mapped_safe; [|done].
  apply (filteredUpdates_keys updates). apply list_elem_of_fmap. by exists kv.
Qed.

Lemma written_in_fragment (es : list entry) (now : Z) (id : string) :
  Forall (λ e, column e ∈ written) es → Sql.modelled (update_of es now id) = true.
Proof.
  intros Hw. unfold Sql.modelled, update_of. cbn [Sql.statement_columns].
  rewrite forallb_app. apply andb_true_iff. split; [|reflexivity].
  apply forallb_forall. intros c Hc%list_elem_of_In.
  unfold set_clause in Hc. rewrite <- list_fmap_compose in Hc.
  apply list_elem_of_fmap in Hc as (e & -> & He). cbn.
  by apply written_ident, (proj1 (Forall_forall _ _) Hw e He).
Qed.

Lemma patch_trades_real_preserves (now : Z) (user : Req.user) (id : string)
    (updates : entries) :
  Forall (λ e, column e ∈ written) (patch_entries updates) →
  preserves (same_identities id) (patch_trades_real now user id updates).
Proof.
  intros Hw. pose proof (patch_entries_safe updates Hw) as Hsafe.
  pose proof (written_in_fragment _ now id Hw) as Hfrag.
  pose proof (same_identities_refl id) as Hrefl.
  pose proof (same_identities_trans id) as Htrans.
  unfold patch_trades_real. fold (patch_entries updates). cbv zeta.
  apply (preserves_try_catch _ Htrans); [|intros; by apply preserves_ret].
  apply (preserves_bind _ Htrans); [by apply same_identities_read|].
  intros [|trade0 trades]; [by apply preserves_ret|].
  destruct (_ && _); [by apply preserves_ret|].
  destruct (patch_entries updates) as [|e0 es0] eqn:Hsome; [by apply preserves_ret|].
  cbn [length Nat.eqb]. rewrite <- Hsome in *.
  assert (Hne : patch_entries updates ≠ []) by (by rewrite Hsome).
  apply (preserves_bind _ Htrans).
  - apply (preserves_try_catch _ Htrans).
    + apply (preserves_bind _ Htrans); [|intros; by apply preserves_ret].
      by apply (same_identities_update (patch_entries updates)).
    + intros err. destruct (String.eqb _ _); [|by apply preserves_throw].
      fold (reduced_entries updates).
      destruct (reduced_entries updates) as [|e1 es1] eqn:Hred; [by apply preserves_ret|].
      cbn [length Nat.eqb]. rewrite <- Hred in *.
      apply (preserves_bind _ Htrans); [|intros; by apply preserves_ret].
      apply (same_identities_update (reduced_entries updates)).
      * by rewrite Hred.
      * exact (reduced_in_fragment updates now id Hfrag).
      * apply Forall_forall. intros e [_ He]%list_elem_of_filter.
        by apply (proj1 (Forall_forall _ _) Hsafe).
  - intros [r|]; by apply preserves_ret.
Qed.

(** X11: whatever the caller and the id, for a body of scalar values whose
    keys, as far as the handler keeps them, are mapped to column texts that
    the application writes in its own statements, the relational
    PATCH /api/trades/:id leaves the accounts alone, keeps the number and
    order of the trades, leaves every trade with another id as it was, and
    never changes the id, the owner or the creation time of any trade. A
    key mapped to another text is pasted into the statement as it is; what
    the server makes of it is not covered. *)
Theorem patch_trades_keeps_identity (now : Z) (user : Req.user) (id : string)
    (updates : entries) (s : state) :
  Forall (λ e, column e ∈ written) (patch_entries updates) →
  let out := patch_trades false now user id updates s in
  stored_users false out.2 = stored_users false s
  ∧ map identity_of (stored_trades false out.2) = map identity_of (stored_trades false s)
  ∧ Forall2 (λ t t', Sql.cell t "id" ≠ VStr id → t' = t)
      (stored_trades false s) (stored_trades false out.2)
  ∧ mockDb out.2 = mockDb s.
Proof.
  intros Hq. cbv zeta. unfold patch_trades, on_pool.
  destruct (patch_trades_real now user id updates (pool s)) as [res d'] eqn:Hrun.
  apply (patch_trades_real_preserves now user id updates Hq) in Hrun
    as (Hu & _ & Hrows).
  assert (Hgoal : stored_users false (with_pool s d') = stored_users false s
    ∧ map identity_of (stored_trades false (with_pool s d'))
      = map identity_of (stored_trades false s)
    ∧ Forall2 (λ t t', Sql.cell t "id" ≠ VStr id → t' = t)
        (stored_trades false s) (stored_trades false (with_pool s d'))
    ∧ mockDb (with_pool s d') = mockDb s).
  { cbn. split_and!; [by rewrite Hu| | |done].
    - induction Hrows as [|x y l l' [Hxy _] _ IH]; [done|]. cbn. by rewrite Hxy, IH.
    - eapply Forall2_impl; [exact Hrows|]. by intros x y [_ H]. }
  by destruct res.
Qed.

Lemma patch_trades_keeps_identity_witness :
  let updates :=
    [("status", VStr "reviewed"); ("user_id", VStr "student-003");
     ("userId", VStr "student-003"); ("id", VStr "trade-z"); ("date", VNum 0);
     ("__proto__", VNull); ("exit", VNum 101); ("plannedR", VNum 2)] in
  map column (patch_entries updates) = ["status"; "`exit`"; "planned_r"]
  ∧ map identity_of
      (stored_trades false
         (patch_trades false Sample.today (Sample.session Sample.alice) "trade-a" updates
            Sample.server).2)
    = map identity_of (stored_trades false Sample.server).
Proof.
  cbv zeta. split; [reflexivity|].
  apply (patch_trades_keeps_identity Sample.today (Sample.session Sample.alice) "trade-a").
  repeat (apply Forall_cons; split; [apply (bool_decide_unpack _); by vm_compute|]).
  constructor.
Defined.

(** ** Creating a trade *)

Lemma post_trades_real_run (tradeId : string) (now : Z) (user : Req.user) (body : entries)
    (d : Sql.db) :
  let first := Sql.Insert Sql.Trades insert_columns
                 (insert_values tradeId now user body true) in
  let retry := Sql.Insert Sql.Trades fallback_columns
                 (insert_values tradeId now user body false) in
  ∃ t,
    post_trades_real tradeId now user body d =
    match Sql.unknown_column (Sql.trades d) insert_columns with
    | None =>
        (Sql.Ok (reply 201 (Obj t)),
         Sql.set_rows (Sql.logged d first) Sql.Trades
           (Sql.rows (Sql.trades d)
              ++ [Sql.assign (zip insert_columns (insert_values tradeId now user body true)) ∅]))
    | Some _ =>
        match Sql.unknown_column (Sql.trades d) fallback_columns with
        | None =>
            (Sql.Ok (reply 201 (Obj t)),
             Sql.set_rows (Sql.logged (Sql.logged d first) retry) Sql.Trades
               (Sql.rows (Sql.trades d)
                  ++ [Sql.assign (zip fallback_columns
                                    (insert_values tradeId now user body false)) ∅]))
        | Some c =>
            (Sql.Ok (reply_error 500 (Sql.message (Sql.ER_BAD_FIELD_ERROR c))),
             Sql.logged (Sql.logged d first) retry)
        end
    end.
Proof.
  cbv zeta. eexists. unfold post_trades_real. cbv zeta.
  unfold mbind, Sql.M_bind, Sql.try_catch.
  destruct (Sql.unknown_column (Sql.trades d) insert_columns) as [c|] eqn:Hfirst.
  - rewrite (query_insert_throw _ _ _ _ c) by done.
    change (String.eqb (Sql.code (Sql.ER_BAD_FIELD_ERROR c)) "ER_BAD_FIELD_ERROR") with true.
    cbv iota.
    destruct (Sql.unknown_column (Sql.trades d) fallback_columns) as [c'|] eqn:Hretry.
    + rewrite (query_insert_throw _ _ _ _ c') by done. reflexivity.
    + edestruct (query_insert_ok Sql.Trades fallback_columns) as [rs ->];
        [done|exact Hretry|apply (bool_decide_unpack _); by vm_compute|reflexivity|].
      reflexivity.
  - edestruct (query_insert_ok Sql.Trades insert_columns) as [rs ->];
      [done|exact Hfirst|apply (bool_decide_unpack _); by vm_compute|reflexivity|].
    reflexivity.
Qed.

(** X12: POST /api/trades answers 403 to anyone but a student and 400 to a
    body whose asset, direction, entry or sl is missing or falsy (a numeric
    0 included), in both cases before the store is touched. The reply is
    201, 400, 403 or 500; a reply other than 201 leaves accounts and trades
    as they were, and a 201 means the caller is a student, the four fields
    are truthy and exactly one trade was added, last in the store. *)
Theorem post_trades_gates (USE_MOCK_DB : bool) (tradeId : string) (now : Z)
    (user : Req.user) (body : entries) (s : state) :
  let out := post_trades USE_MOCK_DB tradeId now user body s in
  (Req.role user ≠ VStr "student" → out = (reply_error 403 "Students only", s))
  ∧ (Req.role user = VStr "student" →
     truthy (field body "asset") = false ∨ truthy (field body "direction") = false
     ∨ truthy (field body "entry") = false ∨ truthy (field body "sl") = false →
     out = (reply_error 400 "Missing required fields", s))
  ∧ (status out.1 = 201 ∨ status out.1 = 400 ∨ status out.1 = 403 ∨ status out.1 = 500)
  ∧ (status out.1 ≠ 201 → contents out.2 = contents s)
  ∧ (status out.1 = 201 →
     Req.role user = VStr "student"
     ∧ truthy (field body "asset") = true ∧ truthy (field body "direction") = true
     ∧ truthy (field body "entry") = true ∧ truthy (field body "sl") = true
     ∧ (∃ t, stored_trades USE_MOCK_DB out.2 = stored_trades USE_MOCK_DB s ++ [t])
     ∧ stored_users USE_MOCK_DB out.2 = stored_users USE_MOCK_DB s).
Proof.
  cbv zeta. unfold post_trades.
  destruct (strict_eq (Req.role user) (VStr "student")) eqn:Hrole; cbn [negb].
  2:{ apply strict_eq_false in Hrole. cbn. split_and!; auto; by intros. }
  apply strict_eq_true in Hrole.
  destruct (truthy (field body "asset")) eqn:Ha; cbn [negb orb].
  2:{ cbn. split_and!; auto; by intros. }
  destruct (truthy (field body "direction")) eqn:Hd; cbn [negb orb].
  2:{ cbn. split_and!; auto; by intros. }
  destruct (truthy (field body "entry")) eqn:He; cbn [negb orb].
  2:{ cbn. split_and!; auto; by intros. }
  destruct (truthy (field body "sl")) eqn:Hs; cbn [negb orb].
  2:{ cbn. split_and!; auto; by intros. }
  destruct USE_MOCK_DB.
  - cbn. split_and!; auto; try done.
    + by intros _ [|[|[|]]].
    + intros _. split_and!; try done. by eexists.
  - unfold on_pool. destruct (post_trades_real_run tradeId now user body (pool s)) as [t ->].
    destruct (Sql.unknown_column (Sql.trades (pool s)) insert_columns) as [c|].
    + destruct (Sql.unknown_column (Sql.trades (pool s)) fallback_columns) as [c'|].
      * cbn. split_and!; auto; try done. by intros _ [|[|[|]]].
      * cbn. split_and!; auto; try done.
        -- by intros _ [|[|[|]]].
        -- intros _. split_and!; try done. by eexists.
    + cbn. split_and!; auto; try done.
      * by intros _ [|[|[|]]].
      * intros _. split_and!; try done. by eexists.
Qed.

Lemma post_trades_gates_witness :
  post_trades false "trade-c" Sample.today (Sample.session Sample.alice)
    [("asset", VStr "XAUUSD"); ("direction", VStr "short"); ("entry", VNum 0);
     ("sl", VNum 2010)] Sample.server
  = (reply_error 400 "Missing required fields", Sample.server).
Proof.
  apply (post_trades_gates false "trade-c" Sample.today (Sample.session Sample.alice)).
  - reflexivity.
  - right; right; left. reflexivity.
Defined.

Lemma posted_row (tradeId : string) (now : Z) (user : Req.user) (body : entries)
    (optional : bool) :
  let row := Sql.assign (zip (if optional then insert_columns else fallback_columns)
                           (insert_values tradeId now user body optional)) ∅ in
  Sql.cell row "user_id" = Sql.cell_of (Req.userId user)
  ∧ Sql.cell row "id" = VStr tradeId.
Proof.
  cbv zeta. destruct optional.
  - eapply (inserted_row_owner _ _ (VStr tradeId) (Req.userId user)); [reflexivity..| |];
      apply (bool_decide_unpack _); by vm_compute.
  - eapply (inserted_row_owner _ _ (VStr tradeId) (Req.userId user)); [reflexivity..| |];
      apply (bool_decide_unpack _); by vm_compute.
Qed.

(** The row a successful relational POST adds. *)
Lemma post_real_posted (tradeId : string) (now : Z) (user : Req.user) (body : entries)
    (d : Sql.db) :
  let out := post_trades_real tradeId now user body d in
  (∃ r, out.1 = Sql.Ok r ∧ status r = 201) →
  ∃ row,
    Sql.users out.2 = Sql.users d
    ∧ Sql.columns (Sql.trades out.2) = Sql.columns (Sql.trades d)
    ∧ Sql.rows (Sql.trades out.2) = Sql.rows (Sql.trades d) ++ [row]
    ∧ Sql.cell row "user_id" = Sql.cell_of (Req.userId user)
    ∧ Sql.cell row "id" = VStr tradeId
    ∧ "id" ∈ Sql.columns (Sql.trades d).
Proof.
  cbv zeta. intros (r & Hr & Hst).
  destruct (post_trades_real_run tradeId now user body d) as [t Hrun].
  rewrite Hrun in Hr |- *. clear Hrun.
  destruct (Sql.unknown_column (Sql.trades d) insert_columns) as [c|] eqn:Hfirst.
  - destruct (Sql.unknown_column (Sql.trades d) fallback_columns) as [c'|] eqn:Hretry.
    { cbn in Hr. injection Hr as <-. done. }
    destruct (posted_row tradeId now user body false) as [Ho Hi].
    eexists. cbn [fst snd Sql.users Sql.trades Sql.columns Sql.rows Sql.set_rows Sql.logged].
    split_and!; [done|done|done|exact Ho|exact Hi|].
    apply (unknown_column_None _ _ "id" Hretry). apply (bool_decide_unpack _). by vm_compute.
  - destruct (posted_row tradeId now user body true) as [Ho Hi].
    eexists. cbn [fst snd Sql.users Sql.trades Sql.columns Sql.rows Sql.set_rows Sql.logged].
    split_and!; [done|done|done|exact Ho|exact Hi|].
    apply (unknown_column_None _ _ "id" Hfirst). apply (bool_decide_unpack _). by vm_compute.
Qed.

(** X13: a trade that a student has just created is on the student's own
    list: without query parameters, GET /api/trades after the 201 returns
    what it returned before together with one more trade, owned by the
    caller (and, in the relational store, carrying the generated id). *)
Theorem posted_trade_is_listed (USE_MOCK_DB : bool) (tradeId : string) (now : Z)
    (user : Req.user) (body : entries) (q : Query.t) (s : state) :
  Req.role user = VStr "student" →
  Sql.is_null (Req.userId user) = false →
  Query.page q = None → Query.limit q = None → Query.status q = None →
  (USE_MOCK_DB = false →
     "user_id" ∈ Sql.columns (Sql.trades (pool s))
     ∧ "status" ∈ Sql.columns (Sql.trades (pool s))) →
  let posted := post_trades USE_MOCK_DB tradeId now user body s in
  status posted.1 = 201 →
  ∃ t,
    owner USE_MOCK_DB t = Req.userId user
    ∧ (USE_MOCK_DB = true → json posted.1 = Obj t)
    ∧ (USE_MOCK_DB = false → Sql.cell t "id" = VStr tradeId)
    ∧ listed (json (get_trades USE_MOCK_DB user q posted.2).1)
      ≡ₚ listed (json (get_trades USE_MOCK_DB user q s).1) ++ [t].
Proof.
  intros Hrole Huid Hpage Hlimit Hstatus Hcols. cbv zeta. intros Hok.
  assert (Hposted : post_trades USE_MOCK_DB tradeId now user body s
    = if USE_MOCK_DB
      then let '(r, db') := post_trades_mock user body (mockDb s) in (r, with_mockDb s db')
      else on_pool (post_trades_real tradeId now user body) s).
  { revert Hok. unfold post_trades. rewrite Hrole, strict_eq_refl. cbn [negb].
    by destruct (_ || _). }
  rewrite Hposted in Hok |- *. clear Hposted.
  destruct USE_MOCK_DB.
  - clear Hcols. destruct (post_trades_mock_owner user body (mockDb s)) as (t & Hdb & Hjson & Ht).
    destruct (post_trades_mock user body (mockDb s)) as [r db'] eqn:Hpost.
    cbn [fst snd] in *. subst db'. exists t. split_and!; [done|done|done|].
    unfold get_trades, get_trades_mock. cbv zeta. rewrite Hpage, Hlimit, Hstatus.
    cbn [param or_else truthy negb fst json listed MockDatabase.getAllTrades
         mockDb with_mockDb MockDatabase.trades].
    rewrite Hrole, strict_eq_refl. rewrite filter_app.
    rewrite (filter_cons_True _ t) by done. done.
  - destruct (Hcols eq_refl) as [Hu Hs].
    destruct (post_real_posted tradeId now user body (pool s))
      as (row & Husers & Hcolumns & Hrows & Hrow_owner & Hrow_id & Hid).
    { unfold on_pool in Hok.
      destruct (post_trades_real tradeId now user body (pool s)) as [[r|e] d']; [|done].
      by exists r. }
    rewrite (cell_of_value _ Huid) in Hrow_owner.
    set (cols := Sql.columns (Sql.trades (pool s))) in *.
    exists (Sql.project cols row). split_and!; [|done| |].
    + cbn [owner]. by rewrite cell_project.
    + intros _. by rewrite cell_project.
    + destruct (get_trades_shape false user q s) as [Hbare _]; [done|].
      rewrite (Hbare Hpage Hlimit). clear Hbare.
      set (s' := (on_pool (post_trades_real tradeId now user body) s).2).
      assert (Hpool : pool s' = (post_trades_real tradeId now user body (pool s)).2).
      { unfold s', on_pool. by destruct (post_trades_real _ _ _ _ _) as [[?|?] ?]. }
      destruct (get_trades_shape false user q s') as [Hbare _].
      { intros _. rewrite Hpool, Hcolumns. done. }
      rewrite (Hbare Hpage Hlimit). clear Hbare. cbn [json listed].
      unfold trades_results. rewrite Hpool, Hcolumns, Hrows. fold cols.
      assert (Hm : Sql.matches (trades_where user q) row = true).
      { unfold trades_where. rewrite Hrole, strict_eq_refl, Hstatus. cbn [param truthy app].
        by apply (matches_Eq_iff "user_id"). }
      etrans; [apply Permutation_map, order_by_Permutation|].
      rewrite List.filter_app, map_app. cbn [List.filter]. rewrite Hm. cbn [map].
      apply Permutation_app_tail. symmetry. apply Permutation_map, order_by_Permutation.
Qed.

Lemma posted_trade_is_listed_witness :
  let body := [("asset", VStr "XAUUSD"); ("direction", VStr "short");
               ("entry", VNum 2000); ("sl", VNum 2010)] in
  let posted := post_trades false "trade-c" Sample.today (Sample.session Sample.alice)
                  body Sample.server in
  ∃ t,
    owner false t = VStr "student-002"
    ∧ listed (json (get_trades false (Sample.session Sample.alice) Sample.no_query
                      posted.2).1)
      ≡ₚ listed (json (get_trades false (Sample.session Sample.alice) Sample.no_query
                         Sample.server).1) ++ [t].
Proof.
  cbv zeta.
  destruct (posted_trade_is_listed false "trade-c" Sample.today
              (Sample.session Sample.alice)
              [("asset", VStr "XAUUSD"); ("direction", VStr "short");
               ("entry", VNum 2000); ("sl", VNum 2010)]
              Sample.no_query Sample.server) as (t & Ho & _ & _ & Hl); try reflexivity.
  - intros _. split; apply (bool_decide_unpack _); by vm_compute.
  - exists t. by split.
Defined.

(** ** The authorization header *)

Section Header.

Variable jwt_verify : string → string → Z → option Req.user.
Variable JWT_SECRET : string.

(** X14: the middleware takes the second space-separated word of the
    Authorization header as the token and never looks at the first: any
    scheme word does, and so does a header with further words after the
    token. A header that is absent, has no space, or has nothing between the
    first space and the next is answered with 401 [No token provided]; a
    token that verifies lets the request through with the claims of the
    token. *)
Theorem bearer_reads_second_word (scheme token rest : string) (s : state) (now : Z) :
  spaceless scheme = true → spaceless token = true →
  bearer (Some (scheme +:+ " " +:+ token)) = VStr token
  ∧ bearer (Some (scheme +:+ " " +:+ token +:+ " " +:+ rest)) = VStr token
  ∧ verifyToken jwt_verify JWT_SECRET s now None
    = Rejected (reply_error 401 "No token provided")
  ∧ verifyToken jwt_verify JWT_SECRET s now (Some scheme)
    = Rejected (reply_error 401 "No token provided")
  ∧ verifyToken jwt_verify JWT_SECRET s now (Some (scheme +:+ " " +:+ token))
    = (if String.eqb token EmptyString
       then Rejected (reply_error 401 "No token provided")
       else match jwt_verify token JWT_SECRET now with
            | Some decoded => Next decoded
            | None => Rejected (reply_error 401 "Invalid token")
            end)
  ∧ (token ≠ EmptyString →
     verifyToken jwt_verify JWT_SECRET s now (Some (scheme +:+ " " +:+ token))
     = verifyToken jwt_verify JWT_SECRET s now (Some ("Bearer " +:+ token))).
Proof.
  intros Hs Ht.
  assert (H1 : ∀ w, spaceless w = true →
                    bearer (Some (w +:+ " " +:+ token)) = VStr token).
  { intros w Hw. unfold bearer. change (" " +:+ token) with (String " " token).
    by rewrite split_first_word, split_spaceless. }
  assert (Hv : ∀ t, bearer (Some (scheme +:+ " " +:+ t)) = VStr t →
            verifyToken jwt_verify JWT_SECRET s now (Some (scheme +:+ " " +:+ t))
            = if String.eqb t EmptyString
              then Rejected (reply_error 401 "No token provided")
              else match jwt_verify t JWT_SECRET now with
                   | Some decoded => Next decoded
                   | None => Rejected (reply_error 401 "Invalid token")
                   end).
  { intros t Hb. unfold verifyToken. rewrite Hb. cbn [truthy]. by destruct (String.eqb t _). }
  split_and!.
  - by apply H1.
  - unfold bearer. change (" " +:+ token +:+ " " +:+ rest)
      with (String " " (token +:+ String " " rest)).
    by rewrite split_first_word, split_first_word.
  - done.
  - unfold verifyToken, bearer. by rewrite split_spaceless.
  - apply Hv. by apply H1.
  - intros Hne. unfold verifyToken.
    change ("Bearer " +:+ token) with ("Bearer" +:+ " " +:+ token).
    by rewrite !H1.
Qed.

End Header.

Lemma bearer_reads_second_word_witness :
  bearer (Some "Basic token-of-alice") = VStr "token-of-alice"
  ∧ verifyToken Sample.jwt_verify "secret" Sample.server Sample.today
      (Some "Basic token-of-alice")
    = Next (Sample.session Sample.alice).
Proof.
  destruct (bearer_reads_second_word Sample.jwt_verify "secret" "Basic" "token-of-alice"
              EmptyString Sample.server Sample.today eq_refl eq_refl)
    as (H1 & _ & _ & _ & _ & H6).
  split; [exact H1|]. etrans; [exact (H6 ltac:(done))|reflexivity].
Defined.

(** ** Listing the accounts *)

Section Returns.

Context {A B : Type}.

Lemma returns_ret (P : A → Prop) (a : A) : P a → returns P (mret a : Sql.M A).
Proof. by intros Ha d a' d' [= <- _]. Qed.

Lemma returns_throw (P : A → Prop) (e : Sql.error) : returns P (Sql.throw e : Sql.M A).
Proof. by intros d a d' [=]. Qed.

Lemma returns_bind (Q : A → Prop) (P : B → Prop) (m : Sql.M A) (f : A → Sql.M B) :
  returns Q m → (∀ a, Q a → returns P (f a)) → returns P (m ≫= f).
Proof.
  intros Hm Hf d b d' Hrun.
  apply bind_inv in Hrun as [(a & d1 & Hm1 & Hf1)|(e & _ & [=])].
  eapply Hf; [by eapply Hm|done].
Qed.

Lemma returns_try_catch (P : A → Prop) (m : Sql.M A) (h : Sql.error → Sql.M A) :
  returns P m → (∀ e, returns P (h e)) → returns P (Sql.try_catch m h).
Proof.
  intros Hm Hh d a d' Hrun.
  apply try_catch_inv in Hrun as [(a' & Hm1 & [= <-])|(e & d1 & _ & Hh1)].
  - by eapply Hm.
  - by eapply Hh.
Qed.

End Returns.

Lemma returns_select (cols : list string) tbl w o lo :
  Sql.modelled (Sql.Select (Some cols) tbl w o lo) = true →
  returns (Forall (λ u : obj, ∀ k, k ∉ map Sql.ident cols → get u k = VUndefined))
    (Sql.query (Sql.Select (Some cols) tbl w o lo)).
Proof.
  intros Hfrag d rs d' Hrun. apply select_rows in Hrun as (_ & _ & _ & Hrs); [|done].
  eapply Forall_impl; [exact Hrs|]. intros u (r & _ & _ & ->) k Hk.
  by apply project_missing.
Qed.

Lemma same_tables_refl (d : Sql.db) : same_tables d d.
Proof. done. Qed.

Lemma same_tables_trans (d1 d2 d3 : Sql.db) :
  same_tables d1 d2 → same_tables d2 d3 → same_tables d1 d3.
Proof. intros [??] [??]. split; congruence. Qed.

Lemma same_tables_read (st : Sql.stmt) :
  Sql.modelled st = true → is_write st = false → preserves same_tables (Sql.query st).
Proof. intros Hfrag Hst d res d' Hrun. by eapply query_tables_on_read. Qed.

Lemma get_users_real_reads (q : Query.t) : preserves same_tables (get_users_real q).
Proof.
  pose proof same_tables_refl as Hrefl. pose proof same_tables_trans as Htrans.
  unfold get_users_real. cbv zeta.
  apply (preserves_try_catch _ Htrans); [|intros; by apply preserves_ret].
  destruct (negb _).
  - apply (preserves_bind _ Htrans); [apply same_tables_read; [in_fragment|done]|].
    intros; by apply preserves_ret.
  - apply (preserves_bind _ Htrans); [apply same_tables_read; [in_fragment|done]|].
    intros [|c rest]; [by apply preserves_throw|].
    apply (preserves_bind _ Htrans); [apply same_tables_read; [in_fragment|done]|].
    intros; by apply preserves_ret.
Qed.

Lemma get_users_real_columns (q : Query.t) :
  returns (λ r, Forall (λ u : obj, ∀ k, k ∉ users_columns → get u k = VUndefined)
                  (listed (json r)))
    (get_users_real q).
Proof.
  unfold get_users_real. cbv zeta.
  apply returns_try_catch; [|intros e; by apply returns_ret].
  destruct (negb _).
  - eapply returns_bind; [apply returns_select; in_fragment|].
    intros users Hu. by apply returns_ret.
  - eapply (returns_bind (λ _, True)); [done|].
    intros [|c rest] _; [by apply returns_throw|].
    eapply returns_bind; [apply returns_select; in_fragment|].
    intros users Hu. by apply returns_ret.
Qed.

(** X15: GET /api/users answers 403 to anyone but an admin or a coach, and
    it only reads: whatever the reply, accounts and trades are as before.
    In the relational store every listed account has the six selected
    columns and nothing else, so no password hash leaves the server; the
    in-memory store hands out its records as they are stored. *)
Theorem get_users_reads_and_hides_hashes (USE_MOCK_DB : bool) (user : Req.user)
    (q : Query.t) (s : state) :
  let out := get_users USE_MOCK_DB user q s in
  (Req.role user ≠ VStr "admin" → Req.role user ≠ VStr "coach" →
   out = (reply_error 403 "Admin or coach only", s))
  ∧ contents out.2 = contents s
  ∧ (USE_MOCK_DB = false →
     Forall (λ u, ∀ k, k ∉ users_columns → get u k = VUndefined) (listed (json out.1)))
  ∧ (USE_MOCK_DB = true →
     Req.role user = VStr "admin" ∨ Req.role user = VStr "coach" →
     Query.page q = None → Query.limit q = None →
     Query.status q = None → Query.role q = None →
     out.1 = reply 200 (Arr (MockDatabase.users (mockDb s)))).
Proof.
  cbv zeta. unfold get_users.
  destruct (strict_eq (Req.role user) (VStr "admin")) eqn:Ha.
  2: destruct (strict_eq (Req.role user) (VStr "coach")) eqn:Hc.
  3:{ apply strict_eq_false in Ha, Hc. cbn. split_and!; try done. by intros _ [|]. }
  all: cbn [orb negb].
  all: destruct USE_MOCK_DB;
    [ cbn [fst snd]; split_and!; try done;
      [ intros Hne; apply strict_eq_true in Ha || apply strict_eq_true in Hc; done
      | intros _ _ Hp Hl Hs Hr; unfold get_users_mock; cbv zeta;
        by rewrite Hp, Hl, Hs, Hr ]
    | ].
  all: unfold on_pool;
    destruct (get_users_real q (pool s)) as [[r|e] d'] eqn:Hrun; cbn [fst snd];
    pose proof (get_users_real_reads q _ _ _ Hrun) as [Hu Ht];
    (split_and!; [ | by apply contents_with_pool | | done ]).
  all: try (intros _; by apply (get_users_real_columns q _ _ _ Hrun)).
  all: try (intros _; by constructor).
  all: intros H1 H2; apply strict_eq_true in Ha || apply strict_eq_true in Hc; done.
Qed.

Lemma get_users_reads_and_hides_hashes_witness :
  Forall (λ u, get u "password_hash" = VUndefined)
    (listed (json (get_users false (Sample.session Sample.admin) Sample.no_query
                     Sample.server).1)).
Proof.
  destruct (get_users_reads_and_hides_hashes false (Sample.session Sample.admin)
              Sample.no_query Sample.server) as (_ & _ & H & _).
  eapply Forall_impl; [exact (H eq_refl)|]. intros u Hu. apply Hu.
  apply (bool_decide_unpack _). by vm_compute.
Defined.

(** ** Walking through the pages *)

Lemma pages_concat {A} (l : list A) (size n : nat) :
  concat (map (λ i, take size (drop (i * size) l)) (seq 0 n)) = take (n * size) l.
Proof.
  induction n as [|n IH]; [done|].
  rewrite seq_S, map_app, concat_app, IH. cbn [map concat plus]. rewrite app_nil_r.
  rewrite take_take_drop. f_equal. lia.
Qed.

Lemma map_by_index {A B} (f : A → B) (g : nat → B) (l : list A) :
  (∀ i x, l !! i = Some x → f x = g i) → map f l = map g (seq 0 (length l)).
Proof.
  induction l as [|x l IH] using rev_ind; intros H; [done|].
  rewrite length_app, Nat.add_1_r, seq_S, !map_app. cbn [map plus]. f_equal.
  - apply IH. intros i y Hi. apply H. by apply lookup_app_l_Some.
  - f_equal. apply H. rewrite lookup_app_r by done. by rewrite Nat.sub_diag.
Qed.

Lemma page_of_nat (results : list obj) (i : nat) (limit : Z) :
  1 ≤ limit →
  page_of results (Z.of_nat (S i)) limit
  = take (Z.to_nat limit) (drop (i * Z.to_nat limit) results).
Proof.
  intros Hl. unfold page_of. do 2 f_equal.
  replace (Z.of_nat (S i) - 1) with (Z.of_nat i) by lia.
  rewrite Z2Nat.inj_mul by lia. by rewrite Nat2Z.id.
Qed.

Lemma trades_results_status (USE_MOCK_DB : bool) (user : Req.user) (q : Query.t) (s : state) :
  trades_results USE_MOCK_DB user q s
  = trades_results USE_MOCK_DB user (for_status (Query.status q)) s.
Proof. done. Qed.

(** X16: in the in-memory mode the pages of GET /api/trades tile the
    result: for a page size of at least 1, the requests for the pages
    1, 2, ..., totalPages of one status filter return, one after the other,
    exactly the trades that the request without pagination returns, in the
    same order, none twice and none missing (the number of trades plus the
    page size staying within 2^53, where the page arithmetic is exact). *)
Theorem pages_tile_the_results (user : Req.user)
    (st : option string) (limit : Z) (qs : list Query.t) (s : state) :
  1 ≤ limit →
  (∀ i q, qs !! i = Some q →
     Query.status q = st
     ∧ (supplied (Query.page q) = true ∨ supplied (Query.limit q) = true)
     ∧ parseInt_or (Query.page q) 1 = Fin (Z.of_nat (S i))
     ∧ parseInt_or (Query.limit q) 50 = Fin limit) →
  let all := listed (json (get_trades true user (for_status st) s).1) in
  Z.of_nat (length all) + limit ≤ 2 ^ 53 →
  Z.of_nat (length qs) = ceil_div (Z.of_nat (length all)) limit →
  concat (map (λ q, listed (json (get_trades true user q s).1)) qs) = all.
Proof.
  intros Hlimit Hqs. cbv zeta.
  assert (Hcols : true = false →
            "user_id" ∈ Sql.columns (Sql.trades (pool s))
            ∧ "status" ∈ Sql.columns (Sql.trades (pool s))) by intros [=].
  destruct (get_trades_shape true user (for_status st) s Hcols) as [Hbare _].
  rewrite (Hbare eq_refl eq_refl). cbn [json listed]. clear Hbare.
  set (results := trades_results true user (for_status st) s).
  intros Hbound Hn.
  change (listed (json (reply 200 (Arr results)))) with results in Hbound, Hn.
  pose proof (ceil_div_bounds (Z.of_nat (length results)) limit ltac:(lia)) as Hcd.
  rewrite (map_by_index _ (λ i, take (Z.to_nat limit) (drop (i * Z.to_nat limit) results))).
  - rewrite pages_concat. apply take_ge.
    apply Nat2Z.inj_le. rewrite Nat2Z.inj_mul, Z2Nat.id, Hn by lia. apply Hcd.
  - intros i q Hq. destruct (Hqs i q Hq) as (Hst & Hsup & Hpage & Hlim).
    apply lookup_lt_Some in Hq.
    destruct (get_trades_shape true user q s Hcols) as [_ Hpaged].
    cbv zeta in Hpaged.
    assert (Z.of_nat (S i) * limit ≤ Z.of_nat (length qs) * limit)
      by (apply Z.mul_le_mono_nonneg_r; lia).
    rewrite (Hpaged (Z.of_nat (S i)) limit); [|done|done|done|lia|lia|lia].
    cbn [json listed].
    rewrite (trades_results_status _ _ q), Hst.
    by apply page_of_nat.
Qed.

Lemma pages_tile_the_results_witness :
  listed (json (get_trades true (Sample.session Sample.admin) (Sample.paged "1" "1")
                  Sample.server).1)
  ++ listed (json (get_trades true (Sample.session Sample.admin) (Sample.paged "2" "1")
                     Sample.server).1)
  = [Sample.trade_a; Sample.trade_b].
Proof.
  pose proof (pages_tile_the_results (Sample.session Sample.admin) None 1
                [Sample.paged "1" "1"; Sample.paged "2" "1"] Sample.server) as H.
  cbv zeta in H. cbn [map concat] in H. rewrite app_nil_r in H. rewrite H; [reflexivity|..].
  - done.
  - intros [|[|i]] q Hq; cbn in Hq; [| |done]; injection Hq as <-;
      (split_and!; [reflexivity|left; reflexivity|reflexivity|reflexivity]).
  - by vm_compute.
  - reflexivity.
Defined.

(** ** The clean-up, run again *)

Section CleanUp.

Variable USE_MOCK_DB : bool.

Lemma cleanup_job_tables (now : Z) (d : Sql.db) :
  Sql.users (cleanup_job now d).2 = Sql.users d
  ∧ Sql.trades (cleanup_job now d).2
    = match Sql.unknown_column (Sql.trades d) (Sql.statement_columns (cleanup_statement now)) with
      | None =>
          {| Sql.columns := Sql.columns (Sql.trades d);
             Sql.rows := map (λ t, if eligible now t then swept now t else t)
                           (Sql.rows (Sql.trades d)) |}
      | Some _ => Sql.trades d
      end.
Proof.
  unfold cleanup_job, Sql.try_catch, mbind, Sql.M_bind.
  destruct (Sql.unknown_column _ _) as [c|] eqn:Hc.
  - unfold cleanup_statement in *.
    rewrite (query_update_throw Sql.Trades
               [("chart_before_url", VNull); ("chart_after_url", VNull);
                ("updated_at", VNum now)]
               [Sql.Le "created_at" (VNum (now - seven_days));
                Sql.Or (Sql.IsNotNull "chart_before_url")
                  (Sql.IsNotNull "chart_after_url")] d c eq_refl Hc). done.
  - unfold cleanup_statement in *.
    destruct (query_update_ok Sql.Trades
                [("chart_before_url", VNull); ("chart_after_url", VNull);
                 ("updated_at", VNum now)]
                [Sql.Le "created_at" (VNum (now - seven_days));
                 Sql.Or (Sql.IsNotNull "chart_before_url")
                   (Sql.IsNotNull "chart_after_url")] d eq_refl Hc) as [rs Hq].
    rewrite Hq.
    match goal with |- context [Sql.query ?st ?d] =>
      destruct (Sql.query st d) as [[rs'|e] d'] eqn:Hsum;
      (apply query_tables_on_read in Hsum as [Hu Ht]; [|done..])
    end.
    all: unfold mret, Sql.M_ret; cbn [snd]; rewrite Hu, Ht.
    all: cbn [Sql.set_rows Sql.trades Sql.users Sql.logged]; split; [done|f_equal].
    all: apply map_ext; intros t; rewrite cleanup_matches; by destruct (eligible now t).
Qed.

Lemma swept_not_eligible (now later : Z) (t : obj) : eligible later (swept now t) = false.
Proof.
  unfold eligible, swept.
  assert (H1 : Sql.cell (<["updated_at":=VNum now]>
                 (<["chart_after_url":=VNull]> (<["chart_before_url":=VNull]> t)))
                 "chart_before_url" = VNull).
  { unfold Sql.cell, get. rewrite !lookup_insert_ne by done. by rewrite lookup_insert_eq. }
  assert (H2 : Sql.cell (<["updated_at":=VNum now]>
                 (<["chart_after_url":=VNull]> (<["chart_before_url":=VNull]> t)))
                 "chart_after_url" = VNull).
  { unfold Sql.cell, get. rewrite lookup_insert_ne by done. by rewrite lookup_insert_eq. }
  rewrite H1, H2. destruct (Sql.cell _ "created_at"); try done. apply andb_false_r.
Qed.

Lemma sweep_once (now : Z) (l : list obj) :
  map (λ t, if eligible now t then swept now t else t)
    (map (λ t, if eligible now t then swept now t else t) l)
  = map (λ t, if eligible now t then swept now t else t) l.
Proof.
  rewrite map_map. apply map_ext. intros t. destruct (eligible now t) eqn:He.
  - by rewrite swept_not_eligible.
  - by rewrite He.
Qed.

Lemma sweep_columns_unknown (t : Sql.table) (now : Z) :
  ¬ Forall (λ c, c ∈ Sql.columns t) sweep_columns →
  ∃ c, Sql.unknown_column t (Sql.statement_columns (cleanup_statement now)) = Some c.
Proof.
  intros Hnot. destruct (Sql.unknown_column _ _) as [c|] eqn:Hc; [by exists c|].
  exfalso. apply Hnot. unfold sweep_columns.
  repeat (apply Forall_cons; split;
          [match goal with |- ?c ∈ _ => apply (unknown_column_None _ _ c Hc) end;
           apply (bool_decide_unpack _); by vm_compute|]).
  apply Forall_nil_2.
Qed.

(** X17: the clean-up is idempotent and all-or-nothing. A second run at
    the same clock reading changes nothing; after a run no trade is left
    that the sweep applies to; a run changes no cell of any trade other
    than the two chart columns and the modification stamp; and when the
    trades table lacks one of the columns the statement names, the run
    changes nothing at all. *)
Theorem cleanup_is_idempotent (now : Z) (s : state) :
  let once := cron_tick USE_MOCK_DB now s in
  contents (cron_tick USE_MOCK_DB now once) = contents once
  ∧ Forall2 (λ t t', ∀ k, k ∉ swept_columns → t' !! k = t !! k)
      (stored_trades false s) (stored_trades false once)
  ∧ (USE_MOCK_DB = false →
     Forall (λ c, c ∈ Sql.columns (Sql.trades (pool s))) sweep_columns →
     Forall (λ t, eligible now t = false) (stored_trades false once))
  ∧ (¬ Forall (λ c, c ∈ Sql.columns (Sql.trades (pool s))) sweep_columns →
     contents once = contents s).
Proof.
  cbv zeta. unfold cron_tick. destruct USE_MOCK_DB; cbn [negb].
  { split_and!; try done. by apply Forall_Forall2_diag, Forall_forall. }
  unfold contents, stored_trades. cbn [mockDb pool with_pool].
  destruct (cleanup_job_tables now (pool s)) as [Hu Ht].
  destruct (cleanup_job_tables now (cleanup_job now (pool s)).2) as [Hu' Ht'].
  rewrite Hu', Ht', Hu, Ht. clear Hu' Ht' Hu Ht.
  destruct (Sql.unknown_column (Sql.trades (pool s)) _) as [c|] eqn:Hc.
  - rewrite Hc. split_and!; try done.
    + by apply Forall_Forall2_diag, Forall_forall.
    + intros _ Hcols. by rewrite sweep_columns_known in Hc.
  - cbn [Sql.columns Sql.rows].
    assert (Hc' : Sql.unknown_column
              {| Sql.columns := Sql.columns (Sql.trades (pool s));
                 Sql.rows := map (λ t, if eligible now t then swept now t else t)
                               (Sql.rows (Sql.trades (pool s))) |}
              (Sql.statement_columns (cleanup_statement now)) = None) by exact Hc.
    rewrite Hc'. cbn [Sql.columns Sql.rows]. rewrite sweep_once. split_and!; [done| | |].
    + apply Forall2_fmap_r, Forall_Forall2_diag, Forall_forall. intros t _ k Hk.
      destruct (eligible now t); [|done]. unfold swept.
      rewrite !lookup_insert_ne; [done|..]; intros <-; apply Hk;
        apply (bool_decide_unpack _); by vm_compute.
    + intros _ _. apply Forall_fmap, Forall_forall. intros t _. cbn.
      destruct (eligible now t) eqn:He; [apply swept_not_eligible|done].
    + intros Hnot. destruct (sweep_columns_unknown _ now Hnot) as [c Hsome]. congruence.
Qed.

End CleanUp.

Lemma cleanup_is_idempotent_witness :
  Forall (λ t, eligible Sample.today t = false)
    (stored_trades false (cron_tick false Sample.today SampleSweep.server))
  ∧ contents (cron_tick false Sample.today Sample.old_server) = contents Sample.old_server.
Proof.
  destruct (cleanup_is_idempotent false Sample.today SampleSweep.server) as (_ & _ & H & _).
  destruct (cleanup_is_idempotent false Sample.today Sample.old_server) as (_ & _ & _ & H').
  split.
  - apply H; [done|]. apply (bool_decide_unpack _). by vm_compute.
  - apply H'. apply (bool_decide_unpack _). by vm_compute.
Defined.

(** ** The store wrappers on an id that nothing has *)

Lemma with_mockDb_same (s : state) : with_mockDb s (mockDb s) = s.
Proof. by destruct s. Qed.

Lemma none_matches (id : string) (rows : list obj) :
  Forall (λ r, Sql.cell r "id" ≠ VStr id) rows →
  List.filter (Sql.matches [Sql.Eq "id" (VStr id)]) rows = []
  ∧ List.filter (λ r, negb (Sql.matches [Sql.Eq "id" (VStr id)] r)) rows = rows
  ∧ map (λ r, if Sql.matches [Sql.Eq "id" (VStr id)] r then r else r) rows = rows.
Proof.
  induction 1 as [|r rows Hr _ (IH1 & IH2 & IH3)]; [done|].
  assert (Hm : Sql.matches [Sql.Eq "id" (VStr id)] r = false).
  { apply not_true_iff_false. by intros ?%matches_id. }
  cbn [List.filter map]. rewrite Hm. cbn [negb]. by rewrite IH1, IH2, IH3.
Qed.

Lemma contents_set_rows_trades (s : state) (d : Sql.db) :
  Sql.users d = Sql.users (pool s) → Sql.trades d = Sql.trades (pool s) →
  contents (with_pool s (Sql.set_rows d Sql.Trades (Sql.rows (Sql.trades (pool s)))))
  = contents s.
Proof.
  intros Hu Ht. unfold contents. cbn. by rewrite Hu, Ht, table_eta.
Qed.

Lemma contents_set_rows_users (s : state) (d : Sql.db) :
  Sql.users d = Sql.users (pool s) → Sql.trades d = Sql.trades (pool s) →
  contents (with_pool s (Sql.set_rows d Sql.Users (Sql.rows (Sql.users (pool s)))))
  = contents s.
Proof.
  intros Hu Ht. unfold contents. cbn. by rewrite Hu, Ht, table_eta.
Qed.

Lemma update_set_run tbl (pasted sets : list (string * value)) w (d : Sql.db) :
  pasted ≠ [] →
  Sql.run (Sql.UpdateSet tbl pasted sets w) d = Sql.run (Sql.Update tbl (pasted ++ sets) w) d.
Proof. intros Hp. by destruct pasted. Qed.

Lemma update_set_in_fragment tbl (updates : entries) (now : Z) (id : string) :
  Forall (λ k, Sql.is_name k = true) updates.*1 →
  Sql.modelled (Sql.UpdateSet tbl updates [("updated_at", VNum now)] [Sql.Eq "id" (VStr id)])
  = true.
Proof.
  intros Hk. unfold Sql.modelled. cbn [Sql.statement_columns]. rewrite forallb_app.
  apply andb_true_iff. split; [|done].
  apply forallb_forall. intros k Hin. apply list_elem_of_In in Hin.
  by apply (proj1 (Forall_forall _ _) Hk).
Qed.

(** An update through the wrappers that matches no row. *)
Lemma update_set_missing tbl (updates : entries) (now : Z) (id : string) (d : Sql.db) :
  updates ≠ [] →
  Forall (λ k, Sql.is_name k = true ∧ Sql.ident k ∈ Sql.columns (Sql.table_of d tbl))
    updates.*1 →
  "updated_at" ∈ Sql.columns (Sql.table_of d tbl) →
  "id" ∈ Sql.columns (Sql.table_of d tbl) →
  Forall (λ r, Sql.cell r "id" ≠ VStr id) (Sql.rows (Sql.table_of d tbl)) →
  ∃ rs,
    Sql.query (Sql.UpdateSet tbl updates [("updated_at", VNum now)] [Sql.Eq "id" (VStr id)]) d
    = (Sql.Ok rs,
       Sql.set_rows
         (Sql.logged d (Sql.UpdateSet tbl updates [("updated_at", VNum now)]
                          [Sql.Eq "id" (VStr id)]))
         tbl (Sql.rows (Sql.table_of d tbl))).
Proof.
  intros Hne Hkeys Hupd Hid Hrows. destruct (none_matches id _ Hrows) as (Hnone & _ & _).
  assert (Hsets : Sql.unknown_column (Sql.table_of d tbl)
                    (map fst (updates ++ [("updated_at", VNum now)])
                       ++ concat (map Sql.cond_columns [Sql.Eq "id" (VStr id)])) = None).
  { apply unknown_column_ok. rewrite map_app. cbn [map fst concat Sql.cond_columns app].
    rewrite <- app_assoc. apply Forall_app. split.
    - eapply Forall_impl; [exact Hkeys|]. by intros k [_ Hk].
    - by repeat constructor. }
  rewrite query_run, update_set_run; [|done|].
  2:{ apply update_set_in_fragment. eapply Forall_impl; [exact Hkeys|]. by intros k [Hk _]. }
  unfold Sql.run. rewrite table_of_logged, Hsets, map_unmatched by done. by eexists.
Qed.

(** X18: on an id that no stored record has, the store wrappers of
    [db-ops.js] answer differently in the two modes although nothing is
    changed in either. The in-memory store reports the miss: [false] from a
    delete, [null] from an update and [undefined] from the look-up of a
    trade. The relational store reports success: [true] from a delete and,
    from an update whose keys are column names of the table, the object
    [{id, ...updates}]; its look-up of a trade returns [null]; and its
    update with no key at all is refused by the parser. *)
Theorem dbOps_on_a_missing_id (now : Z) (id : string) (updates : entries) (s : state) :
  (MockDatabase.findTradeById (mockDb s) (VStr id) = None →
   dbOps.deleteTrade true (VStr id) s = (Sql.Ok false, s)
   ∧ dbOps.updateTrade true now (VStr id) updates s = (Sql.Ok None, s)
   ∧ dbOps.findTradeById true (VStr id) s = (Sql.Ok (Nil VUndefined), s))
  ∧ (MockDatabase.findUserById (mockDb s) (VStr id) = None →
     dbOps.deleteUser true (VStr id) s = (Sql.Ok false, s)
     ∧ dbOps.updateUser true now (VStr id) updates s = (Sql.Ok None, s))
  ∧ ("id" ∈ Sql.columns (Sql.trades (pool s)) →
     Forall (λ r, Sql.cell r "id" ≠ VStr id) (Sql.rows (Sql.trades (pool s))) →
     (dbOps.deleteTrade false (VStr id) s).1 = Sql.Ok true
     ∧ contents (dbOps.deleteTrade false (VStr id) s).2 = contents s
     ∧ (dbOps.findTradeById false (VStr id) s).1 = Sql.Ok (Nil VNull)
     ∧ (updates = [] →
        (dbOps.updateTrade false now (VStr id) updates s).1 = Sql.Throw Sql.ER_PARSE_ERROR
        ∧ contents (dbOps.updateTrade false now (VStr id) updates s).2 = contents s)
     ∧ (updates ≠ [] →
        Forall (λ k, Sql.is_name k = true
                     ∧ Sql.ident k ∈ Sql.columns (Sql.trades (pool s))) updates.*1 →
        "updated_at" ∈ Sql.columns (Sql.trades (pool s)) →
        (dbOps.updateTrade false now (VStr id) updates s).1
        = Sql.Ok (Some (literal (("id", VStr id) :: updates)))
        ∧ contents (dbOps.updateTrade false now (VStr id) updates s).2 = contents s))
  ∧ ("id" ∈ Sql.columns (Sql.users (pool s)) →
     Forall (λ r, Sql.cell r "id" ≠ VStr id) (Sql.rows (Sql.users (pool s))) →
     (dbOps.deleteUser false (VStr id) s).1 = Sql.Ok true
     ∧ contents (dbOps.deleteUser false (VStr id) s).2 = contents s
     ∧ (updates = [] →
        (dbOps.updateUser false now (VStr id) updates s).1 = Sql.Throw Sql.ER_PARSE_ERROR
        ∧ contents (dbOps.updateUser false now (VStr id) updates s).2 = contents s)
     ∧ (updates ≠ [] →
        Forall (λ k, Sql.is_name k = true
                     ∧ Sql.ident k ∈ Sql.columns (Sql.users (pool s))) updates.*1 →
        "updated_at" ∈ Sql.columns (Sql.users (pool s)) →
        (dbOps.updateUser false now (VStr id) updates s).1
        = Sql.Ok (Some (literal (("id", VStr id) :: updates)))
        ∧ contents (dbOps.updateUser false now (VStr id) updates s).2 = contents s)).
Proof.
  split_and!.
  - unfold MockDatabase.findTradeById, dbOps.deleteTrade, dbOps.updateTrade,
      dbOps.findTradeById, MockDatabase.deleteTrade, MockDatabase.updateTrade,
      MockDatabase.findTradeById.
    destruct (list_find _ (MockDatabase.trades (mockDb s))) as [[??]|]; [done|].
    intros _. by rewrite with_mockDb_same.
  - unfold MockDatabase.findUserById, dbOps.deleteUser, dbOps.updateUser,
      MockDatabase.deleteUser, MockDatabase.updateUser.
    destruct (list_find _ (MockDatabase.users (mockDb s))) as [[??]|]; [done|].
    intros _. by rewrite with_mockDb_same.
  - intros Hin Hrows. destruct (none_matches id _ Hrows) as (Hnone & Hkeep & _).
    assert (Hid : Sql.unknown_column (Sql.trades (pool s)) ["id"] = None).
    { apply unknown_column_ok. by repeat constructor. }
    unfold dbOps.deleteTrade, dbOps.updateTrade, dbOps.findTradeById.
    rewrite (query_select_all None Sql.Trades [Sql.Eq "id" (VStr id)] None (pool s));
      [|reflexivity|exact Hid].
    rewrite (query_run (Sql.Delete _ _)) by reflexivity.
    cbn [Sql.run Sql.table_of Sql.logged Sql.trades concat map
           Sql.cond_columns app Sql.order_by].
    rewrite Hid, Hnone, Hkeep. cbn [fst snd map head].
    split_and!; try done.
    + by apply contents_set_rows_trades.
    + intros ->. by rewrite query_run by reflexivity.
    + intros Hne Hkeys Hupd.
      destruct (update_set_missing Sql.Trades updates now id (pool s)) as [rs ->]; try done.
      split; [done|]. by apply contents_set_rows_trades.
  - intros Hin Hrows. destruct (none_matches id _ Hrows) as (Hnone & Hkeep & _).
    assert (Hid : Sql.unknown_column (Sql.users (pool s)) ["id"] = None).
    { apply unknown_column_ok. by repeat constructor. }
    unfold dbOps.deleteUser, dbOps.updateUser.
    rewrite (query_run (Sql.Delete _ _)) by reflexivity.
    cbn [Sql.run Sql.table_of Sql.logged Sql.users concat map Sql.cond_columns app].
    rewrite Hid, Hkeep. cbn [fst snd].
    split_and!; try done.
    + by apply contents_set_rows_users.
    + intros ->. by rewrite query_run by reflexivity.
    + intros Hne Hkeys Hupd.
      destruct (update_set_missing Sql.Users updates now id (pool s)) as [rs ->]; try done.
      split; [done|]. by apply contents_set_rows_users.
Qed.

Lemma dbOps_on_a_missing_id_witness :
  dbOps.deleteTrade true (VStr "trade-z") Sample.server = (Sql.Ok false, Sample.server)
  ∧ dbOps.findTradeById true (VStr "trade-z") Sample.server
    = (Sql.Ok (Nil VUndefined), Sample.server)
  ∧ (dbOps.deleteTrade false (VStr "trade-z") Sample.server).1 = Sql.Ok true
  ∧ (dbOps.findTradeById false (VStr "trade-z") Sample.server).1 = Sql.Ok (Nil VNull)
  ∧ (dbOps.updateTrade false Sample.today (VStr "trade-z") [("status", VStr "reviewed")]
       Sample.server).1
    = Sql.Ok (Some (literal [("id", VStr "trade-z"); ("status", VStr "reviewed")])).
Proof.
  destruct (dbOps_on_a_missing_id Sample.today "trade-z" [("status", VStr "reviewed")]
              Sample.server) as (Hm & _ & Hr & _).
  destruct Hm as (H1 & _ & H1'); [reflexivity|].
  destruct Hr as (H2 & _ & H3 & _ & H4).
  - apply (bool_decide_unpack _). by vm_compute.
  - apply (bool_decide_unpack _). by vm_compute.
  - destruct H4 as [H4 _]; [done| |apply (bool_decide_unpack _); by vm_compute|].
    + apply (bool_decide_unpack _). by vm_compute.
    + by split_and!.
Defined.

(** ** The order of the relational listings, once more *)

Lemma filter_matches_all (rows : list obj) : List.filter (Sql.matches []) rows = rows.
Proof. induction rows as [|r rows IH]; [done|]. cbn. by rewrite IH. Qed.

(** X19: without pagination, the relational GET /api/trades returns the
    caller's selection of the trades, each once, in descending order of the
    first of [created_at], [updated_at] and [id] that the table has (with
    none of them no order is promised); GET /api/users returns the accounts
    by [created_at], descending; and [dbOps.getAllTrades] returns every
    trade once, by [created_at], descending. *)
Theorem relational_listings_are_ordered (user : Req.user) (q : Query.t) (s : state) :
  Query.page q = None → Query.limit q = None →
  let trades := Sql.trades (pool s) in
  let selection :=
    map (Sql.project (Sql.columns trades))
      (List.filter (Sql.matches (trades_where user q)) (Sql.rows trades)) in
  let listing := listed (json (get_trades false user q s).1) in
  ("user_id" ∈ Sql.columns trades → "status" ∈ Sql.columns trades →
   listing ≡ₚ selection
   ∧ (∀ col, order_column trades = Some col → Sorted (newest_first col) listing))
  ∧ (Forall (λ c, c ∈ Sql.columns (Sql.users (pool s))) users_columns →
     Req.role user = VStr "admin" ∨ Req.role user = VStr "coach" →
     Sorted (newest_first "created_at") (listed (json (get_users false user q s).1)))
  ∧ ("created_at" ∈ Sql.columns trades →
     ∃ l, (dbOps.getAllTrades false s).1 = Sql.Ok l
          ∧ Sorted (newest_first "created_at") l
          ∧ l ≡ₚ map (Sql.project (Sql.columns trades)) (Sql.rows trades)).
Proof.
  intros Hpage Hlimit. cbv zeta. split_and!.
  - intros Hu Hs.
    destruct (get_trades_shape false user q s) as [Hbare _]; [done|].
    rewrite (Hbare Hpage Hlimit). cbn [json listed]. unfold trades_results.
    rewrite orderCol_is_order_column. split.
    + apply Permutation_map, order_by_Permutation.
    + intros col Hcol. rewrite Hcol. destruct (order_column_cases _ _ Hcol) as [Hq Hin].
      apply sorted_projection; [done|done|apply order_by_sorted].
  - intros Hcols Hrole.
    destruct (get_users_shape false user q s) as [Hbare _]; [done|done|].
    rewrite (Hbare Hpage Hlimit). cbn [json listed]. unfold users_results.
    apply sorted_projection; [done| |apply order_by_sorted].
    apply (bool_decide_unpack _). by vm_compute.
  - intros Hc. unfold dbOps.getAllTrades.
    rewrite query_select_all; [|reflexivity|].
    2:{ apply unknown_column_ok. by repeat constructor. }
    eexists. split; [reflexivity|]. cbn [Sql.table_of Sql.selected].
    rewrite filter_matches_all. split.
    + apply sorted_projection; [done|done|apply order_by_sorted].
    + apply Permutation_map, order_by_Permutation.
Qed.

Lemma relational_listings_are_ordered_witness :
  Sorted (newest_first "created_at")
    (listed (json (get_trades false (Sample.session Sample.admin) Sample.no_query
                     Sample.server).1)).
Proof.
  destruct (relational_listings_are_ordered (Sample.session Sample.admin) Sample.no_query
              Sample.server eq_refl eq_refl) as (H & _).
  destruct H as (_ & H).
  - apply (bool_decide_unpack _). by vm_compute.
  - apply (bool_decide_unpack _). by vm_compute.
  - apply H. reflexivity.
Defined.

(** ** Credentials stay inside *)

Section Discretion.

Variable bcrypt_compare : string → string → bool.
Variable jwt_sign : Req.user → string → Z → Z → string.
Variable JWT_SECRET : string.

Lemma discreet_error (code : Z) (msg : string) : discreet (json (reply_error code msg)).
Proof. repeat constructor. Qed.

Lemma login_real_reads (now : Z) (body : entries) :
  preserves same_tables (login_real bcrypt_compare jwt_sign JWT_SECRET now body).
Proof.
  pose proof same_tables_refl as Hrefl. pose proof same_tables_trans as Htrans.
  unfold login_real. cbv zeta.
  apply (preserves_try_catch _ Htrans); [|intros; by apply preserves_ret].
  apply (preserves_bind _ Htrans); [by apply same_tables_read|].
  intros [|user users]; [by apply preserves_ret|].
  destruct (compare _ _ _) as [[|]|]; [|by apply preserves_ret|by apply preserves_throw].
  destruct (strict_eq _ _); by apply preserves_ret.
Qed.

Lemma login_real_discreet (now : Z) (body : entries) :
  returns (λ r, discreet (json r) ∧ status r ∈ [200; 401; 403; 500])
    (login_real bcrypt_compare jwt_sign JWT_SECRET now body).
Proof.
  unfold login_real. cbv zeta.
  apply returns_try_catch.
  - eapply (returns_bind (λ _, True)); [done|].
    intros [|user users] _.
    + apply returns_ret. split; [by repeat constructor|set_solver].
    + destruct (compare _ _ _) as [[|]|].
      * destruct (strict_eq _ _); apply returns_ret;
          (split; [by repeat constructor|set_solver]).
      * apply returns_ret. split; [by repeat constructor|set_solver].
      * apply returns_throw.
  - intros e. apply returns_ret. split; [apply discreet_error|set_solver].
Qed.

(** X20: a login never gives a credential away and never writes: in both
    store modes and whatever the outcome, the reply is one of 200, 400,
    401, 403 and 500, neither it nor its nested user object carries a
    [password_hash] or a [password], and accounts and trades are as
    before. The relational [dbOps.getAllUsers] returns no [password_hash]
    either. *)
Theorem credentials_stay_inside (USE_MOCK_DB : bool) (now : Z) (body : entries)
    (s : state) :
  let out := login bcrypt_compare jwt_sign USE_MOCK_DB JWT_SECRET now body s in
  discreet (json out.1)
  ∧ status out.1 ∈ [200; 400; 401; 403; 500]
  ∧ contents out.2 = contents s
  ∧ (∀ l, (dbOps.getAllUsers false s).1 = Sql.Ok l →
          Forall (λ u, get u "password_hash" = VUndefined ∧ get u "password" = VUndefined) l).
Proof.
  cbv zeta. split_and!.
  1-3: unfold login; destruct (_ || _);
    [first [apply discreet_error|set_solver|done]|]; destruct USE_MOCK_DB.
  - cbn [fst]. unfold login_mock. cbv zeta.
    destruct (MockDatabase.findUserByEmail _ _); [|by repeat constructor].
    destruct (compare _ _ _) as [[|]|]; [|by repeat constructor..].
    destruct (strict_eq _ _); by repeat constructor.
  - unfold on_pool.
    destruct (login_real _ _ _ _ _ _) as [[r|e] d'] eqn:Hrun; cbn [fst].
    + by apply (login_real_discreet now body _ _ _ Hrun).
    + apply discreet_error.
  - cbn [fst]. unfold login_mock. cbv zeta.
    destruct (MockDatabase.findUserByEmail _ _); [|set_solver].
    destruct (compare _ _ _) as [[|]|]; [|set_solver..].
    destruct (strict_eq _ _); set_solver.
  - unfold on_pool.
    destruct (login_real _ _ _ _ _ _) as [[r|e] d'] eqn:Hrun; cbn [fst].
    + destruct (login_real_discreet now body _ _ _ Hrun) as [_ Hst].
      apply elem_of_cons in Hst as [->|Hst]; [by left|]. by do 2 right.
    + set_solver.
  - done.
  - unfold on_pool.
    destruct (login_real _ _ _ _ _ _) as [[r|e] d'] eqn:Hrun; cbn [snd];
      destruct (login_real_reads now body _ _ _ Hrun); by apply contents_with_pool.
  - intros l. unfold dbOps.getAllUsers.
    destruct (Sql.query _ _) as [[rs|e] d'] eqn:Hrun; [|done]. intros [= <-].
    apply returns_select in Hrun; [|reflexivity]. eapply Forall_impl; [exact Hrun|].
    intros u Hu. split; apply Hu; apply (bool_decide_unpack _); by vm_compute.
Qed.

End Discretion.

(** ** The column migration *)

Lemma fields_snoc (l : list Schema.column) (x : Schema.column) :
  fields (l ++ [x]) = <[Schema.Field x := x]> (fields l).
Proof. unfold fields. by rewrite foldl_app. Qed.

Lemma fields_lookup (l : list Schema.column) (k : string) (c : Schema.column) :
  fields l !! k = Some c → c ∈ l ∧ Schema.Field c = k.
Proof.
  induction l as [|x l IH] using rev_ind; [done|]. rewrite fields_snoc.
  destruct (decide (Schema.Field x = k)) as [<-|Hne].
  - rewrite lookup_insert_eq. intros [= <-]. split; [|done].
    apply elem_of_app. right. by left.
  - rewrite lookup_insert_ne by done. intros [Hin Hk]%IH. split; [|done].
    apply elem_of_app. by left.
Qed.

Lemma fields_is_Some (l : list Schema.column) (k : string) :
  is_Some (fields l !! k) ↔ k ∈ Schema.names l.
Proof.
  split.
  - intros [c [Hin <-]%fields_lookup]. apply list_elem_of_fmap. by exists c.
  - induction l as [|x l IH] using rev_ind; [by intros ?%elem_of_nil|].
    unfold Schema.names. rewrite map_app, fields_snoc.
    destruct (decide (Schema.Field x = k)) as [<-|Hne].
    + intros _. rewrite lookup_insert_eq. by eexists.
    + rewrite lookup_insert_ne by done. intros [Hin|Hin]%elem_of_app; [by apply IH|].
      cbn in Hin. by apply list_elem_of_singleton in Hin.
Qed.

Lemma fields_NoDup (l : list Schema.column) (c : Schema.column) :
  NoDup (Schema.names l) → c ∈ l → fields l !! Schema.Field c = Some c.
Proof.
  induction l as [|x l IH] using rev_ind; [by intros _ ?%elem_of_nil|].
  unfold Schema.names. rewrite map_app, fields_snoc. cbn [map].
  intros [Hl [Hx _]]%NoDup_app [Hin| ->%list_elem_of_singleton]%elem_of_app.
  - rewrite lookup_insert_ne; [by apply IH|]. intros Heq.
    apply (Hx (Schema.Field c)); [|rewrite Heq; by left].
    apply list_elem_of_fmap. by exists c.
  - by rewrite lookup_insert_eq.
Qed.

Lemma alter_none (cls : list Schema.clause) :
  foldl (λ acc cl, acc ≫= λ cs, Schema.apply_clause cs cl) None cls = None.
Proof. by induction cls. Qed.

Lemma alter_app (cols : list Schema.column) (a b : list Schema.clause) :
  Schema.alter cols (a ++ b) = Schema.alter cols a ≫= λ c, Schema.alter c b.
Proof.
  unfold Schema.alter. rewrite foldl_app.
  destruct (foldl _ (Some cols) a) as [c|]; [done|]. apply alter_none.
Qed.

Lemma insert_after_ok (a : string) (c : Schema.column) (l : list Schema.column) :
  a ∈ Schema.names l → ∃ l', Schema.insert_after a c l = Some l' ∧ l' ≡ₚ l ++ [c].
Proof.
  induction l as [|x l IH]; [by intros ?%elem_of_nil|]. cbn [Schema.names map Schema.insert_after].
  destruct (String.eqb (Schema.Field x) a) eqn:Hx.
  - intros _. eexists. split; [done|].
    rewrite (Permutation_app_comm (x :: l) [c]). cbn. apply perm_swap.
  - intros [Heq|Hin]%elem_of_cons.
    { apply String.eqb_neq in Hx. congruence. }
    destruct (IH Hin) as (l' & -> & Hl'). eexists. split; [done|]. cbn. by rewrite Hl'.
Qed.

Lemma add_stage (cur : list Schema.column) (b : bool) (n ty : string) (after : option string) :
  (b = false → (n ∉ Schema.names cur) ∧ (∀ a, after = Some a → a ∈ Schema.names cur)) →
  ∃ cur',
    Schema.alter cur (if b then [] else [Schema.AddColumn n ty after]) = Some cur'
    ∧ cur' ≡ₚ cur ++ (if b then [] else [ {| Schema.Field := n; Schema.Type_ := ty |} ]).
Proof.
  destruct b; intros H.
  - exists cur. by rewrite app_nil_r.
  - destruct (H eq_refl) as [Hn Ha]. unfold Schema.alter. cbn.
    rewrite bool_decide_eq_false_2 by done.
    destruct after as [a|]; [|by eexists].
    by apply insert_after_ok, Ha.
Qed.

Lemma modify_stage (cur : list Schema.column) (m : bool) (n ty : string) :
  (m = true → n ∈ Schema.names cur) →
  Schema.alter cur (if m then [Schema.ModifyColumn n ty] else [])
  = Some (map (λ c, if m && String.eqb (Schema.Field c) n
                    then {| Schema.Field := n; Schema.Type_ := ty |} else c) cur).
Proof.
  destruct m; intros H.
  - unfold Schema.alter. cbn. by rewrite bool_decide_eq_true_2 by auto.
  - cbn. f_equal. symmetry. apply map_id.
Qed.

Lemma names_of_perm (cur cols news : list Schema.column) :
  cur ≡ₚ cols ++ news →
  ∀ x, x ∈ Schema.names cur ↔ x ∈ Schema.names cols ∨ x ∈ Schema.names news.
Proof.
  intros P x. unfold Schema.names.
  rewrite (elem_of_Permutation_proper x _ _ (Permutation_map Schema.Field P)).
  rewrite map_app. apply elem_of_app.
Qed.

Lemma ensure_by_alter (cols cur : list Schema.column) :
  Schema.alter cols (alters cols) = Some cur →
  ensureTradeColumns false cols
  = (cur, if Nat.ltb 0 (length (alters cols)) then Some (alters cols) else None).
Proof.
  intros H. unfold ensureTradeColumns. cbv zeta.
  destruct (alters cols) as [|cl cls] eqn:Ha.
  - cbn in *. by injection H as <-.
  - cbn [length Nat.ltb Nat.leb]. by rewrite H.
Qed.

(** The clauses, with the tests of the handler written as booleans. *)
Lemma alters_stages (cols : list Schema.column) :
  alters cols =
  (if bool_decide (is_Some (fields cols !! "chart_before_url")) then []
   else [Schema.AddColumn "chart_before_url" "longtext" (Some "display_unit")]) ++
  (if bool_decide (is_Some (fields cols !! "chart_after_url")) then []
   else [Schema.AddColumn "chart_after_url" "longtext" (Some "chart_before_url")]) ++
  (if bool_decide (is_Some (fields cols !! "reviewed_by")) then []
   else [Schema.AddColumn "reviewed_by" "varchar(255)" (Some "chart_after_url")]) ++
  (if bool_decide (is_Some (fields cols !! "created_at")) then []
   else [Schema.AddColumn "created_at" "datetime" None]) ++
  (if bool_decide (is_Some (fields cols !! "updated_at")) then []
   else [Schema.AddColumn "updated_at" "datetime" None]) ++
  (if too_small cols "chart_before_url"
   then [Schema.ModifyColumn "chart_before_url" "longtext"] else []) ++
  (if too_small cols "chart_after_url"
   then [Schema.ModifyColumn "chart_after_url" "longtext"] else []).
Proof.
  unfold alters, too_small. cbv zeta. do 5 f_equal.
  destruct (fields cols !! "chart_before_url") as [c|];
    destruct (fields cols !! "chart_after_url") as [c'|]; done.
Qed.

Lemma ensured_fixed (m1 m2 : bool) :
  Forall (λ c,
            (λ c, if m2 && String.eqb (Schema.Field c) "chart_after_url"
                  then {| Schema.Field := "chart_after_url"; Schema.Type_ := "longtext" |}
                  else c)
              ((λ c, if m1 && String.eqb (Schema.Field c) "chart_before_url"
                     then {| Schema.Field := "chart_before_url"; Schema.Type_ := "longtext" |}
                     else c) c) = c) ensured_columns.
Proof. destruct m1, m2; repeat constructor. Qed.

Lemma upgraded_by_modify (cols : list Schema.column) (c : Schema.column) :
  NoDup (Schema.names cols) → c ∈ cols →
  (λ c, if too_small cols "chart_after_url" && String.eqb (Schema.Field c) "chart_after_url"
        then {| Schema.Field := "chart_after_url"; Schema.Type_ := "longtext" |}
        else c)
    ((λ c, if too_small cols "chart_before_url"
              && String.eqb (Schema.Field c) "chart_before_url"
           then {| Schema.Field := "chart_before_url"; Schema.Type_ := "longtext" |}
           else c) c)
  = upgraded c.
Proof.
  intros Hnd Hc. cbv beta. pose proof (fields_NoDup cols c Hnd Hc) as Hf.
  unfold upgraded, too_small.
  destruct (String.eqb (Schema.Field c) "chart_before_url") eqn:Hb.
  - apply String.eqb_eq in Hb. rewrite Hb in Hf. rewrite Hf, Hb. cbn [orb andb].
    rewrite andb_true_r. destruct (small_text (Schema.Type_ c)); cbn [andb].
    + by rewrite andb_false_r.
    + rewrite Hb. cbn. by rewrite andb_false_r.
  - rewrite andb_false_r. cbn [orb].
    destruct (String.eqb (Schema.Field c) "chart_after_url") eqn:Ha.
    + apply String.eqb_eq in Ha. rewrite Ha in Hf. rewrite Hf, Ha. by rewrite andb_true_r.
    + by rewrite andb_false_r.
Qed.

Lemma news_filter (cols : list Schema.column) (b1 b2 b3 b4 b5 : bool) :
  (b1 = true ↔ "chart_before_url" ∈ Schema.names cols) →
  (b2 = true ↔ "chart_after_url" ∈ Schema.names cols) →
  (b3 = true ↔ "reviewed_by" ∈ Schema.names cols) →
  (b4 = true ↔ "created_at" ∈ Schema.names cols) →
  (b5 = true ↔ "updated_at" ∈ Schema.names cols) →
  filter (λ c, Schema.Field c ∉ Schema.names cols) ensured_columns
  = (if b1 then [] else [ {| Schema.Field := "chart_before_url"; Schema.Type_ := "longtext" |} ])
    ++ (if b2 then [] else [ {| Schema.Field := "chart_after_url"; Schema.Type_ := "longtext" |} ])
    ++ (if b3 then [] else [ {| Schema.Field := "reviewed_by"; Schema.Type_ := "varchar(255)" |} ])
    ++ (if b4 then [] else [ {| Schema.Field := "created_at"; Schema.Type_ := "datetime" |} ])
    ++ (if b5 then [] else [ {| Schema.Field := "updated_at"; Schema.Type_ := "datetime" |} ]).
Proof.
  intros H1 H2 H3 H4 H5. unfold ensured_columns.
  assert (Hstep : ∀ (b : bool) c l,
            (b = true ↔ Schema.Field c ∈ Schema.names cols) →
            filter (λ c, Schema.Field c ∉ Schema.names cols) (c :: l)
            = (if b then [] else [c])
              ++ filter (λ c, Schema.Field c ∉ Schema.names cols) l).
  { intros b c l Hb. destruct b.
    - rewrite filter_cons_False; [done|]. intros Hn. apply Hn. by apply Hb.
    - rewrite filter_cons_True; [done|]. intros Hin. apply Hb in Hin. done. }
  rewrite (Hstep b1), (Hstep b2), (Hstep b3), (Hstep b4), (Hstep b5) by done.
  by rewrite app_nil_r.
Qed.

Lemma map_fixed {A} (f : A → A) (l : list A) : Forall (λ x, f x = x) l → map f l = l.
Proof. induction 1 as [|x l Hx _ IH]; [done|]. cbn. by rewrite Hx, IH. Qed.

Lemma list_filter_Forall {A} (P Q : A → Prop) `{!∀ x, Decision (Q x)} (l : list A) :
  Forall P l → Forall P (filter Q l).
Proof.
  intros Hl. apply Forall_forall. intros x [_ Hx]%list_elem_of_filter.
  by apply (proj1 (Forall_forall _ _) Hl x).
Qed.

Ltac absurd_member H := revert H; apply (bool_decide_unpack _); by vm_compute.
Ltac member := apply (bool_decide_unpack _); by vm_compute.

Lemma alter_alters (cols : list Schema.column) :
  NoDup (Schema.names cols) →
  "display_unit" ∈ Schema.names cols ∨ "chart_before_url" ∈ Schema.names cols →
  ∃ cur,
    Schema.alter cols (alters cols) = Some cur
    ∧ cur ≡ₚ map upgraded cols
             ++ filter (λ c, Schema.Field c ∉ Schema.names cols) ensured_columns.
Proof.
  intros Hnd Hanchor. rewrite alters_stages.
  assert (Hhas : ∀ k, bool_decide (is_Some (fields cols !! k)) = true
                      ↔ k ∈ Schema.names cols).
  { intros k. rewrite bool_decide_eq_true. apply fields_is_Some. }
  pose proof (news_filter cols _ _ _ _ _ (Hhas _) (Hhas _) (Hhas _) (Hhas _) (Hhas _))
    as Hnews.
  set (small := too_small cols).
  assert (Hsmall : ∀ k, small k = true → k ∈ Schema.names cols).
  { intros k. unfold small, too_small. destruct (fields cols !! k) as [c|] eqn:Hk; [|done].
    intros _. apply fields_is_Some. by rewrite Hk. }
  pose proof (Hhas "chart_before_url") as H1. pose proof (Hhas "chart_after_url") as H2.
  pose proof (Hhas "reviewed_by") as H3. pose proof (Hhas "created_at") as H4.
  pose proof (Hhas "updated_at") as H5.
  set (b1 := bool_decide (is_Some (fields cols !! "chart_before_url"))) in *.
  set (b2 := bool_decide (is_Some (fields cols !! "chart_after_url"))) in *.
  set (b3 := bool_decide (is_Some (fields cols !! "reviewed_by"))) in *.
  set (b4 := bool_decide (is_Some (fields cols !! "created_at"))) in *.
  set (b5 := bool_decide (is_Some (fields cols !! "updated_at"))) in *.
  clearbody b1 b2 b3 b4 b5. clear Hhas.
  (* the five additions *)
  destruct (add_stage cols b1 "chart_before_url" "longtext" (Some "display_unit"))
    as (c1 & A1 & P1).
  { intros ->. split.
    - intros Hin. by apply H1 in Hin.
    - intros a [= <-]. destruct Hanchor as [|Hin]; [done|]. by apply H1 in Hin. }
  pose proof (names_of_perm _ _ _ P1) as M1.
  destruct (add_stage c1 b2 "chart_after_url" "longtext" (Some "chart_before_url"))
    as (c2 & A2 & P2).
  { intros ->. split.
    - intros [Hin|Hin]%M1; [by apply H2 in Hin|]. destruct b1; absurd_member Hin.
    - intros a [= <-]. apply M1. destruct b1; [left; by apply H1|right; member]. }
  rewrite P1, <- !app_assoc in P2. pose proof (names_of_perm _ _ _ P2) as M2.
  destruct (add_stage c2 b3 "reviewed_by" "varchar(255)" (Some "chart_after_url"))
    as (c3 & A3 & P3).
  { intros ->. split.
    - intros [Hin|Hin]%M2; [by apply H3 in Hin|]. destruct b1, b2; absurd_member Hin.
    - intros a [= <-]. apply M2.
      destruct b2; [left; by apply H2|right; destruct b1; member]. }
  rewrite P2, <- !app_assoc in P3. pose proof (names_of_perm _ _ _ P3) as M3.
  destruct (add_stage c3 b4 "created_at" "datetime" None) as (c4 & A4 & P4).
  { intros ->. split; [|done].
    intros [Hin|Hin]%M3; [by apply H4 in Hin|].
    destruct b1, b2, b3; absurd_member Hin. }
  rewrite P3, <- !app_assoc in P4. pose proof (names_of_perm _ _ _ P4) as M4.
  destruct (add_stage c4 b5 "updated_at" "datetime" None) as (c5 & A5 & P5).
  { intros ->. split; [|done].
    intros [Hin|Hin]%M4; [by apply H5 in Hin|].
    destruct b1, b2, b3, b4; absurd_member Hin. }
  rewrite P4, <- !app_assoc in P5. pose proof (names_of_perm _ _ _ P5) as M5.
  (* the two upgrades *)
  pose proof (modify_stage c5 (small "chart_before_url") "chart_before_url" "longtext") as A6.
  pose proof (modify_stage
                (map (λ c, if small "chart_before_url"
                              && String.eqb (Schema.Field c) "chart_before_url"
                           then {| Schema.Field := "chart_before_url";
                                   Schema.Type_ := "longtext" |}
                           else c) c5)
                (small "chart_after_url") "chart_after_url" "longtext") as A7.
  eexists. split.
  - rewrite alter_app, A1. cbn [mbind option_bind].
    rewrite alter_app, A2. cbn [mbind option_bind].
    rewrite alter_app, A3. cbn [mbind option_bind].
    rewrite alter_app, A4. cbn [mbind option_bind].
    rewrite alter_app, A5. cbn [mbind option_bind].
    rewrite alter_app, A6. 2:{ intros Hs. apply M5. left. by apply Hsmall. }
    cbn [mbind option_bind]. rewrite A7; [done|].
    intros Hs. unfold Schema.names. rewrite map_map.
    assert (Hin : "chart_after_url" ∈ Schema.names c5) by (apply M5; left; by apply Hsmall).
    apply list_elem_of_fmap in Hin as (c & Hc & Hin). apply list_elem_of_fmap.
    exists c. split; [|done]. rewrite Hc.
    destruct (small "chart_before_url" && _) eqn:Hm; [|done].
    apply andb_true_iff in Hm as [_ Hm%String.eqb_eq]. congruence.
  - rewrite map_map.
    match goal with |- map ?f _ ≡ₚ _ => set (g := f) end.
    assert (E1 : map g cols = map upgraded cols).
    { apply map_ext_in. intros c Hc%list_elem_of_In.
      by apply (upgraded_by_modify cols c). }
    assert (E2 : map g (filter (λ c, Schema.Field c ∉ Schema.names cols) ensured_columns)
                 = filter (λ c, Schema.Field c ∉ Schema.names cols) ensured_columns).
    { apply map_fixed, list_filter_Forall.
      exact (ensured_fixed (small "chart_before_url") (small "chart_after_url")). }
    rewrite <- E1, <- E2, <- map_app. apply Permutation_map. by rewrite Hnews.
Qed.

Lemma insert_after_none (a : string) (c : Schema.column) (l : list Schema.column) :
  a ∉ Schema.names l → Schema.insert_after a c l = None.
Proof.
  induction l as [|x l IH]; [done|]. cbn [Schema.names map Schema.insert_after].
  intros [Hx Hl]%not_elem_of_cons. apply not_eq_sym, String.eqb_neq in Hx.
  rewrite Hx. by rewrite IH.
Qed.

Lemma names_upgraded (cols : list Schema.column) :
  Schema.names (map upgraded cols) = Schema.names cols.
Proof.
  unfold Schema.names. rewrite map_map. apply map_ext. intros c. unfold upgraded.
  by destruct (_ && _).
Qed.

Lemma upgraded_not_small (c : Schema.column) :
  Schema.Field (upgraded c) ∈ ["chart_before_url"; "chart_after_url"] →
  small_text (Schema.Type_ (upgraded c)) = false.
Proof.
  unfold upgraded.
  destruct (String.eqb (Schema.Field c) "chart_before_url") eqn:Hb;
    destruct (String.eqb (Schema.Field c) "chart_after_url") eqn:Ha;
    destruct (small_text (Schema.Type_ c)) eqn:Hs; cbn [orb andb]; try done.
  intros [Heq|[Heq|[]%elem_of_nil]%elem_of_cons]%elem_of_cons.
  - apply String.eqb_neq in Hb. done.
  - apply String.eqb_neq in Ha. done.
Qed.

(** X21: [ensureTradeColumns] does nothing in mock mode. On a trades table
    with distinct column names that has [display_unit] or
    [chart_before_url], its one [ALTER TABLE] succeeds: afterwards the table
    has the columns it had, a chart column of a small text type upgraded to
    [longtext] and nothing else changed, together with those of
    [chart_before_url], [chart_after_url], [reviewed_by], [created_at] and
    [updated_at] that were missing; so every optional column and every
    column the clean-up names is there, no chart column has a small text
    type, and a second call sends nothing. On a table with neither of the
    two columns the statement fails and the table is as before. *)
Theorem ensureTradeColumns_migrates (cols : list Schema.column) :
  NoDup (Schema.names cols) →
  let out := ensureTradeColumns false cols in
  ensureTradeColumns true cols = (cols, None)
  ∧ ("display_unit" ∈ Schema.names cols ∨ "chart_before_url" ∈ Schema.names cols →
     out.1 ≡ₚ map upgraded cols
              ++ filter (λ c, Schema.Field c ∉ Schema.names cols) ensured_columns
     ∧ NoDup (Schema.names out.1)
     ∧ Forall (λ k, k ∈ Schema.names out.1) (optional_columns ++ sweep_columns)
     ∧ Forall (λ c, Schema.Field c ∈ ["chart_before_url"; "chart_after_url"] →
                    small_text (Schema.Type_ c) = false) out.1
     ∧ ensureTradeColumns false out.1 = (out.1, None))
  ∧ ("display_unit" ∉ Schema.names cols → "chart_before_url" ∉ Schema.names cols →
     out = (cols, Some (alters cols))).
Proof.
  intros Hnd. cbv zeta. split_and!; [done| |].
  - intros Hanchor. destruct (alter_alters cols Hnd Hanchor) as (cur & Halter & Hperm).
    rewrite (ensure_by_alter cols cur Halter). cbn [fst].
    set (news := filter (λ c, Schema.Field c ∉ Schema.names cols) ensured_columns) in *.
    assert (Hnames : ∀ k, k ∈ Schema.names cur
                          ↔ k ∈ Schema.names cols ∨ k ∈ Schema.names news).
    { intros k. rewrite (names_of_perm _ _ _ Hperm). by rewrite names_upgraded. }
    assert (Hensured : Forall (λ c, Schema.Field c ∈ Schema.names cur) ensured_columns).
    { apply Forall_forall. intros c Hc. apply Hnames.
      destruct (decide (Schema.Field c ∈ Schema.names cols)) as [Hin|Hin]; [by left|].
      right. apply list_elem_of_fmap. exists c. split; [done|].
      by apply list_elem_of_filter. }
    assert (Htypes : Forall (λ c, Schema.Field c ∈ ["chart_before_url"; "chart_after_url"] →
                                  small_text (Schema.Type_ c) = false) cur).
    { apply Forall_forall. intros c Hc.
      rewrite (elem_of_Permutation_proper c _ _ Hperm) in Hc.
      apply elem_of_app in Hc as [(c0 & -> & _)%list_elem_of_fmap|Hc].
      - apply upgraded_not_small.
      - apply list_elem_of_filter in Hc as [_ Hc]. intros _. revert c Hc.
        apply Forall_forall. by repeat constructor. }
    assert (Hpresent : ∀ k, k ∈ Schema.names ensured_columns → k ∈ Schema.names cur).
    { intros k (c & -> & Hc)%list_elem_of_fmap.
      by apply (proj1 (Forall_forall _ _) Hensured). }
    split_and!.
    + done.
    + unfold Schema.names. rewrite (Permutation_map Schema.Field Hperm), map_app.
      fold (Schema.names (map upgraded cols)). rewrite names_upgraded.
      apply NoDup_app. split_and!; [done| |].
      * intros k Hk (c & -> & [Hc _]%list_elem_of_filter)%list_elem_of_fmap. done.
      * apply (sublist_NoDup _ (Schema.names ensured_columns)).
        -- apply (bool_decide_unpack _). by vm_compute.
        -- apply (fmap_sublist Schema.Field), sublist_filter.
    + apply Forall_forall. intros k Hk. apply Hpresent. revert k Hk.
      apply Forall_forall. repeat constructor; member.
    + done.
    + assert (Hhas : ∀ k, k ∈ Schema.names ensured_columns →
                          bool_decide (is_Some (fields cur !! k)) = true).
      { intros k Hk. apply bool_decide_eq_true, fields_is_Some. by apply Hpresent. }
      assert (Hsmall : ∀ k, k ∈ ["chart_before_url"; "chart_after_url"] →
                            too_small cur k = false).
      { intros k Hk. unfold too_small. destruct (fields cur !! k) as [c|] eqn:Hc; [|done].
        apply fields_lookup in Hc as [Hin <-].
        by apply (proj1 (Forall_forall _ _) Htypes c). }
      assert (Hnone : alters cur = []).
      { rewrite alters_stages. rewrite !Hhas by member. rewrite !Hsmall by member. done. }
      unfold ensureTradeColumns. cbv zeta. by rewrite Hnone.
  - intros Hd Hb.
    assert (Hfirst : bool_decide (is_Some (fields cols !! "chart_before_url")) = false).
    { apply bool_decide_eq_false. by intros ?%fields_is_Some. }
    assert (Hfail : ∃ rest, alters cols
                     = Schema.AddColumn "chart_before_url" "longtext" (Some "display_unit")
                       :: rest
                     ∧ Schema.alter cols (alters cols) = None).
    { rewrite alters_stages, Hfirst. eexists. split; [reflexivity|].
      unfold Schema.alter. cbn [app foldl mbind option_bind Schema.apply_clause].
      rewrite bool_decide_eq_false_2 by done. rewrite insert_after_none by done.
      apply alter_none. }
    destruct Hfail as (rest & Ha & Hnone). unfold ensureTradeColumns. cbv zeta.
    rewrite Hnone. by rewrite Ha.
Qed.

Lemma ensureTradeColumns_migrates_witness :
  Forall (λ k, k ∈ Schema.names (ensureTradeColumns false SampleSchema.small).1)
    (optional_columns ++ sweep_columns)
  ∧ ensureTradeColumns false (ensureTradeColumns false SampleSchema.small).1
    = ((ensureTradeColumns false SampleSchema.small).1, None).
Proof.
  assert (Hnd : NoDup (Schema.names SampleSchema.small)) by member.
  destruct (ensureTradeColumns_migrates SampleSchema.small Hnd) as (_ & H & _).
  destruct H as (_ & _ & H3 & _ & H5); [right; member|]. by split.
Defined.
